(** * CAMELS US loaders: a shallow embedding of [camelsus.py]

    The three loaders of [camelsus.py] are embedded over
    - a directory tree whose files hold text,
    - data frames in the style of pandas: labelled columns of cells under
      an index,
    - IEEE 754 binary64 arithmetic, taken from the Standard Library's
      [SpecFloat] (precision 53, maximal exponent 1024), and
    - Python exceptions as the error side of a result type.

    What belongs to Python or pandas and not to the repository (the
    file-name matcher of [Path.glob], [pandas.read_csv], the text of a
    finite float, the range of representable timestamps) is a variable of
    the section that holds the loaders; the statements about the loaders
    hold for every choice of them.

    The file goes from the data (exceptions, the tree, floats, strings,
    dates, frames) to the loaders, to the lemmas about each step, and to
    the statements about the loaders, each followed on the example trees
    at the end.

    Conventions of the embedding:
    - the text of a file is ASCII, and has its lines ended by the newline
      character;
    - a search lists the matches of a directory in the order of its
      entries, before those of its subdirectories;
    - the cells of an [int64] column are integers, without a bound;
    - [pd.concat] without sorting lists the labels in the order they first
      appear;
    - whether a write to a column reached through a frame is a write to
      the frame depends on the pandas that runs the code: it is without
      copy-on-write, and is not with it (the default from pandas 3). The
      mode is a variable of the section as well. *)

From Stdlib Require Import ZArith List String Ascii Bool Lia.
From Stdlib Require Import QArith Qabs.
From Stdlib Require Import SpecFloat.
From Stdlib Require Import Decimal DecimalString DecimalZ.
Import ListNotations.

#[local] Open Scope string_scope.
#[local] Open Scope Z_scope.
#[local] Open Scope list_scope.

#[local] Arguments Ascii.eqb : simpl never.
#[local] Arguments String.eqb : simpl never.

(** ** Exceptions and results *)

(** The exceptions the loaders can end in, with the message where the
    source gives one. *)
Inductive exn : Type :=
  | RuntimeError (msg : string)
  | OSError (msg : string)
  | FileNotFoundError (msg : string)
  | IsADirectoryError (msg : string)
  | ValueError (msg : string)
  | KeyError (msg : string)
  | AttributeError (msg : string)
  | TypeError (msg : string)
  | OverflowError (msg : string)
  | InvalidIndexError (msg : string)
  | OtherError (msg : string).

Inductive result (A : Type) : Type :=
  | Ok (a : A)
  | Raise (e : exn).

Arguments Ok {A} a.
Arguments Raise {A} e.

Definition bind {A B : Type} (r : result A) (k : A -> result B) : result B :=
  match r with
  | Ok a => k a
  | Raise e => Raise e
  end.

Notation "x <- r ;; k" := (bind r (fun x => k))
  (at level 61, r at next level, right associativity).
Notation "' p <- r ;; k" := (bind r (fun p => k))
  (at level 61, p pattern, r at next level, right associativity).

(** [for x in xs: ys.append(f x)], stopping at the first exception. *)
Fixpoint mapM {A B : Type} (f : A -> result B) (xs : list A) : result (list B) :=
  match xs with
  | [] => Ok []
  | x :: xs' => y <- f x ;; ys <- mapM f xs' ;; Ok (y :: ys)
  end.

(** ** The directory tree *)

#[warnings="-register-all"]
Inductive node : Type :=
  | File (text : string)
  | Dir (entries : list (string * node)).

(** A path is the list of its components below the root of the tree;
    [p / name] appends one component. *)
Definition path : Type := list string.

Definition joinpath (p : path) (name : string) : path := (p ++ [name])%list.

Definition path_str (p : path) : string := String.concat "/" p.

Fixpoint find_entry (name : string) (es : list (string * node)) : option node :=
  match es with
  | [] => None
  | (n, c) :: es' => if String.eqb n name then Some c else find_entry name es'
  end.

Fixpoint resolve (fs : node) (p : path) : option node :=
  match p with
  | [] => Some fs
  | name :: p' =>
      match fs with
      | File _ => None
      | Dir es =>
          match find_entry name es with
          | Some c => resolve c p'
          | None => None
          end
      end
  end.

(** [Path.exists()] and [Path.is_dir()]. *)
Definition path_exists (fs : node) (p : path) : bool :=
  match resolve fs p with Some _ => true | None => false end.

Definition path_is_dir (fs : node) (p : path) : bool :=
  match resolve fs p with Some (Dir _) => true | _ => false end.

(** [open(p, 'r')] followed by reading the text. *)
Definition open_read (fs : node) (p : path) : result string :=
  match resolve fs p with
  | Some (File text) => Ok text
  | Some (Dir _) => Raise (IsADirectoryError (path_str p))
  | None => Raise (FileNotFoundError (path_str p))
  end.

Section Glob.
(** [fnmatch name pattern]: Python's file-name matching. *)
Variable fnmatch : string -> string -> bool.

Definition matching_entries (pat : string) (p : path) (es : list (string * node))
  : list path :=
  map (fun e => joinpath p (fst e)) (filter (fun e => fnmatch (fst e) pat) es).

(** [p.glob(pat)] for a pattern of one component: the entries of the
    directory [p] whose name matches, in directory order; nothing when
    [p] is no directory. *)
Definition glob_here (pat : string) (p : path) (n : option node) : list path :=
  match n with
  | Some (Dir es) => matching_entries pat p es
  | _ => []
  end.

(** [p.glob('**/' + pat)] below the node [n] at path [p]: the matches in
    the directory itself, then those of each subdirectory in turn. *)
Fixpoint glob_tree (pat : string) (p : path) (n : node) {struct n} : list path :=
  match n with
  | File _ => []
  | Dir es =>
      (matching_entries pat p es ++
       (fix walk (l : list (string * node)) : list path :=
          match l with
          | [] => []
          | (name, c) :: l' => glob_tree pat (joinpath p name) c ++ walk l'
          end) es)%list
  end.

Definition glob_rec (fs : node) (pat : string) (p : path) : list path :=
  match resolve fs p with
  | Some n => glob_tree pat p n
  | None => []
  end.

(** Whether an entry of the directory [n], at any depth, has a name that
    matches. *)
Fixpoint has_match (pat : string) (n : node) {struct n} : bool :=
  match n with
  | File _ => false
  | Dir es =>
      existsb (fun e => fnmatch (fst e) pat) es
      || (fix any (l : list (string * node)) : bool :=
            match l with
            | [] => false
            | (_, c) :: l' => has_match pat c || any l'
            end) es
  end.
End Glob.

(** ** Binary64 arithmetic *)

Definition prec : Z := 53.
Definition emax : Z := 1024.

Definition float : Type := spec_float.

Definition fmul : float -> float -> float := SFmul prec emax.
Definition fdiv : float -> float -> float := SFdiv prec emax.
Definition flt : float -> float -> bool := SFltb.

Definition nan : float := S754_nan.

(** The double nearest to an integer (ties to even); an integer beyond the
    range of the format rounds to an infinity here. *)
Definition float_of_Z (z : Z) : float := binary_normalize prec emax z 0 false.

(** Python's conversion of an [int] operand of float arithmetic: an integer
    too large for a double is an [OverflowError]. *)
Definition float_of_int (z : Z) : result float :=
  match float_of_Z z with
  | S754_infinity _ => Raise (OverflowError "int too large to convert to float")
  | f => Ok f
  end.

(** The literal [28316846.592]: the double nearest to 28316846592/1000,
    which the correctly rounded quotient of the two integers is. *)
Definition cfs_factor : float :=
  Eval vm_compute in fdiv (float_of_Z 28316846592) (float_of_Z 1000).

Definition seconds_per_day : float := Eval vm_compute in float_of_Z 86400.

Definition fzero : float := S754_zero false.

(** The rational a float stands for; none for NaN and the infinities. *)
Definition float_to_Q (f : float) : option Q :=
  match f with
  | S754_zero _ => Some 0%Q
  | S754_finite s m e =>
      let q := (if 0 <=? e then inject_Z (Z.pos m * 2 ^ e)
                else Qmake (Z.pos m) (Z.to_pos (2 ^ (- e)))) in
      Some (if s then Qopp q else q)
  | _ => None
  end.

(** ** Python strings and integers *)

(** [str(z)] for an [int]. *)
Definition py_str_int (z : Z) : string := NilZero.string_of_int (Z.to_int z).

(** The characters [int()] skips around a literal of ASCII text: the
    space, and the tab, line feed, vertical tab, form feed and carriage
    return. *)
Definition is_space (c : ascii) : bool :=
  let n := nat_of_ascii c in
  (((9 <=? n) && (n <=? 13)) || (n =? 32))%nat.

Fixpoint lstrip (s : string) : string :=
  match s with
  | String c s' => if is_space c then lstrip s' else s
  | EmptyString => EmptyString
  end.

Definition string_rev (s : string) : string :=
  string_of_list_ascii (List.rev (list_ascii_of_string s)).

Definition strip (s : string) : string :=
  string_rev (lstrip (string_rev (lstrip s))).

(** The value of a non-empty run of decimal digits. *)
Definition digits_value (s : string) : option Z :=
  option_map Z.of_uint (NilZero.uint_of_string s).

(** Underscores are allowed singly between two digits of an integer
    literal; [drop_underscores] removes them or fails. *)
Fixpoint drop_underscores (after_digit : bool) (s : string) : option string :=
  match s with
  | EmptyString => if after_digit then Some EmptyString else None
  | String c s' =>
      if Ascii.eqb c "_"
      then (if after_digit then drop_underscores false s' else None)
      else option_map (String c) (drop_underscores true s')
  end.

(** [int(s)] in base ten: blanks around, an optional sign, digits. *)
Definition py_int (s : string) : option Z :=
  let t := strip s in
  let '(negative, body) :=
    match t with
    | String c r =>
        if Ascii.eqb c "-" then (true, r)
        else if Ascii.eqb c "+" then (false, r)
        else (false, t)
    | EmptyString => (false, t)
    end in
  match drop_underscores false body with
  | Some ds => option_map (fun v => if negative then - v else v) (digits_value ds)
  | None => None
  end.

Fixpoint zeros (n : nat) : string :=
  match n with
  | O => EmptyString
  | S n' => String "0" (zeros n')
  end.

(** [s.zfill(width)]: zeros on the left, after a leading sign, up to
    [width] characters; a longer string is returned as it is. *)
Definition zfill (width : nat) (s : string) : string :=
  let n := String.length s in
  if (width <=? n)%nat then s
  else
    match s with
    | String c r =>
        if Ascii.eqb c "+" || Ascii.eqb c "-"
        then String c (zeros (width - n) ++ r)%string
        else (zeros (width - n) ++ s)%string
    | EmptyString => zeros width
    end.

(** [fp.readline()]: the text up to and including the first newline, and
    what remains of the stream. *)
Fixpoint readline (s : string) : string * string :=
  match s with
  | EmptyString => (EmptyString, EmptyString)
  | String c s' =>
      if Ascii.eqb c "010" then (String c EmptyString, s')
      else let '(l, r) := readline s' in (String c l, r)
  end.

Fixpoint has_char (c : ascii) (s : string) : bool :=
  match s with
  | EmptyString => false
  | String a s' => Ascii.eqb a c || has_char c s'
  end.

(** A string of blanks only, and a string without any blank. *)
Fixpoint blank (s : string) : bool :=
  match s with
  | EmptyString => true
  | String c s' => is_space c && blank s'
  end.

Fixpoint spaceless (s : string) : bool :=
  match s with
  | EmptyString => true
  | String c s' => negb (is_space c) && spaceless s'
  end.

Definition digit_chars : list ascii :=
  ["0"; "1"; "2"; "3"; "4"; "5"; "6"; "7"; "8"; "9"]%char.

(** [s.split(sep)] for a separator of one character. *)
Fixpoint split_on (sep : ascii) (s : string) : list string :=
  match s with
  | EmptyString => [EmptyString]
  | String c s' =>
      if Ascii.eqb c sep then EmptyString :: split_on sep s'
      else
        match split_on sep s' with
        | f :: fs => String c f :: fs
        | [] => [String c EmptyString]
        end
  end.

(** ** Calendar dates *)

(** A pandas [Timestamp]: a calendar date and a time of day. *)
Record Timestamp : Type := mkTimestamp {
  ts_year : Z;
  ts_month : Z;
  ts_day : Z;
  ts_hour : Z;
  ts_minute : Z;
  ts_second : Z;
  ts_nanosecond : Z
}.

(** The timestamp of a date parsed with a format that has no time fields. *)
Definition midnight (y m d : Z) : Timestamp := mkTimestamp y m d 0 0 0 0.

Definition is_leap (y : Z) : bool :=
  (y mod 4 =? 0) && (negb (y mod 100 =? 0) || (y mod 400 =? 0)).

Definition days_in_month (y m : Z) : Z :=
  match m with
  | 1 | 3 | 5 | 7 | 8 | 10 | 12 => 31
  | 4 | 6 | 9 | 11 => 30
  | 2 => if is_leap y then 29 else 28
  | _ => 0
  end.

(** The directive [%Y]: exactly four digits. *)
Definition parse_Y (f : string) : option Z :=
  if (String.length f =? 4)%nat then digits_value f else None.

(** The directive [%m]: [1[0-2]|0[1-9]|[1-9]]. *)
Definition parse_m (f : string) : option Z :=
  match digits_value f with
  | Some v => if (String.length f <=? 2)%nat && (1 <=? v) && (v <=? 12) then Some v else None
  | None => None
  end.

(** The directive [%d]: [3[01]|[12]\d|0[1-9]|[1-9]| [1-9]]. *)
Definition parse_d (f : string) : option Z :=
  let digits :=
    match f with
    | String c r => if Ascii.eqb c " " then r else f
    | EmptyString => f
    end in
  match digits_value digits with
  | Some v =>
      if (String.length f <=? 2)%nat && (1 <=? v) && (v <=? 31)
         && ((String.length digits =? String.length f)%nat || (v <=? 9))
      then Some v else None
  | None => None
  end.

(** Parsing one string with the format [%Y/%m/%d]: the three fields
    between the slashes, then the calendar check of the day. *)
Definition strptime_ymd (s : string) : result (Z * Z * Z) :=
  match split_on "/" s with
  | [fy; fm; fd] =>
      match parse_Y fy, parse_m fm, parse_d fd with
      | Some y, Some m, Some d =>
          if d <=? days_in_month y m then Ok (y, m, d)
          else Raise (ValueError "day is out of range for month")
      | _, _, _ => Raise (ValueError "time data does not match format %Y/%m/%d")
      end
  | _ => Raise (ValueError "time data does not match format %Y/%m/%d")
  end.

(** ** Data frames *)

(** A cell of a table. A column of dtype [int64] holds [SInt] cells, one
    of dtype [float64] holds [SFloat] cells (NaN marks a missing value),
    and a column of dtype [object] holds what Python objects it holds. *)
Inductive scalar : Type :=
  | SInt (z : Z)
  | SFloat (f : float)
  | SStr (s : string).

Definition column : Type := list scalar.

(** The columns of a frame in order, each under its label. *)
Definition Table : Type := list (string * column).

Record DataFrame (I : Type) : Type := mkDataFrame {
  index : list I;
  columns : Table
}.

Arguments mkDataFrame {I} index columns.
Arguments index {I} d.
Arguments columns {I} d.

Record Series (I : Type) : Type := mkSeries {
  s_index : list I;
  s_values : column
}.

Arguments mkSeries {I} s_index s_values.
Arguments s_index {I} s.
Arguments s_values {I} s.

Definition float_eqb (a b : float) : bool :=
  match a, b with
  | S754_zero s, S754_zero s' => Bool.eqb s s'
  | S754_infinity s, S754_infinity s' => Bool.eqb s s'
  | S754_nan, S754_nan => true
  | S754_finite s m e, S754_finite s' m' e' => Bool.eqb s s' && Pos.eqb m m' && Z.eqb e e'
  | _, _ => false
  end.

(** Equality of index labels. *)
Definition scalar_eqb (a b : scalar) : bool :=
  match a, b with
  | SInt x, SInt y => Z.eqb x y
  | SFloat x, SFloat y => float_eqb x y
  | SStr x, SStr y => String.eqb x y
  | _, _ => false
  end.

Fixpoint columns_named (name : string) (t : Table) : list column :=
  match t with
  | [] => []
  | (n, c) :: t' =>
      if String.eqb n name then c :: columns_named name t' else columns_named name t'
  end.

(** [df.drop(name, axis=1)] on the columns: every column of that label goes. *)
Fixpoint drop_column (name : string) (t : Table) : Table :=
  match t with
  | [] => []
  | (n, c) :: t' =>
      if String.eqb n name then drop_column name t' else (n, c) :: drop_column name t'
  end.

Definition has_column (name : string) (t : Table) : bool :=
  existsb (fun nc => String.eqb (fst nc) name) t.

(** [df[name] = col]: an existing column of that label is replaced where
    it stands, a new label is appended as the last column. *)
Definition set_column (name : string) (col : column) (t : Table) : Table :=
  if has_column name t
  then map (fun nc => if String.eqb (fst nc) name then (fst nc, col) else nc) t
  else (t ++ [(name, col)])%list.

(** [df.name]: the column of that label. *)
Definition getattr_column (name : string) (t : Table) : result column :=
  match columns_named name t with
  | c :: _ => Ok c
  | [] => Raise (AttributeError ("'DataFrame' object has no attribute '" ++ name ++ "'")%string)
  end.

(** [df[name]] used as one column: a missing label is a [KeyError]; with
    two columns of that label pandas hands back a frame, and the
    assignment of what [apply] makes of it fails on its duplicate labels. *)
Definition getitem_column (name : string) (t : Table) : result column :=
  match columns_named name t with
  | [c] => Ok c
  | [] => Raise (KeyError name)
  | _ => Raise (ValueError "cannot reindex on an axis with duplicate labels")
  end.

(** Every column has as many cells as the frame has rows. *)
Definition rectangular (n : nat) (t : Table) : Prop :=
  Forall (fun nc => List.length (snd nc) = n) t.

(** *** Labelled rows *)

Definition label_in (l : scalar) (idx : list scalar) : bool :=
  existsb (scalar_eqb l) idx.

Fixpoint unique (idx : list scalar) : bool :=
  match idx with
  | [] => true
  | l :: idx' => negb (label_in l idx') && unique idx'
  end.

Fixpoint index_eqb (a b : list scalar) : bool :=
  match a, b with
  | [], [] => true
  | x :: a', y :: b' => scalar_eqb x y && index_eqb a' b'
  | _, _ => false
  end.

(** The labels of several indexes, each once, in the order they first
    appear. *)
Definition union_indexes (idxs : list (list scalar)) : list scalar :=
  fold_left (fun acc l => if label_in l acc then acc else (acc ++ [l])%list) (List.concat idxs) [].

(** The rows of an index that carry a label, counted from [k]. *)
Fixpoint positions_from (k : nat) (l : scalar) (idx : list scalar) : list nat :=
  match idx with
  | [] => []
  | x :: idx' =>
      if scalar_eqb l x then k :: positions_from (S k) l idx'
      else positions_from (S k) l idx'
  end.

Definition positions_of (l : scalar) (idx : list scalar) : list nat :=
  positions_from 0 l idx.

Definition take {A : Type} (ps : list nat) (xs : list A) : list A :=
  flat_map (fun i => match nth_error xs i with Some x => [x] | None => [] end) ps.

Definition is_int_cell (c : scalar) : bool :=
  match c with SInt _ => true | _ => false end.

Definition is_some {A : Type} (o : option A) : bool :=
  match o with Some _ => true | None => false end.

(** A column of a frame indexed by [old], laid out on the index [new]. A
    label of [new] that [old] lacks gets the missing value NaN, and a
    column of integers that gets one becomes a column of floats. *)
Definition reindex_column (old new : list scalar) (c : column) : column :=
  let picks :=
    map (fun l => match positions_of l old with
                  | i :: _ => nth_error c i
                  | [] => None
                  end) new in
  if forallb is_some picks
  then flat_map (fun o => match o with Some x => [x] | None => [] end) picks
  else
    let promote := forallb is_int_cell c in
    map (fun o => match o with
                  | Some (SInt z) => if promote then SFloat (float_of_Z z) else SInt z
                  | Some x => x
                  | None => SFloat nan
                  end) picks.

(** [pd.concat(dfs, axis=1)]: the columns side by side, the rows aligned
    on the labels (an outer join). Frames of one and the same index are
    put together as they are; otherwise every index has to be free of
    duplicates. *)
Definition concat_axis1 (dfs : list (DataFrame scalar)) : result (DataFrame scalar) :=
  match dfs with
  | [] => Raise (ValueError "No objects to concatenate")
  | d0 :: rest =>
      if forallb (fun d => index_eqb (index d) (index d0)) rest
      then Ok (mkDataFrame (index d0) (flat_map columns dfs))
      else if forallb (fun d => unique (index d)) dfs
      then
        let idx := union_indexes (map index dfs) in
        Ok (mkDataFrame idx
              (flat_map (fun d => map (fun nc => (fst nc, reindex_column (index d) idx (snd nc)))
                                      (columns d)) dfs))
      else Raise (InvalidIndexError "Reindexing only valid with uniquely valued Index objects")
  end.

(** [df.set_index(name)]: the column becomes the index and leaves the
    columns. *)
Definition set_index (name : string) (t : Table) : result (DataFrame scalar) :=
  match columns_named name t with
  | c :: _ => Ok (mkDataFrame c (drop_column name t))
  | [] => Raise (KeyError name)
  end.

(** [df.loc[labels]]: for each label in turn, the rows that carry it. *)
Definition loc (df : DataFrame scalar) (labels : list scalar) : result (DataFrame scalar) :=
  if forallb (fun l => label_in l (index df)) labels
  then
    let ps := flat_map (fun l => positions_of l (index df)) labels in
    Ok (mkDataFrame (take ps (index df))
          (map (fun nc => (fst nc, take ps (snd nc))) (columns df)))
  else Raise (KeyError "not in index").

(** Row [i] of a frame: its label and its cells, column by column. *)
Definition row {I : Type} (df : DataFrame I) (i : nat) : option I * list (option scalar) :=
  (nth_error (index df) i, map (fun nc => nth_error (snd nc) i) (columns df)).

(** *** Writing through a column of a frame

    [df.QObs] reads the column the frame holds. What an assignment to
    selected cells of it does to the frame depends on the pandas that
    runs the code. Without copy-on-write the column shares its cells with
    the frame: the assignment is an assignment in the frame, and a later
    [df.QObs] reads the cells so written, which is what line 140 of the
    source relies on. With copy-on-write (the default from pandas 3) the
    column becomes a copy of its own when it is written to, and the frame
    stays as it is. A [column_view] names the column of the frame that
    was read. *)
Record column_view : Type := mkView { view_label : string }.

Definition view_column {I : Type} (name : string) (df : DataFrame I) : result column_view :=
  match columns_named name (columns df) with
  | _ :: _ => Ok (mkView name)
  | [] => Raise (AttributeError ("'DataFrame' object has no attribute '" ++ name ++ "'")%string)
  end.

Definition view_cells {I : Type} (v : column_view) (df : DataFrame I) : column :=
  match columns_named (view_label v) (columns df) with
  | c :: _ => c
  | [] => []
  end.

(** The cells of [c] at the positions where [mask] holds, set to [x]. *)
Fixpoint mask_assign (mask : list bool) (x : scalar) (c : column) : column :=
  match c, mask with
  | y :: c', b :: mask' => (if b then x else y) :: mask_assign mask' x c'
  | _, _ => c
  end.

(** [view[mask] = x]: the frame after the assignment, unchanged under
    copy-on-write. *)
Definition view_setitem_mask {I : Type} (copy_on_write : bool) (v : column_view)
    (mask : list bool) (x : scalar) (df : DataFrame I) : DataFrame I :=
  if copy_on_write then df
  else
    mkDataFrame (index df)
      (map (fun nc => if String.eqb (fst nc) (view_label v)
                      then (fst nc, mask_assign mask x (snd nc)) else nc)
           (columns df)).

(** ** The arguments of [pandas.read_csv] the loaders use *)

Record csv_args : Type := mkCsvArgs {
  sep : string;
  header : option nat;
  names : option (list string);
  dtype_str : list string
}.

(** [sep=';', header=0, dtype={'gauge_id': str}] *)
Definition attributes_csv : csv_args :=
  mkCsvArgs ";" (Some 0%nat) None ["gauge_id"].

(** [sep='\s+'], the header row inferred *)
Definition forcing_csv : csv_args :=
  mkCsvArgs "\s+" (Some 0%nat) None [].

Definition col_names : list string :=
  ["basin"; "Year"; "Mnth"; "Day"; "QObs"; "flag"].

(** [sep='\s+', header=None, names=col_names] *)
Definition discharge_csv : csv_args :=
  mkCsvArgs "\s+" None (Some col_names) [].

(** ** Instances of what Python and pandas provide

    The loaders below take the file-name matcher, the CSV reader, the text
    of a float and the timestamp range as parameters. The instances here
    run them on example trees: a matcher for the wildcards [*] and [?], a
    reader for tables of integers, short decimals and text, the text of
    floats of integral value, and the range of nanosecond timestamps. *)

Fixpoint wildcard_match (pat : list ascii) : list ascii -> bool :=
  match pat with
  | [] => fun name => match name with [] => true | _ :: _ => false end
  | p :: pat' =>
      if Ascii.eqb p "*" then
        fix star (name : list ascii) : bool :=
          wildcard_match pat' name
          || match name with [] => false | _ :: name' => star name' end
      else if Ascii.eqb p "?" then
        fun name => match name with [] => false | _ :: name' => wildcard_match pat' name' end
      else
        fun name =>
          match name with
          | [] => false
          | c :: name' => Ascii.eqb p c && wildcard_match pat' name'
          end
  end.

Definition glob_fnmatch (name pat : string) : bool :=
  wildcard_match (list_ascii_of_string pat) (list_ascii_of_string name).

(** Midnights from 1677-09-22 to 2262-04-11 fit a nanosecond timestamp. *)
Definition ns_in_bounds (y m d : Z) : bool :=
  let key := y * 10000 + m * 100 + d in
  (16770922 <=? key) && (key <=? 22620411).

(** [str] of a float of integral value below 10^16: its digits and [.0]. *)
Definition integral_float_repr (f : float) : string :=
  match f with
  | S754_zero s => if s then "-0.0" else "0.0"
  | S754_finite s m e =>
      if 0 <=? e
      then ((if s then "-" else "") ++ py_str_int (Z.pos m * 2 ^ e) ++ ".0")%string
      else if Z.pos m mod 2 ^ (- e) =? 0
      then ((if s then "-" else "") ++ py_str_int (Z.pos m / 2 ^ (- e)) ++ ".0")%string
      else "<float>"
  | _ => "<float>"
  end.

(** The fields of a line: cut at a one-character separator, or at runs of
    blanks for the separator [\s+]. *)
Definition line_fields (sep : string) (line : string) : list string :=
  match sep with
  | String c EmptyString => split_on c line
  | _ =>
      filter (fun f => negb (String.eqb f ""))
        (split_on " " (string_of_list_ascii
           (map (fun c => if is_space c then " "%char else c) (list_ascii_of_string line))))
  end.

Definition signed (parse : string -> option Z) (tok : string) : option (bool * Z) :=
  match tok with
  | String c r =>
      if Ascii.eqb c "-" then option_map (pair true) (parse r)
      else option_map (pair false) (parse tok)
  | EmptyString => None
  end.

Definition int_token (tok : string) : option Z :=
  option_map (fun sv : bool * Z => if fst sv then - snd sv else snd sv)
    (signed digits_value tok).

(** A decimal of at most fifteen digits: the double nearest to it is the
    correctly rounded quotient of its digits by the power of ten. *)
Definition decimal_token (tok : string) : option float :=
  match tok with
  | String c r =>
      let '(negative, body) := if Ascii.eqb c "-" then (true, r) else (false, tok) in
      match split_on "." body with
      | [a; b] =>
          match digits_value (a ++ b)%string with
          | Some v =>
              if (String.length (a ++ b)%string <=? 15)%nat
                 && negb (String.eqb a "") && negb (String.eqb b "")
              then
                let f := fdiv (float_of_Z v) (float_of_Z (10 ^ Z.of_nat (String.length b))) in
                Some (if negative then SFopp f else f)
              else None
          | None => None
          end
      | _ => None
      end
  | EmptyString => None
  end.

Definition float_token (tok : string) : option float :=
  match int_token tok with
  | Some z => Some (float_of_Z z)
  | None => decimal_token tok
  end.

(** The cells of a column read from its tokens: integers when every token
    is one, floats when every token is a number, text otherwise. *)
Definition typed_column (as_text : bool) (toks : list string) : column :=
  if as_text then map SStr toks
  else if forallb (fun t => is_some (int_token t)) toks
  then flat_map (fun t => match int_token t with Some z => [SInt z] | None => [] end) toks
  else if forallb (fun t => is_some (float_token t)) toks
  then flat_map (fun t => match float_token t with Some f => [SFloat f] | None => [] end) toks
  else map SStr toks.

Fixpoint numbered {A : Type} (k : nat) (xs : list A) : list (nat * A) :=
  match xs with
  | [] => []
  | x :: xs' => (k, x) :: numbered (S k) xs'
  end.

(** A reader for tables whose rows all have as many fields as there are
    column labels; blank lines are skipped. *)
Definition plain_read_csv (args : csv_args) (text : string) : result Table :=
  let lines := filter (fun l => negb (String.eqb (strip l) "")) (split_on "010" text) in
  let rows := map (line_fields (sep args)) lines in
  let '(labels, body) :=
    match names args, header args, rows with
    | Some ns, _, _ => (ns, rows)
    | None, Some _, h :: body => (h, body)
    | None, _, _ => ([], rows)
    end in
  match labels with
  | [] => Raise (OtherError "No columns to parse from file")
  | _ :: _ =>
      if forallb (fun r => (List.length r =? List.length labels)%nat) body
      then Ok (map (fun kl => (snd kl,
                      typed_column (existsb (String.eqb (snd kl)) (dtype_str args))
                        (map (fun r => nth (fst kl) r "") body)))
                   (numbered 0 labels))
      else Raise (OtherError "Error tokenizing data")
  end.

(** ** An example tree

    One basin with forcing and discharge files and two attribute files,
    laid out as the loaders expect. The area in the forcing file and the
    first discharge value are those of the specification's example. *)

Definition example_name_text : string :=
"gauge_id;huc_02;gauge_name
01013500;01;Fish River near Fort Kent, Maine
01022500;01;Narraguagus River at Cherryfield, Maine
".

Definition example_topo_text : string :=
"gauge_id;gauge_lat;elev_mean
01013500;47;250
01022500;44;92
".

Definition example_forcing_text : string :=
"    47.24
   250
 831000000
Year Mnth Day Hr prcp(mm/day)
1980 01 01 12 0.00
1980 01 02 12 3.25
".

Definition example_discharge_text : string :=
"01013500 1980 01 01 300.00 A
01013500 1980 01 02 -999.00 M
".

Definition example_tree : node :=
  Dir [("CAMELS_US", Dir [
    ("camels_attributes_v2.0", Dir [
       ("camels_name.txt", File example_name_text);
       ("camels_topo.txt", File example_topo_text);
       ("readme.md", File "attributes")]);
    ("basin_mean_forcing", Dir [
       ("daymet", Dir [
          ("01", Dir [
             ("01013500_lump_cida_forcing_leap.txt", File example_forcing_text)])])]);
    ("usgs_streamflow", Dir [
       ("01", Dir [
          ("01013500_streamflow_qc.txt", File example_discharge_text)])])])].

Definition example_dir : path := ["CAMELS_US"].

(** A tree whose attribute directory holds no attribute file and that has
    no discharge directory. *)
Definition bare_tree : node :=
  Dir [("CAMELS_US", Dir [
    ("camels_attributes_v2.0", Dir [("readme.md", File "attributes")]);
    ("basin_mean_forcing", Dir [("daymet", Dir [("01", Dir [])])])])].

(** Attribute files in which one region code has three digits, and in
    which the file with the region codes lacks a basin that another file
    has. *)
Definition wide_huc_tree : node :=
  Dir [("CAMELS_US", Dir [
    ("camels_attributes_v2.0", Dir [
       ("camels_name.txt", File
"gauge_id;huc_02
01013500;100
")])])].

Definition partial_huc_tree : node :=
  Dir [("CAMELS_US", Dir [
    ("camels_attributes_v2.0", Dir [
       ("camels_name.txt", File
"gauge_id;huc_02
01013500;1
");
       ("camels_topo.txt", File example_topo_text)])])].

(** A discharge table of one row whose value is the negative double
    nearest to zero, -2^-1074. *)
Definition tiny_discharge_table : Table :=
  [("basin", [SInt 1013500]); ("Year", [SInt 1980]); ("Mnth", [SInt 1]);
   ("Day", [SInt 1]); ("QObs", [SFloat (S754_finite true 1 (-1074))]);
   ("flag", [SStr "A"])].

(** The value of the specification's example as a rational:
    28316846.592 * 300 * 86400 / (831000000 * 1e6). *)
Definition spec_example_value : Q :=
  ((28316846592 # 1000) * 300 * 86400 / (831000000 * 1000000))%Q.

(** ** The specification's formula and error taxonomy *)

(** The conversion as the specification writes it,
    [28316846.592 * QObs_cfs * 86400 / (area_m2 * 1e6)], evaluated from
    left to right in binary64, the divisor being the product of the area
    and 10^6 as a double. *)
Definition QObs_mm_per_day (QObs_cfs : float) (area_m2 : Z) : float :=
  fdiv (fmul (fmul cfs_factor QObs_cfs) seconds_per_day) (float_of_Z (area_m2 * 10 ^ 6)).

(** The number of a cell as a double. *)
Definition cell_float (x : scalar) : option float :=
  match x with
  | SInt z => Some (float_of_Z z)
  | SFloat f => Some f
  | SStr _ => None
  end.

Inductive error_kind : Type :=
  | ConfigurationError
  | NotFoundError
  | ValidationError.

(** Modelled from the spec: the taxonomy of errors of its section 7, which
    the source has no counterpart of. A configuration error is a required
    directory that is absent, a not-found error is a basin without a file
    of the expected name, a validation error is a requested basin that the
    attribute table lacks. *)
Definition documented_error (e : exn) : option error_kind :=
  match e with
  | RuntimeError _ => Some ConfigurationError
  | OSError _ => Some ConfigurationError
  | FileNotFoundError _ => Some NotFoundError
  | ValueError msg =>
      if String.eqb msg "Some basins are missing static attributes."
      then Some ValidationError else None
  | _ => None
  end.

(** The third line of a text and what follows it. *)
Definition third_line (text : string) : string :=
  fst (readline (snd (readline (snd (readline text))))).

Definition after_third_line (text : string) : string :=
  snd (readline (snd (readline (snd (readline text))))).

(** Whether the discharge in a cell is below zero. *)
Definition cell_negative (x : scalar) : bool :=
  match x with
  | SInt z => z <? 0
  | SFloat f => flt f fzero
  | SStr _ => false
  end.

(** A value below zero gives way to NaN. *)
Definition mask_negative (v : float) : float := if flt v fzero then nan else v.

(** What line 140 leaves of a value of the column: NaN in place of a
    value below zero where the assignment reaches the frame, the value
    itself under copy-on-write. *)
Definition after_line_140 (copy_on_write : bool) (v : float) : float :=
  if copy_on_write then v else mask_negative v.

(** An index is the date index of three columns: one timestamp per row,
    each a midnight, and in a row of integers [y], [m], [d] the midnight of
    that date. *)
Definition date_index_of (idx : list Timestamp) (year mnth day : column) : Prop :=
  List.length idx
  = Nat.min (List.length year) (Nat.min (List.length mnth) (List.length day)) /\
  Forall (fun ts => ts = midnight (ts_year ts) (ts_month ts) (ts_day ts)) idx /\
  forall i y m d,
    nth_error year i = Some (SInt y) ->
    nth_error mnth i = Some (SInt m) ->
    nth_error day i = Some (SInt d) ->
    nth_error idx i = Some (midnight y m d).

(** The rows of a column that the filter [basins] keeps, in the order
    requested; all of them for the empty list. *)
Definition rows_selected {A : Type} (basins : list string) (idx : list scalar)
    (xs : list A) : list A :=
  match basins with
  | [] => xs
  | _ :: _ => take (flat_map (fun l => positions_of l idx) (map SStr basins)) xs
  end.

(** A mantissa with nothing shifted out of it yet. *)
Definition exact_record (m : Z) : shr_record := Build_shr_record m false false.

(** The literal [1e6]. *)
Definition million : float := Eval vm_compute in float_of_Z (10 ^ 6).

(** The formula with its divisor evaluated in doubles, as the product of
    the area as a double and [1e6]. *)
Definition QObs_mm_per_day_float_divisor (QObs_cfs : float) (area_m2 : Z) : float :=
  fdiv (fmul (fmul cfs_factor QObs_cfs) seconds_per_day) (fmul (float_of_Z area_m2) million).

(** The sign bit of a float that is no NaN. *)
Definition float_sign (v : float) : option bool :=
  match v with
  | S754_zero s | S754_infinity s | S754_finite s _ _ => Some s
  | S754_nan => None
  end.

(** NaN, or a float of sign bit [s]. *)
Definition nan_or_sign (s : bool) (v : float) : Prop :=
  v = nan \/ float_sign v = Some s.

(** NaN, or a zero of either sign. *)
Definition nan_or_zero (v : float) : Prop :=
  v = nan \/ exists s, v = S754_zero s.

(** ** Further example trees *)

(** A tree without the attribute directory. *)
Definition missing_attributes_tree : node :=
  Dir [("CAMELS_US", Dir [("basin_mean_forcing", Dir [])])].

(** An attribute directory whose second file has no column [gauge_id]. *)
Definition unkeyed_attributes_tree : node :=
  Dir [("CAMELS_US", Dir [
    ("camels_attributes_v2.0", Dir [
       ("camels_name.txt", File example_name_text);
       ("camels_soil.txt", File
"basin;soil_depth
01013500;1
");
       ("camels_topo.txt", File example_topo_text)])])].

(** Attribute files of which none has a column [huc_02]. *)
Definition no_huc_tree : node :=
  Dir [("CAMELS_US", Dir [
    ("camels_attributes_v2.0", Dir [
       ("camels_topo.txt", File example_topo_text)])])].

(** Attribute files of which the first lacks a basin that the second
    has. *)
Definition partial_name_tree : node :=
  Dir [("CAMELS_US", Dir [
    ("camels_attributes_v2.0", Dir [
       ("camels_name.txt", File
"gauge_id;huc_02;gauge_name
01013500;1;Fish River near Fort Kent, Maine
");
       ("camels_topo.txt", File example_topo_text)])])].

(** A forcing file that ends after its second line. *)
Definition short_forcing_tree : node :=
  Dir [("CAMELS_US", Dir [
    ("basin_mean_forcing", Dir [
       ("daymet", Dir [
          ("01", Dir [
             ("01013500_lump_cida_forcing_leap.txt", File
"    47.24
   250
")])])])])].

(** A discharge file with a day without flow. *)
Definition dry_day_tree : node :=
  Dir [("CAMELS_US", Dir [
    ("usgs_streamflow", Dir [
       ("01", Dir [
          ("01013500_streamflow_qc.txt", File
"01013500 1980 01 01 0.00 A
01013500 1980 01 02 12.50 A
")])])])].

(** The discharge file of the example under other quality flags and
    another number in its first column. *)
Definition reflagged_discharge_text : string :=
"1022500 1980 01 01 300.00 A:e
1022500 1980 01 02 -999.00 A
".

Definition reflagged_tree : node :=
  Dir [("CAMELS_US", Dir [
    ("usgs_streamflow", Dir [
       ("01013500_streamflow_qc.txt", File reflagged_discharge_text)])])].

(** A discharge directory in which a directory has the name of the
    file looked for, the file itself lying in it. *)
Definition directory_match_tree : node :=
  Dir [("CAMELS_US", Dir [
    ("usgs_streamflow", Dir [
       ("01013500_streamflow_qc.txt", Dir [
          ("01013500_streamflow_qc.txt", File example_discharge_text)])])])].

(** A forcing file whose header names the month [Month]. *)
Definition renamed_month_tree : node :=
  Dir [("CAMELS_US", Dir [
    ("basin_mean_forcing", Dir [
       ("daymet", Dir [
          ("01013500_lump_cida_forcing_leap.txt", File
"    47.24
   250
 831000000
Year Month Day Hr prcp(mm/day)
1980 01 01 12 0.00
")])])])].

(** The tables the example reader makes of the example files. *)
Definition table_of (r : result Table) : Table :=
  match r with
  | Ok t => t
  | Raise _ => []
  end.

Definition example_forcing_table : Table :=
  Eval vm_compute in
    table_of (plain_read_csv forcing_csv (after_third_line example_forcing_text)).

Definition example_discharge_table : Table :=
  Eval vm_compute in table_of (plain_read_csv discharge_csv example_discharge_text).

Definition reflagged_discharge_table : Table :=
  Eval vm_compute in table_of (plain_read_csv discharge_csv reflagged_discharge_text).

(** ** Properties of tables and dates *)

(** The labels of the columns of a table, in order. *)
Definition column_labels (t : Table) : list string := map fst t.

(** A date of the calendar: a month from 1 to 12, a day of that month in
    that year, and a year of at most four digits. *)
Definition calendar_date (ts : Timestamp) : Prop :=
  0 <= ts_year ts <= 9999 /\
  1 <= ts_month ts <= 12 /\
  1 <= ts_day ts <= days_in_month (ts_year ts) (ts_month ts).

(** Whether the discharge in a cell is above zero. *)
Definition cell_positive (x : scalar) : bool :=
  match x with
  | SInt z => 0 <? z
  | SFloat f => flt fzero f
  | SStr _ => false
  end.

(** ** The loaders *)

Section Loaders.
(** [fnmatch name pattern]: the file-name matching of [Path.glob]. *)
Variable fnmatch : string -> string -> bool.
(** [read_csv args text]: [pandas.read_csv] on the text of a stream. *)
Variable read_csv : csv_args -> string -> result Table.
(** [str] of a finite float. *)
Variable float_repr : float -> string.
(** Whether pandas can hold the midnight of a date as a timestamp. *)
Variable timestamp_in_bounds : Z -> Z -> Z -> bool.
(** Whether pandas runs with copy-on-write, as it does from version 3. *)
Variable copy_on_write : bool.

Definition py_str_float (f : float) : string :=
  match f with
  | S754_nan => "nan"
  | S754_infinity false => "inf"
  | S754_infinity true => "-inf"
  | _ => float_repr f
  end.

(** [str(x)] for a cell. *)
Definition py_str (x : scalar) : string :=
  match x with
  | SInt z => py_str_int z
  | SFloat f => py_str_float f
  | SStr s => s
  end.

(** [pd.to_datetime(strings, format="%Y/%m/%d")] *)
Definition to_datetime (strings : list string) : result (list Timestamp) :=
  mapM (fun s =>
          '(y, m, d) <- strptime_ymd s ;;
          if timestamp_in_bounds y m d then Ok (midnight y m d)
          else Raise (ValueError "Out of bounds nanosecond timestamp"))
       strings.

(** [year.map(str) + "/" + mnth.map(str) + "/" + day.map(str)] *)
Definition date_strings (year mnth day : column) : list string :=
  map (fun ymd => (py_str (fst ymd) ++ "/" ++ py_str (fst (snd ymd)) ++ "/"
                   ++ py_str (snd (snd ymd)))%string)
      (combine year (combine mnth day)).

(** The two statements [df["date"] = pd.to_datetime(...)] and
    [df = df.set_index("date")]. *)
Definition set_date_index (t : Table) : result (DataFrame Timestamp) :=
  year <- getattr_column "Year" t ;;
  mnth <- getattr_column "Mnth" t ;;
  day <- getattr_column "Day" t ;;
  dates <- to_datetime (date_strings year mnth day) ;;
  Ok (mkDataFrame dates (drop_column "date" t)).

(** *** [load_camels_us_attributes] *)

Definition read_attribute_file (fs : node) (txt_file : path) : result (DataFrame scalar) :=
  text <- open_read fs txt_file ;;
  df_temp <- read_csv attributes_csv text ;;
  set_index "gauge_id" df_temp.

(** [df['huc_02'].apply(lambda x: str(x).zfill(2))] *)
Definition huc_of (x : scalar) : scalar := SStr (zfill 2 (py_str x)).

(** Lines 31 to 46: the attribute files read and joined. *)
Definition joined_attributes (fs : node) (data_dir : path) : result (DataFrame scalar) :=
  let attributes_path := joinpath data_dir "camels_attributes_v2.0" in
  if negb (path_exists fs attributes_path)
  then Raise (RuntimeError ("Attribute folder not found at " ++ path_str attributes_path)%string)
  else
    let txt_files := glob_here fnmatch "camels_*.txt" attributes_path
                       (resolve fs attributes_path) in
    dfs <- mapM (read_attribute_file fs) txt_files ;;
    concat_axis1 dfs.

(** Lines 48 and 49: the column [huc] made from [huc_02], which is
    dropped. *)
Definition derive_huc (df : DataFrame scalar) : result (DataFrame scalar) :=
  huc_02 <- getitem_column "huc_02" (columns df) ;;
  let df := mkDataFrame (index df) (set_column "huc" (map huc_of huc_02) (columns df)) in
  Ok (mkDataFrame (index df) (drop_column "huc_02" (columns df))).

Definition load_camels_us_attributes (fs : node) (data_dir : path) (basins : list string)
  : result (DataFrame scalar) :=
  df <- joined_attributes fs data_dir ;;
  df <- derive_huc df ;;
  match basins with
  | [] => Ok df
  | _ :: _ =>
      if existsb (fun b => negb (label_in (SStr b) (index df))) basins
      then Raise (ValueError "Some basins are missing static attributes.")
      else loc df (map SStr basins)
  end.

(** *** [load_camels_us_forcings] *)

Definition int_of_line (line : string) : result Z :=
  match py_int line with
  | Some z => Ok z
  | None => Raise (ValueError "invalid literal for int() with base 10")
  end.

(** Lines 91 to 100: the body of the [with] block, on the text of the
    opened file. *)
Definition read_forcing_file (fp : string) : result (DataFrame Timestamp * Z) :=
  let '(_, fp) := readline fp in
  let '(_, fp) := readline fp in
  let '(line, fp) := readline fp in
  area <- int_of_line line ;;
  df <- read_csv forcing_csv fp ;;
  df <- set_date_index df ;;
  Ok (df, area).

Definition load_camels_us_forcings (fs : node) (data_dir : path) (basin forcings : string)
  : result (DataFrame Timestamp * Z) :=
  let forcing_path := joinpath (joinpath data_dir "basin_mean_forcing") forcings in
  if negb (path_is_dir fs forcing_path)
  then Raise (OSError (path_str forcing_path ++ " does not exist")%string)
  else
    match glob_rec fnmatch fs (basin ++ "_*_forcing_leap.txt")%string forcing_path with
    | [] => Raise (FileNotFoundError ("No file for Basin " ++ basin ++ " at []")%string)
    | file_path :: _ =>
        fp <- open_read fs file_path ;;
        read_forcing_file fp
    end.

(** *** [load_camels_us_discharge] *)

(** [28316846.592 * x] for a cell [x]. *)
Definition mul_cell (c : float) (x : scalar) : result float :=
  match x with
  | SInt z => f <- float_of_int z ;; Ok (fmul c f)
  | SFloat f => Ok (fmul c f)
  | SStr _ => Raise (TypeError "can't multiply sequence by non-int of type 'float'")
  end.

(** [x < 0] for a cell [x]. *)
Definition lt_zero (x : scalar) : result bool :=
  match x with
  | SInt z => Ok (z <? 0)
  | SFloat f => Ok (flt f fzero)
  | SStr _ => Raise (TypeError "'<' not supported between instances of 'str' and 'int'")
  end.

(** Lines 137 to 142. Line 138 works on the whole column, one operation
    after the other: the product with [28316846.592], the product with
    [86400], the quotient by the integer [area * 10**6] as a double; the
    result replaces the column. Line 140 takes [df.QObs] as the target of
    the assignment, compares [df.QObs] with zero for the mask, and writes
    NaN to the target, which reaches the frame or not with the mode of
    pandas. Line 142 returns [df.QObs]. *)
Definition normalize_discharge (df : DataFrame Timestamp) (area : Z)
  : result (Series Timestamp) :=
  qobs <- getattr_column "QObs" (columns df) ;;
  q1 <- mapM (mul_cell cfs_factor) qobs ;;
  let q2 := map (fun x => fmul x seconds_per_day) q1 in
  d <- float_of_int (area * 10 ^ 6) ;;
  let q3 := map (fun x => fdiv x d) q2 in
  let df := mkDataFrame (index df) (set_column "QObs" (map SFloat q3) (columns df)) in
  target <- view_column "QObs" df ;;
  probe <- view_column "QObs" df ;;
  mask <- mapM lt_zero (view_cells probe df) ;;
  let df := view_setitem_mask copy_on_write target mask (SFloat nan) df in
  out <- view_column "QObs" df ;;
  Ok (mkSeries (index df) (view_cells out df)).

Definition load_camels_us_discharge (fs : node) (data_dir : path) (basin : string)
    (area : Z) : result (Series Timestamp) :=
  let discharge_path := joinpath data_dir "usgs_streamflow" in
  match glob_rec fnmatch fs (basin ++ "_streamflow_qc.txt")%string discharge_path with
  | [] => Raise (FileNotFoundError ("No file for Basin " ++ basin ++ " at []")%string)
  | file_path :: _ =>
      text <- open_read fs file_path ;;
      df <- read_csv discharge_csv text ;;
      df <- set_date_index df ;;
      normalize_discharge df area
  end.

(** The table [read_csv] makes of the first forcing file found. *)
Definition forcing_table (fs : node) (data_dir : path) (basin forcings : string)
    (t : Table) : Prop :=
  exists file_path others text,
    glob_rec fnmatch fs (basin ++ "_*_forcing_leap.txt")%string
      (joinpath (joinpath data_dir "basin_mean_forcing") forcings)
    = file_path :: others /\
    open_read fs file_path = Ok text /\
    read_csv forcing_csv (after_third_line text) = Ok t.

(** The table [read_csv] makes of the first discharge file found. *)
Definition discharge_table (fs : node) (data_dir : path) (basin : string)
    (t : Table) : Prop :=
  exists file_path others text,
    glob_rec fnmatch fs (basin ++ "_streamflow_qc.txt")%string
      (joinpath data_dir "usgs_streamflow")
    = file_path :: others /\
    open_read fs file_path = Ok text /\
    read_csv discharge_csv text = Ok t.

(** Lines 138 and 140 on the cells of the column [QObs]: the products,
    the quotient, and what line 140 leaves of it. *)
Definition converted_cells (qobs : column) (area : Z) : result column :=
  q1 <- mapM (mul_cell cfs_factor) qobs ;;
  d <- float_of_int (area * 10 ^ 6) ;;
  Ok (map (fun x => SFloat (after_line_140 copy_on_write (fdiv (fmul x seconds_per_day) d)))
          q1).

(** What the discharge loader makes of the four columns it reads, the
    lookups of the columns included. *)
Definition discharge_of_columns (year mnth day qobs : result column) (area : Z)
  : result (Series Timestamp) :=
  year <- year ;;
  mnth <- mnth ;;
  day <- day ;;
  dates <- to_datetime (date_strings year mnth day) ;;
  qobs <- qobs ;;
  cells <- converted_cells qobs area ;;
  Ok (mkSeries dates cells).

(** ** Results and iteration *)

Lemma bind_Ok_inv {A B : Type} (r : result A) (k : A -> result B) (b : B) :
  bind r k = Ok b -> exists a, r = Ok a /\ k a = Ok b.
Proof.
  destruct r as [a | e]; simpl; intros H.
  - exists a. split; [reflexivity | exact H].
  - discriminate H.
Qed.

Lemma mapM_Ok_length {A B : Type} (f : A -> result B) (xs : list A) (ys : list B) :
  mapM f xs = Ok ys -> List.length ys = List.length xs.
Proof.
  revert ys. induction xs as [| x xs IH]; simpl; intros ys H.
  - injection H as <-. reflexivity.
  - apply bind_Ok_inv in H. destruct H as (y & _ & H).
    apply bind_Ok_inv in H. destruct H as (ys' & Hys & H).
    injection H as <-. simpl. f_equal. apply IH. exact Hys.
Qed.

Lemma mapM_Ok_nth {A B : Type} (f : A -> result B) (xs : list A) (ys : list B) :
  mapM f xs = Ok ys ->
  forall i x, nth_error xs i = Some x ->
  exists y, f x = Ok y /\ nth_error ys i = Some y.
Proof.
  revert ys. induction xs as [| x0 xs IH]; simpl; intros ys H i x Hi.
  - destruct i; discriminate Hi.
  - apply bind_Ok_inv in H. destruct H as (y & Hy & H).
    apply bind_Ok_inv in H. destruct H as (ys' & Hys & H).
    injection H as <-.
    destruct i as [| i]; simpl in Hi.
    + injection Hi as <-. exists y. split; [exact Hy | reflexivity].
    + simpl. apply (IH ys' Hys i x Hi).
Qed.

(** ** Integers and their text *)

Lemma str_uint_chars (d : Decimal.uint) (c : ascii) :
  has_char c (NilEmpty.string_of_uint d) = true ->
  existsb (Ascii.eqb c) digit_chars = true.
Proof.
  induction d as [| d IH | d IH | d IH | d IH | d IH | d IH | d IH | d IH | d IH | d IH];
    simpl; intros H; try discriminate H;
    apply orb_true_iff in H; destruct H as [H | H];
    try (apply IH; exact H);
    apply Ascii.eqb_eq in H; subst c; reflexivity.
Qed.

Lemma str_nzuint_chars (d : Decimal.uint) (c : ascii) :
  has_char c (NilZero.string_of_uint d) = true ->
  existsb (Ascii.eqb c) digit_chars = true.
Proof.
  destruct d; try exact (str_uint_chars _ c).
  simpl. intros H. apply orb_true_iff in H. destruct H as [H | H]; [| discriminate H].
  apply Ascii.eqb_eq in H. subst c. reflexivity.
Qed.

Lemma str_int_chars (z : Z) (c : ascii) :
  has_char c (py_str_int z) = true ->
  Ascii.eqb c "-" || existsb (Ascii.eqb c) digit_chars = true.
Proof.
  unfold py_str_int, NilZero.string_of_int.
  intros H. apply orb_true_iff.
  destruct (Z.to_int z) as [d | d].
  - right. apply (str_nzuint_chars d). exact H.
  - cbn [has_char] in H. apply orb_true_iff in H. destruct H as [H | H].
    + left. apply Ascii.eqb_eq in H. subst c. reflexivity.
    + right. apply (str_nzuint_chars d). exact H.
Qed.

Lemma str_int_no_slash (z : Z) : has_char "/" (py_str_int z) = false.
Proof.
  destruct (has_char "/" (py_str_int z)) eqn:E; [| reflexivity].
  apply str_int_chars in E. discriminate E.
Qed.

Lemma str_int_no_space (z : Z) : has_char " " (py_str_int z) = false.
Proof.
  destruct (has_char " " (py_str_int z)) eqn:E; [| reflexivity].
  apply str_int_chars in E. discriminate E.
Qed.

Lemma digits_value_str_uint (d : Decimal.uint) :
  digits_value (NilZero.string_of_uint d) = Some (Z.of_uint d).
Proof.
  unfold digits_value.
  destruct d; try (rewrite NilZero.usu by discriminate; reflexivity).
  reflexivity.
Qed.

(** The digits of [str(z)] read back give [z]; the text of a negative
    integer is no run of digits. *)
Lemma digits_value_str_int (z v : Z) :
  digits_value (py_str_int z) = Some v -> v = z.
Proof.
  unfold py_str_int. intros H.
  rewrite <- (DecimalZ.of_to z).
  destruct (Z.to_int z) as [d | d]; simpl in H.
  - rewrite digits_value_str_uint in H. injection H as <-. reflexivity.
  - unfold digits_value in H. simpl in H.
    destruct (NilEmpty.uint_of_string (NilZero.string_of_uint d)); discriminate H.
Qed.

Lemma split_on_without (sep : ascii) (s : string) :
  has_char sep s = false -> split_on sep s = [s].
Proof.
  induction s as [| a s IH]; simpl; intros H; [reflexivity |].
  apply orb_false_iff in H. destruct H as [Ha Hs].
  rewrite Ha, (IH Hs). reflexivity.
Qed.

Lemma split_on_app (sep : ascii) (a b : string) :
  has_char sep a = false ->
  split_on sep (a ++ String sep b)%string = a :: split_on sep b.
Proof.
  induction a as [| c a IH]; simpl; intros H.
  - rewrite Ascii.eqb_refl. reflexivity.
  - apply orb_false_iff in H. destruct H as [Hc Ha].
    rewrite Hc, (IH Ha). reflexivity.
Qed.

(** *** [int] reads back what [str] writes *)

Lemma lstrip_blank_app (pre s : string) :
  blank pre = true -> lstrip (pre ++ s)%string = lstrip s.
Proof.
  induction pre as [| c pre IH]; simpl; intros H; [reflexivity |].
  apply andb_true_iff in H. destruct H as [Hc Hpre].
  rewrite Hc. apply IH. exact Hpre.
Qed.

Lemma lstrip_spaceless_app (s post : string) :
  spaceless s = true -> s <> EmptyString -> lstrip (s ++ post)%string = (s ++ post)%string.
Proof.
  destruct s as [| c s]; [intros _ H; contradiction H; reflexivity |].
  simpl. intros H _. apply andb_true_iff in H. destruct H as [Hc _].
  apply negb_true_iff in Hc. rewrite Hc. reflexivity.
Qed.

Lemma lstrip_spaceless (s : string) : spaceless s = true -> lstrip s = s.
Proof.
  destruct s as [| c s]; simpl; intros H; [reflexivity |].
  apply andb_true_iff in H. destruct H as [Hc _].
  apply negb_true_iff in Hc. rewrite Hc. reflexivity.
Qed.

Lemma list_ascii_of_string_app (a b : string) :
  list_ascii_of_string (a ++ b)%string
  = (list_ascii_of_string a ++ list_ascii_of_string b)%list.
Proof.
  induction a as [| c a IH]; simpl; [| rewrite IH]; reflexivity.
Qed.

Lemma string_of_list_ascii_app (l1 l2 : list ascii) :
  string_of_list_ascii (l1 ++ l2)%list
  = (string_of_list_ascii l1 ++ string_of_list_ascii l2)%string.
Proof.
  induction l1 as [| c l1 IH]; simpl; [| rewrite IH]; reflexivity.
Qed.

Lemma string_rev_app (a b : string) :
  string_rev (a ++ b)%string = (string_rev b ++ string_rev a)%string.
Proof.
  unfold string_rev.
  rewrite list_ascii_of_string_app, rev_app_distr, string_of_list_ascii_app. reflexivity.
Qed.

Lemma string_rev_involutive (s : string) : string_rev (string_rev s) = s.
Proof.
  unfold string_rev.
  rewrite list_ascii_of_string_of_list_ascii, rev_involutive.
  apply string_of_list_ascii_of_string.
Qed.

Lemma blank_forallb (s : string) : blank s = forallb is_space (list_ascii_of_string s).
Proof.
  induction s as [| c s IH]; simpl; [| rewrite IH]; reflexivity.
Qed.

Lemma spaceless_forallb (s : string) :
  spaceless s = forallb (fun c => negb (is_space c)) (list_ascii_of_string s).
Proof.
  induction s as [| c s IH]; simpl; [| rewrite IH]; reflexivity.
Qed.

Lemma forallb_rev {A : Type} (f : A -> bool) (l : list A) :
  forallb f (List.rev l) = forallb f l.
Proof.
  induction l as [| x l IH]; simpl; [reflexivity |].
  rewrite forallb_app, IH. simpl. rewrite andb_true_r. apply andb_comm.
Qed.

Lemma blank_rev (s : string) : blank (string_rev s) = blank s.
Proof.
  unfold string_rev.
  rewrite !blank_forallb, list_ascii_of_string_of_list_ascii. apply forallb_rev.
Qed.

Lemma spaceless_rev (s : string) : spaceless (string_rev s) = spaceless s.
Proof.
  unfold string_rev.
  rewrite !spaceless_forallb, list_ascii_of_string_of_list_ascii. apply forallb_rev.
Qed.

(** Blanks around a text without blanks are what [strip] removes. *)
Lemma strip_blanks_around (pre s post : string) :
  blank pre = true -> blank post = true ->
  spaceless s = true -> s <> EmptyString ->
  strip (pre ++ s ++ post)%string = s.
Proof.
  intros Hpre Hpost Hs Hne. unfold strip.
  rewrite (lstrip_blank_app _ _ Hpre), (lstrip_spaceless_app _ _ Hs Hne).
  rewrite string_rev_app, lstrip_blank_app by (rewrite blank_rev; exact Hpost).
  rewrite lstrip_spaceless by (rewrite spaceless_rev; exact Hs).
  apply string_rev_involutive.
Qed.

Lemma spaceless_chars (s : string) :
  (forall c, has_char c s = true -> is_space c = false) -> spaceless s = true.
Proof.
  induction s as [| a s IH]; simpl; intros H; [reflexivity |].
  rewrite (H a) by (rewrite Ascii.eqb_refl; reflexivity). simpl.
  apply IH. intros c Hc. apply H. rewrite Hc. apply orb_true_r.
Qed.

Lemma digit_not_space (c : ascii) :
  existsb (Ascii.eqb c) digit_chars = true -> is_space c = false.
Proof.
  intros H. apply existsb_exists in H. destruct H as (d & Hd & E).
  apply Ascii.eqb_eq in E. subst d.
  repeat (destruct Hd as [<- | Hd]; [reflexivity |]). destruct Hd.
Qed.

Lemma str_int_spaceless (z : Z) : spaceless (py_str_int z) = true.
Proof.
  apply spaceless_chars. intros c Hc. apply str_int_chars in Hc.
  apply orb_true_iff in Hc. destruct Hc as [Hc | Hc].
  - apply Ascii.eqb_eq in Hc. subst c. reflexivity.
  - apply digit_not_space. exact Hc.
Qed.

Lemma str_nzuint_nonempty (d : Decimal.uint) : NilZero.string_of_uint d <> EmptyString.
Proof. destruct d; discriminate. Qed.

Lemma str_int_nonempty (z : Z) : py_str_int z <> EmptyString.
Proof.
  unfold py_str_int, NilZero.string_of_int.
  destruct (Z.to_int z) as [d | d]; [apply str_nzuint_nonempty | discriminate].
Qed.

Lemma drop_underscores_none (after_digit : bool) (s : string) :
  has_char "_" s = false -> s <> EmptyString \/ after_digit = true ->
  drop_underscores after_digit s = Some s.
Proof.
  revert after_digit. induction s as [| c s IH]; simpl; intros b H Hne.
  - destruct Hne as [Hne | ->]; [contradiction Hne |]; reflexivity.
  - apply orb_false_iff in H. destruct H as [Hc Hs].
    rewrite Hc, (IH true Hs) by (right; reflexivity). reflexivity.
Qed.

Lemma str_nzuint_no_underscore (d : Decimal.uint) :
  has_char "_" (NilZero.string_of_uint d) = false.
Proof.
  destruct (has_char "_" (NilZero.string_of_uint d)) eqn:E; [| reflexivity].
  apply str_nzuint_chars in E. discriminate E.
Qed.

Lemma str_nzuint_head (d : Decimal.uint) :
  exists c r, NilZero.string_of_uint d = String c r /\
              Ascii.eqb c "-" = false /\ Ascii.eqb c "+" = false.
Proof.
  destruct (NilZero.string_of_uint d) as [| c r] eqn:E;
    [contradiction (str_nzuint_nonempty d E) |].
  exists c, r. split; [reflexivity |].
  assert (H : existsb (Ascii.eqb c) digit_chars = true).
  { apply (str_nzuint_chars d). rewrite E. simpl. rewrite Ascii.eqb_refl. reflexivity. }
  split.
  - destruct (Ascii.eqb_spec c "-") as [-> |]; [discriminate H | reflexivity].
  - destruct (Ascii.eqb_spec c "+") as [-> |]; [discriminate H | reflexivity].
Qed.

(** [int] of the text [str] gives for an integer, with blanks before and
    after it (the end of the line is one), is that integer. *)
Lemma py_int_of_str (pre post : string) (z : Z) :
  blank pre = true -> blank post = true ->
  py_int (pre ++ py_str_int z ++ post)%string = Some z.
Proof.
  intros Hpre Hpost. unfold py_int.
  rewrite (strip_blanks_around _ _ _ Hpre Hpost (str_int_spaceless z) (str_int_nonempty z)).
  rewrite <- (DecimalZ.of_to z) at 2.
  unfold py_str_int, NilZero.string_of_int.
  destruct (Z.to_int z) as [d | d].
  - destruct (str_nzuint_head d) as (c & r & E & Hm & Hp).
    rewrite E, Hm, Hp, <- E.
    rewrite drop_underscores_none
      by (try apply str_nzuint_no_underscore; left; apply str_nzuint_nonempty).
    rewrite digits_value_str_uint. reflexivity.
  - rewrite Ascii.eqb_refl.
    rewrite drop_underscores_none
      by (try apply str_nzuint_no_underscore; left; apply str_nzuint_nonempty).
    rewrite digits_value_str_uint. reflexivity.
Qed.

(** ** The date index *)

Lemma parse_Y_digits (f : string) (v : Z) : parse_Y f = Some v -> digits_value f = Some v.
Proof.
  unfold parse_Y. destruct (String.length f =? 4)%nat; [trivial | discriminate].
Qed.

Lemma parse_m_digits (f : string) (v : Z) : parse_m f = Some v -> digits_value f = Some v.
Proof.
  unfold parse_m. destruct (digits_value f) as [w |]; [| discriminate].
  destruct (_ && _); [trivial | discriminate].
Qed.

Lemma parse_d_digits (f : string) (v : Z) :
  has_char " " f = false -> parse_d f = Some v -> digits_value f = Some v.
Proof.
  unfold parse_d. intros Hsp.
  assert (E : match f with
              | String c r => if Ascii.eqb c " " then r else f
              | EmptyString => f
              end = f).
  { destruct f as [| c r]; [reflexivity |].
    simpl in Hsp. apply orb_false_iff in Hsp. destruct Hsp as [Hc _].
    rewrite Hc. reflexivity. }
  rewrite E. destruct (digits_value f) as [w |]; [| discriminate].
  destruct (_ && _); [trivial | discriminate].
Qed.

(** A date text made of the texts of three integers parses to those
    integers or fails. *)
Lemma strptime_ymd_of_str (y m d y' m' d' : Z) :
  strptime_ymd (py_str_int y ++ "/" ++ py_str_int m ++ "/" ++ py_str_int d)%string
  = Ok (y', m', d') ->
  y' = y /\ m' = m /\ d' = d.
Proof.
  unfold strptime_ymd. simpl append.
  rewrite (split_on_app "/" _ _ (str_int_no_slash y)).
  rewrite (split_on_app "/" _ _ (str_int_no_slash m)).
  rewrite (split_on_without "/" _ (str_int_no_slash d)).
  destruct (parse_Y (py_str_int y)) as [vy |] eqn:Ey; [| discriminate].
  destruct (parse_m (py_str_int m)) as [vm |] eqn:Em; [| discriminate].
  destruct (parse_d (py_str_int d)) as [vd |] eqn:Ed; [| discriminate].
  destruct (vd <=? days_in_month vy vm); [| discriminate].
  intros H. injection H as <- <- <-.
  apply parse_Y_digits, digits_value_str_int in Ey.
  apply parse_m_digits, digits_value_str_int in Em.
  apply (parse_d_digits _ _ (str_int_no_space d)), digits_value_str_int in Ed.
  repeat split; assumption.
Qed.

Lemma mapM_Ok_In {A B : Type} (f : A -> result B) (xs : list A) (ys : list B) :
  mapM f xs = Ok ys -> forall y, In y ys -> exists x, In x xs /\ f x = Ok y.
Proof.
  revert ys. induction xs as [| x0 xs IH]; simpl; intros ys H y Hy.
  - injection H as <-. destruct Hy.
  - apply bind_Ok_inv in H. destruct H as (y0 & Hy0 & H).
    apply bind_Ok_inv in H. destruct H as (ys' & Hys & H).
    injection H as <-. destruct Hy as [<- | Hy].
    + exists x0. split; [left; reflexivity | exact Hy0].
    + destruct (IH ys' Hys y Hy) as (x & Hx & Hfx).
      exists x. split; [right; exact Hx | exact Hfx].
Qed.

Lemma nth_error_combine {A B : Type} (l1 : list A) (l2 : list B) (i : nat) (a : A) (b : B) :
  nth_error l1 i = Some a -> nth_error l2 i = Some b ->
  nth_error (combine l1 l2) i = Some (a, b).
Proof.
  revert l2 i. induction l1 as [| x l1 IH]; intros l2 i H1 H2.
  - destruct i; discriminate H1.
  - destruct l2 as [| y l2]; [destruct i; discriminate H2 |].
    destruct i as [| i]; simpl in *.
    + injection H1 as <-. injection H2 as <-. reflexivity.
    + apply IH; assumption.
Qed.

Lemma date_strings_nth (year mnth day : column) (i : nat) (a b c : scalar) :
  nth_error year i = Some a -> nth_error mnth i = Some b -> nth_error day i = Some c ->
  nth_error (date_strings year mnth day) i
  = Some (py_str a ++ "/" ++ py_str b ++ "/" ++ py_str c)%string.
Proof.
  intros Ha Hb Hc. unfold date_strings.
  rewrite nth_error_map.
  rewrite (nth_error_combine _ _ _ _ _ Ha (nth_error_combine _ _ _ _ _ Hb Hc)).
  reflexivity.
Qed.

Lemma date_strings_length (year mnth day : column) :
  List.length (date_strings year mnth day)
  = Nat.min (List.length year) (Nat.min (List.length mnth) (List.length day)).
Proof.
  unfold date_strings. rewrite length_map, !length_combine. reflexivity.
Qed.

Lemma to_datetime_midnights (strings : list string) (dates : list Timestamp) :
  to_datetime strings = Ok dates ->
  Forall (fun ts => ts = midnight (ts_year ts) (ts_month ts) (ts_day ts)) dates.
Proof.
  intros H. apply Forall_forall. intros ts Hts.
  destruct (mapM_Ok_In _ _ _ H ts Hts) as (str & _ & Hstr).
  apply bind_Ok_inv in Hstr. destruct Hstr as (((y, m), d) & _ & Hstr).
  destruct (timestamp_in_bounds y m d); [| discriminate Hstr].
  injection Hstr as <-. reflexivity.
Qed.

Lemma to_datetime_nth (strings : list string) (dates : list Timestamp) :
  to_datetime strings = Ok dates ->
  forall i str, nth_error strings i = Some str ->
  exists y m d, strptime_ymd str = Ok (y, m, d) /\ nth_error dates i = Some (midnight y m d).
Proof.
  intros H i str Hi.
  destruct (mapM_Ok_nth _ _ _ H i str Hi) as (ts & Hts & Hnth).
  apply bind_Ok_inv in Hts. destruct Hts as (((y, m), d) & Hp & Hts).
  destruct (timestamp_in_bounds y m d); [| discriminate Hts].
  injection Hts as <-. exists y, m, d. split; assumption.
Qed.

Lemma columns_named_drop_other (name other : string) (t : Table) :
  name <> other ->
  columns_named name (drop_column other t) = columns_named name t.
Proof.
  intros Hne. induction t as [| [n c] t IH]; simpl; [reflexivity |].
  destruct (String.eqb_spec n other) as [-> | Hno]; simpl.
  - destruct (String.eqb_spec other name) as [E | _]; [congruence | exact IH].
  - destruct (String.eqb n name); [f_equal |]; exact IH.
Qed.

Lemma getattr_column_drop_other (name other : string) (t : Table) :
  name <> other ->
  getattr_column name (drop_column other t) = getattr_column name t.
Proof.
  intros Hne. unfold getattr_column. rewrite columns_named_drop_other by exact Hne.
  reflexivity.
Qed.

Lemma getattr_column_length (n : nat) (name : string) (t : Table) (c : column) :
  rectangular n t -> getattr_column name t = Ok c -> List.length c = n.
Proof.
  unfold rectangular, getattr_column. intros Hrect.
  induction Hrect as [| [n0 c0] t Hc Ht IH]; simpl; [discriminate |].
  destruct (String.eqb n0 name); [| exact IH].
  intros H. injection H as <-. exact Hc.
Qed.

(** What a frame with a date index is made of. *)
Lemma set_date_index_spec (t : Table) (df : DataFrame Timestamp) :
  set_date_index t = Ok df ->
  exists year mnth day,
    getattr_column "Year" t = Ok year /\
    getattr_column "Mnth" t = Ok mnth /\
    getattr_column "Day" t = Ok day /\
    date_index_of (index df) year mnth day /\
    columns df = drop_column "date" t.
Proof.
  unfold set_date_index. intros H.
  apply bind_Ok_inv in H. destruct H as (year & Hy & H).
  apply bind_Ok_inv in H. destruct H as (mnth & Hm & H).
  apply bind_Ok_inv in H. destruct H as (day & Hd & H).
  apply bind_Ok_inv in H. destruct H as (dates & Hdates & H).
  injection H as <-. exists year, mnth, day.
  repeat split; try assumption; simpl.
  - rewrite (mapM_Ok_length _ _ _ Hdates). apply date_strings_length.
  - apply (to_datetime_midnights _ _ Hdates).
  - intros i y m d Hiy Him Hid.
    pose proof (date_strings_nth _ _ _ _ _ _ _ Hiy Him Hid) as Hstr.
    destruct (to_datetime_nth _ _ Hdates _ _ Hstr) as (y' & m' & d' & Hp & Hnth).
    simpl py_str in Hp. apply strptime_ymd_of_str in Hp.
    destruct Hp as (-> & -> & ->). exact Hnth.
Qed.

(** ** Locating the files *)

Section NodeInduction.
Variable P : node -> Prop.
Hypothesis P_File : forall text, P (File text).
Hypothesis P_Dir : forall es, Forall (fun e => P (snd e)) es -> P (Dir es).

(** Induction on a tree, with the property at hand for every entry of a
    directory. *)
Fixpoint node_induction (n : node) : P n :=
  match n with
  | File text => P_File text
  | Dir es =>
      P_Dir es
        ((fix entries (l : list (string * node)) : Forall (fun e => P (snd e)) l :=
            match l with
            | [] => Forall_nil _
            | e :: l' =>
                Forall_cons e
                  (match e as e0 return P (snd e0) with (_, c) => node_induction c end)
                  (entries l')
            end) es)
  end.
End NodeInduction.

Lemma matching_entries_nil (pat : string) (p : path) (es : list (string * node)) :
  matching_entries fnmatch pat p es = []
  <-> existsb (fun e => fnmatch (fst e) pat) es = false.
Proof.
  unfold matching_entries. induction es as [| e es IH]; simpl; [tauto |].
  destruct (fnmatch (fst e) pat); simpl; [| exact IH].
  split; discriminate.
Qed.

(** The recursive search finds nothing exactly when no entry below the
    directory has a matching name. *)
Lemma glob_tree_nil (pat : string) (n : node) :
  forall p, glob_tree fnmatch pat p n = [] <-> has_match fnmatch pat n = false.
Proof.
  induction n as [text | es IH] using node_induction; intros p; [simpl; tauto |].
  cbn [glob_tree has_match].
  rewrite orb_false_iff, <- (matching_entries_nil pat p es).
  split.
  - intros H. apply app_eq_nil in H. destruct H as [Hm Hw]. split; [exact Hm |].
    clear Hm. induction es as [| [name c] es IHes]; [reflexivity |].
    inversion IH as [| ? ? Hc Hes]; subst.
    apply app_eq_nil in Hw. destruct Hw as [Hc' Hw].
    apply orb_false_iff. split; [apply (Hc (joinpath p name)); exact Hc' |].
    apply IHes; assumption.
  - intros [Hm Hany]. rewrite Hm. simpl. clear Hm.
    induction es as [| [name c] es IHes]; [reflexivity |].
    inversion IH as [| ? ? Hc Hes]; subst. cbn [snd] in Hc.
    apply orb_false_iff in Hany. destruct Hany as [Hc' Hany].
    rewrite (proj2 (Hc (joinpath p name)) Hc'). simpl. apply IHes; assumption.
Qed.

Lemma glob_rec_nil (fs : node) (pat : string) (p : path) :
  glob_rec fnmatch fs pat p = []
  <-> forall n, resolve fs p = Some n -> has_match fnmatch pat n = false.
Proof.
  unfold glob_rec. destruct (resolve fs p) as [n |].
  - rewrite glob_tree_nil. split.
    + intros H n' E. injection E as <-. exact H.
    + intros H. apply H. reflexivity.
  - split; [intros _ n E; discriminate E | reflexivity].
Qed.

Lemma missing_path_not_dir (fs : node) (p : path) :
  path_exists fs p = false -> path_is_dir fs p = false.
Proof.
  unfold path_exists, path_is_dir. destruct (resolve fs p); [discriminate | reflexivity].
Qed.

Lemma glob_rec_missing (fs : node) (pat : string) (p : path) :
  path_exists fs p = false -> glob_rec fnmatch fs pat p = [].
Proof.
  unfold path_exists, glob_rec. destruct (resolve fs p); [discriminate | reflexivity].
Qed.

(** C7. The discharge loader searches below [usgs_streamflow] without
    checking that the directory exists: a missing directory gives an
    empty search result. Whenever no entry below the directory is named
    [<basin>_streamflow_qc.txt], as when the directory is missing, the
    loader ends in one and the same [FileNotFoundError]; it returns a
    series only when there is such an entry. *)
Theorem discharge_missing_file_not_found
    (fs : node) (data_dir : path) (basin : string) (area : Z) :
  let discharge_path := joinpath data_dir "usgs_streamflow" in
  let pattern := (basin ++ "_streamflow_qc.txt")%string in
  let not_found : result (Series Timestamp) :=
    Raise (FileNotFoundError ("No file for Basin " ++ basin ++ " at []")%string) in
  (path_exists fs discharge_path = false ->
   glob_rec fnmatch fs pattern discharge_path = []) /\
  ((forall n, resolve fs discharge_path = Some n -> has_match fnmatch pattern n = false) ->
   load_camels_us_discharge fs data_dir basin area = not_found) /\
  (path_exists fs discharge_path = false ->
   load_camels_us_discharge fs data_dir basin area = not_found) /\
  (forall s,
      load_camels_us_discharge fs data_dir basin area = Ok s ->
      exists n, resolve fs discharge_path = Some n /\ has_match fnmatch pattern n = true).
Proof.
  intros discharge_path pattern not_found.
  assert (Hempty : glob_rec fnmatch fs pattern discharge_path = [] ->
                   load_camels_us_discharge fs data_dir basin area = not_found).
  { intros H. unfold load_camels_us_discharge.
    fold discharge_path. fold pattern. rewrite H. reflexivity. }
  split; [apply glob_rec_missing |].
  split; [intros H; apply Hempty, glob_rec_nil, H |].
  split; [intros H; apply Hempty, glob_rec_missing, H |].
  intros s Hs.
  destruct (resolve fs discharge_path) as [n |] eqn:En.
  - exists n. split; [reflexivity |].
    destruct (has_match fnmatch pattern n) eqn:Em; [reflexivity |].
    rewrite Hempty in Hs; [discriminate Hs |].
    apply glob_rec_nil. intros n' E. rewrite En in E. injection E as <-. exact Em.
  - rewrite Hempty in Hs; [discriminate Hs |].
    apply glob_rec_nil. intros n' E. rewrite En in E. discriminate E.
Qed.

(** C8. The forcing loader ends in an [OSError] when the directory of
    the forcing product below [basin_mean_forcing] is no directory, as
    when it does not exist; in a [FileNotFoundError] when no entry below
    that directory is named [<basin>_*_forcing_leap.txt]; and reads the
    first entry found when the search finds one or more. *)
Theorem forcings_directory_and_file_errors
    (fs : node) (data_dir : path) (basin forcings : string) :
  let forcing_path := joinpath (joinpath data_dir "basin_mean_forcing") forcings in
  let pattern := (basin ++ "_*_forcing_leap.txt")%string in
  (path_exists fs forcing_path = false -> path_is_dir fs forcing_path = false) /\
  (path_is_dir fs forcing_path = false ->
   load_camels_us_forcings fs data_dir basin forcings
   = Raise (OSError (path_str forcing_path ++ " does not exist")%string)) /\
  (path_is_dir fs forcing_path = true ->
   (forall n, resolve fs forcing_path = Some n -> has_match fnmatch pattern n = false) ->
   load_camels_us_forcings fs data_dir basin forcings
   = Raise (FileNotFoundError ("No file for Basin " ++ basin ++ " at []")%string)) /\
  (forall first others,
      path_is_dir fs forcing_path = true ->
      glob_rec fnmatch fs pattern forcing_path = first :: others ->
      load_camels_us_forcings fs data_dir basin forcings
      = (fp <- open_read fs first ;; read_forcing_file fp)).
Proof.
  intros forcing_path pattern.
  split; [apply missing_path_not_dir |].
  unfold load_camels_us_forcings. fold forcing_path. fold pattern.
  repeat split.
  - intros H. rewrite H. reflexivity.
  - intros Hd Hg. apply glob_rec_nil in Hg. rewrite Hd, Hg. reflexivity.
  - intros first others Hd Hg. rewrite Hd, Hg. reflexivity.
Qed.

(** C10. When the attribute directory exists and no entry of it is
    named [camels_*.txt], the attribute loader returns no table, empty or
    not: it ends in the [ValueError] of [pd.concat] on an empty list, which
    is none of the configuration, not-found and validation errors of the
    specification. *)
Theorem attributes_without_files_concat_error
    (fs : node) (data_dir : path) (basins : list string) :
  let attributes_path := joinpath data_dir "camels_attributes_v2.0" in
  path_exists fs attributes_path = true ->
  (forall es, resolve fs attributes_path = Some (Dir es) ->
              existsb (fun e => fnmatch (fst e) "camels_*.txt") es = false) ->
  load_camels_us_attributes fs data_dir basins
  = Raise (ValueError "No objects to concatenate") /\
  documented_error (ValueError "No objects to concatenate") = None.
Proof.
  intros attributes_path Hex Hnone.
  split; [| reflexivity].
  assert (Hglob : glob_here fnmatch "camels_*.txt" attributes_path
                    (resolve fs attributes_path) = []).
  { unfold glob_here. destruct (resolve fs attributes_path) as [[text | es] |];
      try reflexivity.
    apply matching_entries_nil, Hnone. reflexivity. }
  unfold load_camels_us_attributes, joined_attributes.
  fold attributes_path. rewrite Hex, Hglob. reflexivity.
Qed.

(** ** Reading the forcing file *)

Lemma read_forcing_file_inv (text : string) (df : DataFrame Timestamp) (area : Z) :
  read_forcing_file text = Ok (df, area) ->
  exists t,
    py_int (third_line text) = Some area /\
    read_csv forcing_csv (after_third_line text) = Ok t /\
    set_date_index t = Ok df.
Proof.
  unfold read_forcing_file, third_line, after_third_line.
  destruct (readline text) as [l1 r1]. simpl.
  destruct (readline r1) as [l2 r2]. simpl.
  destruct (readline r2) as [l3 r3]. simpl.
  intros H.
  apply bind_Ok_inv in H. destruct H as (a & Ha & H).
  apply bind_Ok_inv in H. destruct H as (t & Ht & H).
  apply bind_Ok_inv in H. destruct H as (df' & Hdf & H).
  injection H as <- <-.
  unfold int_of_line in Ha. destruct (py_int l3) as [z |]; [| discriminate Ha].
  injection Ha as <-. exists t. repeat split; assumption.
Qed.

Lemma load_camels_us_forcings_inv
    (fs : node) (data_dir : path) (basin forcings : string)
    (df : DataFrame Timestamp) (area : Z) :
  load_camels_us_forcings fs data_dir basin forcings = Ok (df, area) ->
  exists file_path others text,
    glob_rec fnmatch fs (basin ++ "_*_forcing_leap.txt")%string
      (joinpath (joinpath data_dir "basin_mean_forcing") forcings)
    = file_path :: others /\
    open_read fs file_path = Ok text /\
    read_forcing_file text = Ok (df, area).
Proof.
  unfold load_camels_us_forcings.
  destruct (negb (path_is_dir fs _)); [discriminate |].
  destruct (glob_rec fnmatch fs _ _) as [| file_path others]; [discriminate |].
  intros H. apply bind_Ok_inv in H. destruct H as (text & Ht & H).
  exists file_path, others, text. repeat split; assumption.
Qed.

Lemma load_camels_us_discharge_inv
    (fs : node) (data_dir : path) (basin : string) (area : Z) (s : Series Timestamp) :
  load_camels_us_discharge fs data_dir basin area = Ok s ->
  exists file_path others text t df,
    glob_rec fnmatch fs (basin ++ "_streamflow_qc.txt")%string
      (joinpath data_dir "usgs_streamflow")
    = file_path :: others /\
    open_read fs file_path = Ok text /\
    read_csv discharge_csv text = Ok t /\
    set_date_index t = Ok df /\
    normalize_discharge df area = Ok s.
Proof.
  unfold load_camels_us_discharge.
  destruct (glob_rec fnmatch fs _ _) as [| file_path others]; [discriminate |].
  intros H.
  apply bind_Ok_inv in H. destruct H as (text & Htext & H).
  apply bind_Ok_inv in H. destruct H as (t & Ht & H).
  apply bind_Ok_inv in H. destruct H as (df & Hdf & H).
  exists file_path, others, text, t, df. repeat split; assumption.
Qed.

(** C5. Whenever the forcing loader returns, the area it returns is the
    integer that [int] reads on the third line of the first file found:
    when that line is the decimal text of an integer between blanks, the
    area is that integer. The two lines before it are read and not used,
    and the table is read from what follows the third line. *)
Theorem forcings_area_is_third_line
    (fs : node) (data_dir : path) (basin forcings : string)
    (df : DataFrame Timestamp) (area : Z) :
  load_camels_us_forcings fs data_dir basin forcings = Ok (df, area) ->
  exists file_path others text t,
    glob_rec fnmatch fs (basin ++ "_*_forcing_leap.txt")%string
      (joinpath (joinpath data_dir "basin_mean_forcing") forcings)
    = file_path :: others /\
    open_read fs file_path = Ok text /\
    py_int (third_line text) = Some area /\
    (forall pre post n,
        blank pre = true -> blank post = true ->
        third_line text = (pre ++ py_str_int n ++ post)%string -> area = n) /\
    read_csv forcing_csv (after_third_line text) = Ok t /\
    set_date_index t = Ok df.
Proof.
  intros H.
  destruct (load_camels_us_forcings_inv _ _ _ _ _ _ H)
    as (file_path & others & text & Hglob & Hopen & Hread).
  destruct (read_forcing_file_inv _ _ _ Hread) as (t & Harea & Ht & Hdf).
  exists file_path, others, text, t. repeat split; try assumption.
  intros pre post n Hpre Hpost E.
  rewrite E, (py_int_of_str _ _ _ Hpre Hpost) in Harea.
  injection Harea as <-. reflexivity.
Qed.

(** ** The divisor of the formula

    The source multiplies the area by [10**6] as integers and the quotient
    converts the product to a double; the specification writes the divisor
    [area_m2 * 1e6]. For an area below 2^53 the two are one double. *)

Lemma iter_pos_nat {A : Type} (f : A -> A) (p : positive) (x : A) :
  iter_pos f p x = Nat.iter (Pos.to_nat p) f x.
Proof.
  revert x. induction p as [p IH | p IH |]; intros x; cbn [iter_pos].
  - rewrite !IH, Pos2Nat.inj_xI.
    rewrite <- Nat.iter_succ_r, <- Nat.iter_add. f_equal. lia.
  - rewrite !IH, Pos2Nat.inj_xO, <- Nat.iter_add. f_equal. lia.
  - reflexivity.
Qed.

Lemma shr_1_double (q : positive) :
  shr_1 (exact_record (2 * Z.pos q)) = exact_record (Z.pos q).
Proof. reflexivity. Qed.

Lemma pow2_pos_ex (m : positive) (j : nat) : exists q, Z.pos m * 2 ^ Z.of_nat j = Z.pos q.
Proof.
  assert (0 < Z.pos m * 2 ^ Z.of_nat j) by (apply Z.mul_pos_pos; [lia | apply Z.pow_pos_nonneg; lia]).
  destruct (Z.pos m * 2 ^ Z.of_nat j) as [| q | q]; try lia. exists q. reflexivity.
Qed.

Lemma iter_shr_1_pow2 (m : positive) (j : nat) :
  Nat.iter j shr_1 (exact_record (Z.pos m * 2 ^ Z.of_nat j)) = exact_record (Z.pos m).
Proof.
  induction j as [| j IH].
  - simpl. f_equal. lia.
  - rewrite Nat.iter_succ_r.
    destruct (pow2_pos_ex m j) as (q & Hq).
    replace (Z.pos m * 2 ^ Z.of_nat (S j)) with (2 * Z.pos q)
      by (rewrite <- Hq, Nat2Z.inj_succ, Z.pow_succ_r by lia; lia).
    rewrite shr_1_double, <- Hq. exact IH.
Qed.

Lemma Zdigits2_double (q : positive) : Zdigits2 (2 * Z.pos q) = Zdigits2 (Z.pos q) + 1.
Proof. simpl. lia. Qed.

Lemma Zdigits2_pow2 (m : positive) (j : nat) :
  Zdigits2 (Z.pos m * 2 ^ Z.of_nat j) = Zdigits2 (Z.pos m) + Z.of_nat j.
Proof.
  induction j as [| j IH].
  - replace (Z.pos m * 2 ^ Z.of_nat 0) with (Z.pos m) by (simpl; lia). simpl Z.of_nat. lia.
  - destruct (pow2_pos_ex m j) as (q & Hq).
    replace (Z.pos m * 2 ^ Z.of_nat (S j)) with (2 * Z.pos q)
      by (rewrite <- Hq, Nat2Z.inj_succ, Z.pow_succ_r by lia; lia).
    rewrite Zdigits2_double, <- Hq, IH. lia.
Qed.

(** shr by a count given as Z *)
Lemma shr_nat (mrs : shr_record) (e : Z) (n : nat) :
  shr mrs e (Z.of_nat n) = (Nat.iter n shr_1 mrs, e + Z.of_nat n).
Proof.
  destruct n as [| n].
  - simpl. f_equal. lia.
  - unfold shr. cbn [Z.of_nat].
    rewrite iter_pos_nat, SuccNat2Pos.id_succ. reflexivity.
Qed.

(** The first step of rounding an exact mantissa [m] at exponent [e]:
    the shift to the exponent of the format. *)
Lemma shr_fexp_pow2 (m : positive) (e : Z) (j n : nat) :
  fexp prec emax (Zdigits2 (Z.pos m) + e) - e = Z.of_nat n ->
  shr_fexp prec emax (Z.pos m * 2 ^ Z.of_nat j) (e - Z.of_nat j) loc_Exact
  = shr_fexp prec emax (Z.pos m) e loc_Exact.
Proof.
  intros Hn. unfold shr_fexp.
  rewrite Zdigits2_pow2.
  replace (Zdigits2 (Z.pos m) + Z.of_nat j + (e - Z.of_nat j)) with (Zdigits2 (Z.pos m) + e) by lia.
  replace (fexp prec emax (Zdigits2 (Z.pos m) + e) - (e - Z.of_nat j))
    with (Z.of_nat (n + j)) by lia.
  rewrite Hn, !shr_nat. cbn [shr_record_of_loc].
  rewrite Nat.iter_add.
  change (Build_shr_record (Z.pos m * 2 ^ Z.of_nat j) false false)
    with (exact_record (Z.pos m * 2 ^ Z.of_nat j)).
  rewrite iter_shr_1_pow2. f_equal. lia.
Qed.

Lemma binary_round_aux_pow2 (s : bool) (m : positive) (e : Z) (j n : nat) :
  fexp prec emax (Zdigits2 (Z.pos m) + e) - e = Z.of_nat n ->
  binary_round_aux prec emax s (Z.pos m * 2 ^ Z.of_nat j) (e - Z.of_nat j) loc_Exact
  = binary_round_aux prec emax s (Z.pos m) e loc_Exact.
Proof.
  intros Hn. unfold binary_round_aux. rewrite (shr_fexp_pow2 m e j n Hn). reflexivity.
Qed.

Lemma iter_xO_pow2 (m d : positive) : Z.pos (Pos.iter xO m d) = Z.pos m * 2 ^ Z.pos d.
Proof.
  induction d as [| d IH] using Pos.peano_ind.
  - simpl. lia.
  - rewrite Pos.iter_succ, Pos2Z.inj_xO, IH, Pos2Z.inj_succ, Z.pow_succ_r by lia. lia.
Qed.

Lemma digits_iter_xO (m d : positive) :
  Z.pos (digits2_pos (Pos.iter xO m d)) = Z.pos (digits2_pos m) + Z.pos d.
Proof.
  induction d as [| d IH] using Pos.peano_ind.
  - simpl. lia.
  - rewrite Pos.iter_succ. cbn [digits2_pos]. rewrite Pos2Z.inj_succ, IH. lia.
Qed.

(** Rounding an exact mantissa that carries [j] more low zero bits than
    [binary_round] would give it. *)
Lemma binary_round_pow2 (s : bool) (m : positive) (e : Z) (j : nat) :
  e - fexp prec emax (Z.pos (digits2_pos m) + e) <= Z.of_nat j ->
  binary_round_aux prec emax s (Z.pos m * 2 ^ Z.of_nat j) (e - Z.of_nat j) loc_Exact
  = binary_round prec emax s m e.
Proof.
  intros Hj. unfold binary_round, shl_align.
  destruct (fexp prec emax (Z.pos (digits2_pos m) + e) - e) as [| n | d] eqn:En.
  - apply (binary_round_aux_pow2 s m e j 0). exact En.
  - apply (binary_round_aux_pow2 s m e j (Pos.to_nat n)).
    rewrite positive_nat_Z. exact En.
  - assert (Hd : (Pos.to_nat d <= j)%nat) by lia.
    replace (Z.pos m * 2 ^ Z.of_nat j)
      with (Z.pos (Pos.iter xO m d) * 2 ^ Z.of_nat (j - Pos.to_nat d)).
    2:{ rewrite iter_xO_pow2, <- Z.mul_assoc, <- Z.pow_add_r by lia. do 2 f_equal. lia. }
    replace (e - Z.of_nat j)
      with (fexp prec emax (Z.pos (digits2_pos m) + e) - Z.of_nat (j - Pos.to_nat d)) by lia.
    apply (binary_round_aux_pow2 s _ _ _ 0).
    cbn [Zdigits2]. rewrite digits_iter_xO.
    replace (Z.pos (digits2_pos m) + Z.pos d + fexp prec emax (Z.pos (digits2_pos m) + e))
      with (Z.pos (digits2_pos m) + e) by lia.
    simpl Z.of_nat. lia.
Qed.

Lemma fexp_binary64 (x : Z) : fexp prec emax x = Z.max (x - 53) (-1074).
Proof. reflexivity. Qed.

(** A mantissa of 53 bits at an exponent of the format is its own
    rounding. *)
Lemma binary_round_aux_canonical (s : bool) (m : positive) (e : Z) :
  Z.pos (digits2_pos m) = 53 -> -1074 <= e <= 971 ->
  binary_round_aux prec emax s (Z.pos m) e loc_Exact = S754_finite s m e.
Proof.
  intros Hm He. unfold binary_round_aux, shr_fexp. cbn [Zdigits2]. rewrite Hm.
  assert (E : fexp prec emax (53 + e) - e = 0).
  { rewrite fexp_binary64. lia. }
  rewrite E. cbn [shr shr_record_of_loc loc_of_shr_record shr_m round_nearest_even Zdigits2].
  rewrite Hm, E. cbn [shr shr_m].
  replace (e <=? emax - prec) with true; [reflexivity |].
  symmetry. apply Z.leb_le. unfold emax, prec. lia.
Qed.

Lemma digits2_pos_size (p : positive) : digits2_pos p = Pos.size p.
Proof. induction p as [p IH | p IH |]; simpl; rewrite ?IH; reflexivity. Qed.

Lemma digits2_pos_lower (p : positive) (n : Z) :
  0 <= n -> 2 ^ n <= Z.pos p -> n < Z.pos (digits2_pos p).
Proof.
  intros Hn H. rewrite digits2_pos_size.
  pose proof (Pos.size_gt p) as Hgt.
  apply Pos2Z.pos_lt_pos in Hgt. rewrite Pos2Z.inj_pow in Hgt.
  apply (Z.pow_lt_mono_r_iff 2); lia.
Qed.

Lemma digits2_pos_upper (p : positive) (n : Z) :
  0 <= n -> Z.pos p < 2 ^ n -> Z.pos (digits2_pos p) <= n.
Proof.
  intros Hn H. rewrite digits2_pos_size.
  pose proof (Pos.size_le p) as Hle.
  apply Pos2Z.pos_le_pos in Hle. rewrite Pos2Z.inj_pow in Hle.
  change (Z.pos p~0) with (2 * Z.pos p) in Hle.
  destruct (Z.le_gt_cases (Z.pos (Pos.size p)) n) as [Hok | Hbad]; [exact Hok |].
  assert (2 * 2 ^ n <= 2 ^ Z.pos (Pos.size p))
    by (rewrite <- Z.pow_succ_r by lia; apply Z.pow_le_mono_r; lia).
  lia.
Qed.

(** The double of a positive integer below 2^53: the integer itself,
    its mantissa brought to 53 bits. *)
Lemma float_of_small (s : bool) (p : positive) :
  Z.pos p < 2 ^ 53 ->
  exists (ma : positive) (k : nat),
    binary_round prec emax s p 0 = S754_finite s ma (- Z.of_nat k) /\
    Z.pos ma = Z.pos p * 2 ^ Z.of_nat k /\
    Z.of_nat k = 53 - Z.pos (digits2_pos p).
Proof.
  intros Hp.
  pose proof (digits2_pos_upper p 53 ltac:(lia) Hp) as Hd.
  unfold binary_round, shl_align.
  rewrite fexp_binary64.
  replace (Z.max (Z.pos (digits2_pos p) + 0 - 53) (-1074) - 0)
    with (Z.pos (digits2_pos p) - 53) by lia.
  destruct (Z.pos (digits2_pos p) - 53) as [| n | d] eqn:E; try lia.
  - exists p, 0%nat.
    rewrite binary_round_aux_canonical by lia.
    change (Z.of_nat 0) with 0. rewrite Z.pow_0_r.
    repeat split; lia.
  - exists (Pos.iter xO p d), (Pos.to_nat d).
    rewrite binary_round_aux_canonical by (rewrite ?digits_iter_xO; lia).
    rewrite iter_xO_pow2, positive_nat_Z.
    repeat split; try lia. f_equal. lia.
Qed.

Lemma binary_round_times_million (s : bool) (p : positive) :
  Z.pos p < 2 ^ 53 ->
  binary_round prec emax s (p * 1000000) 0 = fmul (binary_round prec emax s p 0) million.
Proof.
  intros Hp.
  destruct (float_of_small s p Hp) as (ma & k & -> & Hma & Hk).
  unfold fmul, million, SFmul. rewrite xorb_false_r. symmetry.
  replace (Z.pos (ma * 8589934592000000))
    with (Z.pos (p * 1000000) * 2 ^ Z.of_nat (k + 33)).
  2:{ rewrite !Pos2Z.inj_mul, Hma, Nat2Z.inj_add, Z.pow_add_r by lia.
      change (Z.pos 8589934592000000) with (1000000 * 2 ^ Z.of_nat 33). ring. }
  replace (- Z.of_nat k + -33) with (0 - Z.of_nat (k + 33)) by lia.
  apply binary_round_pow2.
  assert (HD : 19 < Z.pos (digits2_pos (p * 1000000))).
  { apply digits2_pos_lower; [lia |]. rewrite Pos2Z.inj_mul. change (2 ^ 19) with 524288. lia. }
  rewrite fexp_binary64. lia.
Qed.

(** For an area below 2^53 in absolute value, the double nearest to the
    exact product with 10^6 is the product of the two doubles. *)
Lemma float_of_Z_times_million (a : Z) :
  - 2 ^ 53 < a < 2 ^ 53 ->
  float_of_Z (a * 10 ^ 6) = fmul (float_of_Z a) million.
Proof.
  intros Ha. destruct a as [| p | p].
  - reflexivity.
  - apply (binary_round_times_million false p). lia.
  - apply (binary_round_times_million true p). lia.
Qed.

Lemma QObs_mm_per_day_divisor (q : float) (area : Z) :
  - 2 ^ 53 < area < 2 ^ 53 ->
  QObs_mm_per_day q area = QObs_mm_per_day_float_divisor q area.
Proof.
  intros Ha. unfold QObs_mm_per_day, QObs_mm_per_day_float_divisor.
  rewrite (float_of_Z_times_million area Ha). reflexivity.
Qed.

(** ** Signs in binary64 arithmetic *)

Lemma shr_1_nonneg (mrs : shr_record) : 0 <= shr_m mrs -> 0 <= shr_m (shr_1 mrs).
Proof.
  destruct mrs as [m r t]. simpl. intros H.
  destruct m as [| [p | p |] | p]; simpl; lia.
Qed.

Lemma iter_shr_1_nonneg (p : positive) (mrs : shr_record) :
  0 <= shr_m mrs -> 0 <= shr_m (iter_pos shr_1 p mrs).
Proof.
  revert mrs. induction p as [p IH | p IH |]; simpl; intros mrs H.
  - apply IH, IH, shr_1_nonneg, H.
  - apply IH, IH, H.
  - apply shr_1_nonneg, H.
Qed.

Lemma shr_fexp_nonneg (m e : Z) (l : location) :
  0 <= m -> 0 <= shr_m (fst (shr_fexp prec emax m e l)).
Proof.
  intros H. unfold shr_fexp, shr.
  assert (H0 : 0 <= shr_m (shr_record_of_loc m l)) by (destruct l as [| []]; exact H).
  destruct (fexp prec emax (Zdigits2 m + e) - e); simpl; try exact H0.
  apply iter_shr_1_nonneg, H0.
Qed.

Lemma round_nearest_even_nonneg (m : Z) (l : location) :
  0 <= m -> 0 <= round_nearest_even m l.
Proof.
  intros H. destruct l as [| []]; simpl; try lia.
  destruct (Z.even m); lia.
Qed.

(** Rounding keeps the sign it is given. *)
Lemma binary_round_aux_sign (sx : bool) (mx ex : Z) (lx : location) :
  0 <= mx -> float_sign (binary_round_aux prec emax sx mx ex lx) = Some sx.
Proof.
  intros H. unfold binary_round_aux.
  pose proof (shr_fexp_nonneg mx ex lx H) as H1.
  destruct (shr_fexp prec emax mx ex lx) as [mrs' e']. simpl in H1.
  pose proof (shr_fexp_nonneg _ e' loc_Exact
                (round_nearest_even_nonneg _ (loc_of_shr_record mrs') H1)) as H2.
  destruct (shr_fexp prec emax _ e' loc_Exact) as [mrs'' e'']. simpl in H2.
  destruct (shr_m mrs'') as [| m | m]; [reflexivity | | lia].
  destruct (e'' <=? emax - prec); reflexivity.
Qed.

Lemma fmul_sign (sx sy : bool) (x y : float) :
  nan_or_sign sx x -> nan_or_sign sy y -> nan_or_sign (xorb sx sy) (fmul x y).
Proof.
  unfold nan_or_sign, nan, fmul. intros [-> | Hx] [-> | Hy].
  - left. reflexivity.
  - left. reflexivity.
  - left. destruct x; reflexivity.
  - destruct x as [s1 | s1 | | s1 m1 e1]; try discriminate Hx;
      destruct y as [s2 | s2 | | s2 m2 e2]; try discriminate Hy;
      injection Hx as ->; injection Hy as ->; simpl;
      try (right; reflexivity); try (left; reflexivity).
    right. apply binary_round_aux_sign. lia.
Qed.

Lemma fdiv_sign (sx sy : bool) (x y : float) :
  nan_or_sign sx x -> nan_or_sign sy y -> nan_or_sign (xorb sx sy) (fdiv x y).
Proof.
  unfold nan_or_sign, nan, fdiv. intros [-> | Hx] [-> | Hy].
  - left. reflexivity.
  - left. reflexivity.
  - left. destruct x; reflexivity.
  - destruct x as [s1 | s1 | | s1 m1 e1]; try discriminate Hx;
      destruct y as [s2 | s2 | | s2 m2 e2]; try discriminate Hy;
      injection Hx as ->; injection Hy as ->; simpl;
      try (right; reflexivity); try (left; reflexivity).
    right. unfold SFdiv_core_binary.
    set (e' := Z.min _ _). set (m' := match _ with Z0 => _ | Z.pos _ => _ | Z.neg _ => _ end).
    assert (Hm' : 0 <= m').
    { unfold m'. destruct (e1 - e2 - e'); try lia. apply Z.shiftl_nonneg. lia. }
    pose proof (Z.div_pos m' (Z.pos m2) Hm' ltac:(lia)) as Hq.
    unfold Z.div in Hq. destruct (Z.div_eucl m' (Z.pos m2)) as [q r]. simpl in Hq.
    apply binary_round_aux_sign. exact Hq.
Qed.

Lemma fmul_zero (x y : float) : nan_or_zero x -> nan_or_zero (fmul x y).
Proof.
  unfold nan_or_zero, nan, fmul. intros [-> | (s & ->)]; [left; reflexivity |].
  destruct y as [s2 | s2 | | s2 m2 e2]; simpl;
    try (left; reflexivity); right; eexists; reflexivity.
Qed.

Lemma fdiv_zero (x y : float) : nan_or_zero x -> nan_or_zero (fdiv x y).
Proof.
  unfold nan_or_zero, nan, fdiv. intros [-> | (s & ->)]; [left; reflexivity |].
  destruct y as [s2 | s2 | | s2 m2 e2]; simpl;
    try (left; reflexivity); right; eexists; reflexivity.
Qed.

Lemma float_of_Z_sign (z : Z) : 0 < z -> float_sign (float_of_Z z) = Some false.
Proof.
  intros H. destruct z as [| p | p]; try lia.
  unfold float_of_Z, binary_normalize, binary_round.
  destruct (shl_align p 0 _) as [mz ez].
  apply binary_round_aux_sign. lia.
Qed.

(** The value of the formula for a positive area: of the sign of the
    discharge or NaN, and zero or NaN for a discharge of zero. *)
Lemma QObs_mm_per_day_sign (s : bool) (q : float) (area : Z) :
  0 < area -> nan_or_sign s q -> nan_or_sign s (QObs_mm_per_day q area).
Proof.
  intros Harea Hq. unfold QObs_mm_per_day.
  replace s with (xorb (xorb (xorb false s) false) false) by (destruct s; reflexivity).
  apply fdiv_sign; [apply fmul_sign; [apply fmul_sign |] |].
  - right. reflexivity.
  - exact Hq.
  - right. reflexivity.
  - right. apply float_of_Z_sign. lia.
Qed.

Lemma QObs_mm_per_day_zero (q : float) (area : Z) :
  nan_or_zero q -> nan_or_zero (QObs_mm_per_day q area).
Proof.
  intros Hq. unfold QObs_mm_per_day.
  apply fdiv_zero, fmul_zero.
  destruct Hq as [-> | (s & ->)]; [left; reflexivity | right; exists s; reflexivity].
Qed.

Lemma negative_sign (q : float) : flt q fzero = true -> float_sign q = Some true.
Proof.
  destruct q as [s | [|] | | [|] m e]; simpl; intros H; try discriminate H; reflexivity.
Qed.

Lemma not_negative_cases (q : float) :
  flt q fzero = false -> nan_or_zero q \/ float_sign q = Some false.
Proof.
  destruct q as [s | [|] | | [|] m e]; simpl; intros H; try discriminate H.
  - left. right. exists s. reflexivity.
  - right. reflexivity.
  - left. left. reflexivity.
  - right. reflexivity.
Qed.

Lemma float_of_Z_neg_sign (z : Z) : z < 0 -> float_sign (float_of_Z z) = Some true.
Proof.
  intros H. destruct z as [| p | p]; try lia.
  unfold float_of_Z, binary_normalize, binary_round.
  destruct (shl_align p 0 _) as [mz ez].
  apply binary_round_aux_sign. lia.
Qed.

Lemma cell_negative_sign (x : scalar) (q : float) :
  cell_float x = Some q -> cell_negative x = true -> float_sign q = Some true.
Proof.
  destruct x as [z | f | str]; simpl; intros Hq Hx; try discriminate Hx;
    injection Hq as <-.
  - apply float_of_Z_neg_sign. lia.
  - apply negative_sign. exact Hx.
Qed.

Lemma cell_not_negative_cases (x : scalar) (q : float) :
  cell_float x = Some q -> cell_negative x = false ->
  nan_or_zero q \/ float_sign q = Some false.
Proof.
  destruct x as [z | f | str]; simpl; intros Hq Hx; try discriminate Hq;
    injection Hq as <-.
  - destruct (Z.eq_dec z 0) as [-> | Hz].
    + left. right. exists false. reflexivity.
    + right. apply float_of_Z_sign. lia.
  - apply not_negative_cases. exact Hx.
Qed.

(** For a positive area, a discharge below zero leaves NaN in the series,
    or the zero of negative sign when its converted value is too small for
    a double; any other discharge leaves its converted value. *)
Lemma mask_negative_by_input (x : scalar) (q : float) (area : Z) :
  0 < area -> cell_float x = Some q ->
  (cell_negative x = true ->
   mask_negative (QObs_mm_per_day q area) = nan \/
   mask_negative (QObs_mm_per_day q area) = S754_zero true) /\
  (cell_negative x = false ->
   mask_negative (QObs_mm_per_day q area) = QObs_mm_per_day q area).
Proof.
  intros Harea Hcell. unfold mask_negative. split; intros Hx.
  - destruct (QObs_mm_per_day_sign true q area Harea
                (or_intror (cell_negative_sign x q Hcell Hx)))
      as [-> | Hs]; [left; reflexivity |].
    destruct (QObs_mm_per_day q area) as [s | s | | s m e]; try discriminate Hs;
      injection Hs as ->; simpl; auto.
  - destruct (cell_not_negative_cases x q Hcell Hx) as [Hz | Hs].
    + destruct (QObs_mm_per_day_zero q area Hz) as [-> | (s & ->)]; reflexivity.
    + destruct (QObs_mm_per_day_sign false q area Harea (or_intror Hs)) as [-> | Hv];
        [reflexivity |].
      destruct (QObs_mm_per_day q area) as [s | s | | s m e]; try discriminate Hv;
        injection Hv as ->; reflexivity.
Qed.

(** ** The discharge column *)

Lemma has_column_named (name : string) (t : Table) :
  has_column name t = negb (match columns_named name t with [] => true | _ => false end).
Proof.
  unfold has_column. induction t as [| [n c] t IH]; simpl; [reflexivity |].
  destruct (String.eqb n name); simpl; [reflexivity | exact IH].
Qed.

Lemma columns_named_set_column (name : string) (col : column) (t : Table) :
  has_column name t = true ->
  columns_named name (set_column name col t)
  = map (fun _ => col) (columns_named name t).
Proof.
  unfold set_column. intros H. rewrite H. clear H.
  induction t as [| [n c] t IH]; simpl; [reflexivity |].
  destruct (String.eqb n name) eqn:E; simpl; rewrite E; [f_equal |]; exact IH.
Qed.

Lemma columns_named_update (name : string) (g : column -> column) (t : Table) :
  columns_named name
    (map (fun nc => if String.eqb (fst nc) name then (fst nc, g (snd nc)) else nc) t)
  = map g (columns_named name t).
Proof.
  induction t as [| [n c] t IH]; simpl; [reflexivity |].
  destruct (String.eqb n name) eqn:E; simpl; rewrite E; [f_equal |]; exact IH.
Qed.

Lemma lt_zero_floats (l : list float) :
  mapM lt_zero (map SFloat l) = Ok (map (fun f => flt f fzero) l).
Proof.
  induction l as [| f l IH]; simpl; [reflexivity |].
  rewrite IH. reflexivity.
Qed.

Lemma mask_assign_floats (l : list float) :
  mask_assign (map (fun f => flt f fzero) l) (SFloat nan) (map SFloat l)
  = map (fun f => SFloat (mask_negative f)) l.
Proof.
  induction l as [| f l IH]; simpl; [reflexivity |].
  rewrite IH. unfold mask_negative. destruct (flt f fzero); reflexivity.
Qed.

Lemma float_of_int_Ok (z : Z) (f : float) :
  float_of_int z = Ok f -> f = float_of_Z z.
Proof.
  unfold float_of_int. destruct (float_of_Z z); intros H; try discriminate H;
    injection H as <-; reflexivity.
Qed.

Lemma mul_cell_Ok (x : scalar) (f : float) :
  mul_cell cfs_factor x = Ok f ->
  exists q, cell_float x = Some q /\ f = fmul cfs_factor q.
Proof.
  destruct x as [z | q | str]; simpl; intros H.
  - apply bind_Ok_inv in H. destruct H as (q & Hq & H).
    injection H as <-. apply float_of_int_Ok in Hq. subst q.
    exists (float_of_Z z). split; reflexivity.
  - injection H as <-. exists q. split; reflexivity.
  - discriminate H.
Qed.

Lemma after_line_140_not_below (cow : bool) (v : float) :
  flt v fzero = false -> after_line_140 cow v = v.
Proof.
  intros H. unfold after_line_140, mask_negative. rewrite H. destruct cow; reflexivity.
Qed.

(** The frame after line 140, for a column [QObs] of floats: as it was
    under copy-on-write, and with NaN for the values below zero
    otherwise. *)
Lemma view_setitem_mask_floats {I : Type} (cow : bool) (df : DataFrame I)
    (l : list float) (others : list column) :
  columns_named "QObs" (columns df) = map SFloat l :: others ->
  let df' := view_setitem_mask cow (mkView "QObs") (map (fun f => flt f fzero) l)
               (SFloat nan) df in
  index df' = index df /\
  exists others',
    columns_named "QObs" (columns df')
    = map (fun f => SFloat (after_line_140 cow f)) l :: others'.
Proof.
  intros Hcells df'. unfold df', view_setitem_mask. destruct cow.
  - split; [reflexivity |]. exists others. rewrite Hcells. reflexivity.
  - cbn [index columns view_label]. split; [reflexivity |].
    rewrite columns_named_update, Hcells. cbn [map]. rewrite mask_assign_floats.
    eexists. reflexivity.
Qed.

(** What [normalize_discharge] returns, cell by cell: the date index of
    the frame, and for each cell of [QObs] what line 140 leaves of the
    value of the formula. *)
Lemma normalize_discharge_spec (df : DataFrame Timestamp) (area : Z) (s : Series Timestamp) :
  normalize_discharge df area = Ok s ->
  exists qobs,
    getattr_column "QObs" (columns df) = Ok qobs /\
    s_index s = index df /\
    List.length (s_values s) = List.length qobs /\
    forall i x, nth_error qobs i = Some x ->
      exists q, cell_float x = Some q /\
        nth_error (s_values s) i
        = Some (SFloat (after_line_140 copy_on_write (QObs_mm_per_day q area))).
Proof.
  unfold normalize_discharge. intros H.
  apply bind_Ok_inv in H. destruct H as (qobs & Hq & H).
  apply bind_Ok_inv in H. destruct H as (q1 & Hq1 & H).
  apply bind_Ok_inv in H. destruct H as (d & Hd & H).
  apply float_of_int_Ok in Hd.
  set (q3 := map (fun x => fdiv x d) (map (fun x => fmul x seconds_per_day) q1)) in H.
  assert (Hhas : has_column "QObs" (columns df) = true).
  { rewrite has_column_named. unfold getattr_column in Hq.
    destruct (columns_named "QObs" (columns df)); [discriminate Hq | reflexivity]. }
  assert (Hcells : exists others,
             columns_named "QObs" (set_column "QObs" (map SFloat q3) (columns df))
             = map SFloat q3 :: others).
  { rewrite (columns_named_set_column _ _ _ Hhas). unfold getattr_column in Hq.
    destruct (columns_named "QObs" (columns df)) as [| c cs]; [discriminate Hq |].
    exists (map (fun _ => map SFloat q3) cs). reflexivity. }
  destruct Hcells as (others & Hcells).
  set (df1 := mkDataFrame (index df) (set_column "QObs" (map SFloat q3) (columns df))) in H.
  assert (Hcells1 : columns_named "QObs" (columns df1) = map SFloat q3 :: others)
    by exact Hcells.
  unfold view_column at 1 2 in H. rewrite Hcells1 in H. cbn [bind] in H.
  unfold view_cells at 1 in H. cbn [view_label] in H.
  rewrite Hcells1, lt_zero_floats in H. cbn [bind] in H.
  destruct (view_setitem_mask_floats copy_on_write df1 q3 others Hcells1)
    as (Hidx & others' & Hcells2).
  unfold view_column, view_cells in H. cbn [view_label] in H.
  rewrite Hcells2, Hidx in H. cbn [bind view_label] in H. rewrite Hcells2 in H.
  injection H as <-. exists qobs. cbn [s_index s_values index].
  split; [exact Hq |]. split; [reflexivity |].
  split.
  { unfold q3. rewrite !length_map. apply (mapM_Ok_length _ _ _ Hq1). }
  intros i x Hi.
  destruct (mapM_Ok_nth _ _ _ Hq1 i x Hi) as (f & Hf & Hnth).
  destruct (mul_cell_Ok _ _ Hf) as (q & Hcell & ->).
  exists q. split; [exact Hcell |].
  unfold q3. rewrite !nth_error_map, Hnth. simpl.
  unfold QObs_mm_per_day. rewrite Hd. reflexivity.
Qed.

(** The discharge loader, from the table of the file to the series. *)
Lemma load_camels_us_discharge_spec
    (fs : node) (data_dir : path) (basin : string) (area : Z) (s : Series Timestamp) :
  load_camels_us_discharge fs data_dir basin area = Ok s ->
  exists t df qobs,
    discharge_table fs data_dir basin t /\
    set_date_index t = Ok df /\
    getattr_column "QObs" t = Ok qobs /\
    s_index s = index df /\
    List.length (s_values s) = List.length qobs /\
    forall i x, nth_error qobs i = Some x ->
      exists q, cell_float x = Some q /\
        nth_error (s_values s) i
        = Some (SFloat (after_line_140 copy_on_write (QObs_mm_per_day q area))).
Proof.
  intros H.
  destruct (load_camels_us_discharge_inv _ _ _ _ _ H)
    as (file_path & others & text & t & df & Hglob & Hopen & Ht & Hdf & Hnorm).
  destruct (normalize_discharge_spec _ _ _ Hnorm) as (qobs & Hq & Hidx & Hlen & Hcells).
  destruct (set_date_index_spec _ _ Hdf) as (_ & _ & _ & _ & _ & _ & _ & Hcols).
  rewrite Hcols, getattr_column_drop_other in Hq by discriminate.
  exists t, df, qobs. repeat split; try assumption.
  exists file_path, others, text. repeat split; assumption.
Qed.

(** C2, amended. Where the assignment of line 140 reaches the frame
    (pandas without copy-on-write): in the series the discharge loader
    returns, every position whose converted value is below zero holds
    NaN, every other position holds the converted value, and no row is
    dropped: the series has one value per row of the table read, under
    the date index of all its rows. For a positive area, every input
    below zero is replaced by NaN, or left as the zero of negative sign
    when its converted value is too small for a double, and every other
    input leaves its converted value. (Under copy-on-write the statement
    says nothing.) *)
Theorem discharge_negative_results_are_nan
    (fs : node) (data_dir : path) (basin : string) (area : Z) (s : Series Timestamp) :
  copy_on_write = false ->
  load_camels_us_discharge fs data_dir basin area = Ok s ->
  exists t df qobs,
    discharge_table fs data_dir basin t /\
    set_date_index t = Ok df /\
    getattr_column "QObs" t = Ok qobs /\
    s_index s = index df /\
    List.length (s_values s) = List.length qobs /\
    (forall n, rectangular n t ->
               List.length (s_index s) = n /\ List.length (s_values s) = n) /\
    forall i x, nth_error qobs i = Some x ->
      exists q, cell_float x = Some q /\
        (flt (QObs_mm_per_day q area) fzero = true ->
         nth_error (s_values s) i = Some (SFloat nan)) /\
        (flt (QObs_mm_per_day q area) fzero = false ->
         nth_error (s_values s) i = Some (SFloat (QObs_mm_per_day q area))) /\
        (0 < area ->
         (cell_negative x = true ->
          nth_error (s_values s) i = Some (SFloat nan) \/
          nth_error (s_values s) i = Some (SFloat (S754_zero true))) /\
         (cell_negative x = false ->
          nth_error (s_values s) i = Some (SFloat (QObs_mm_per_day q area)))).
Proof.
  intros Hcow H.
  destruct (load_camels_us_discharge_spec _ _ _ _ _ H)
    as (t & df & qobs & Ht & Hdf & Hq & Hidx & Hlen & Hcells).
  exists t, df, qobs.
  split; [exact Ht |]. split; [exact Hdf |]. split; [exact Hq |].
  split; [exact Hidx |]. split; [exact Hlen |].
  split.
  { intros n Hrect.
    destruct (set_date_index_spec _ _ Hdf)
      as (year & mnth & day & Hy & Hm & Hd & (Hdates & _) & _).
    rewrite Hidx, Hdates, Hlen.
    rewrite (getattr_column_length _ _ _ _ Hrect Hy), (getattr_column_length _ _ _ _ Hrect Hm),
      (getattr_column_length _ _ _ _ Hrect Hd), (getattr_column_length _ _ _ _ Hrect Hq).
    split; [lia | reflexivity]. }
  intros i x Hi. destruct (Hcells i x Hi) as (q & Hcell & Hnth).
  rewrite Hcow in Hnth. unfold after_line_140 in Hnth.
  exists q. split; [exact Hcell |].
  split; [| split].
  - intros Hlt. unfold mask_negative in Hnth. rewrite Hlt in Hnth. exact Hnth.
  - intros Hlt. unfold mask_negative in Hnth. rewrite Hlt in Hnth. exact Hnth.
  - intros Harea. destruct (mask_negative_by_input x q area Harea Hcell) as (Hneg & Hpos).
    split; intros Hsign.
    + destruct (Hneg Hsign) as [E | E]; rewrite E in Hnth; [left | right]; exact Hnth.
    + rewrite (Hpos Hsign) in Hnth. exact Hnth.
Qed.

(** C6. Whenever a loader returns, the date index it returns has, row
    by row in the order of the file, the midnight of the date that the
    integers of the columns [Year], [Mnth] and [Day] give, every entry
    being a midnight; and in the frame of the forcing loader the three
    columns are still columns. *)
Theorem date_index_from_year_month_day :
  (forall fs data_dir basin forcings df area,
      load_camels_us_forcings fs data_dir basin forcings = Ok (df, area) ->
      exists t year mnth day,
        forcing_table fs data_dir basin forcings t /\
        getattr_column "Year" t = Ok year /\
        getattr_column "Mnth" t = Ok mnth /\
        getattr_column "Day" t = Ok day /\
        getattr_column "Year" (columns df) = Ok year /\
        getattr_column "Mnth" (columns df) = Ok mnth /\
        getattr_column "Day" (columns df) = Ok day /\
        date_index_of (index df) year mnth day) /\
  (forall fs data_dir basin area s,
      load_camels_us_discharge fs data_dir basin area = Ok s ->
      exists t year mnth day,
        discharge_table fs data_dir basin t /\
        getattr_column "Year" t = Ok year /\
        getattr_column "Mnth" t = Ok mnth /\
        getattr_column "Day" t = Ok day /\
        date_index_of (s_index s) year mnth day).
Proof.
  split.
  - intros fs data_dir basin forcings df area H.
    destruct (load_camels_us_forcings_inv _ _ _ _ _ _ H)
      as (file_path & others & text & Hglob & Hopen & Hread).
    destruct (read_forcing_file_inv _ _ _ Hread) as (t & _ & Ht & Hdf).
    destruct (set_date_index_spec _ _ Hdf)
      as (year & mnth & day & Hy & Hm & Hd & Hdates & Hcols).
    exists t, year, mnth, day. rewrite Hcols.
    rewrite !getattr_column_drop_other by discriminate.
    repeat split; try assumption; try apply Hdates.
    exists file_path, others, text. repeat split; assumption.
  - intros fs data_dir basin area s H.
    destruct (load_camels_us_discharge_spec _ _ _ _ _ H)
      as (t & df & qobs & Ht & Hdf & _ & Hidx & _ & _).
    destruct (set_date_index_spec _ _ Hdf)
      as (year & mnth & day & Hy & Hm & Hd & Hdates & _).
    exists t, year, mnth, day. rewrite Hidx.
    repeat split; try assumption; apply Hdates.
Qed.

(** ** Labels and positions *)

Lemma float_eqb_eq (a b : float) : float_eqb a b = true -> a = b.
Proof.
  destruct a as [sa | sa | | sa ma ea], b as [sb | sb | | sb mb eb];
    simpl; intros H; try discriminate H; try reflexivity.
  - apply Bool.eqb_prop in H. congruence.
  - apply Bool.eqb_prop in H. congruence.
  - apply andb_true_iff in H. destruct H as [H He].
    apply andb_true_iff in H. destruct H as [Hs Hm].
    apply Bool.eqb_prop in Hs. apply Pos.eqb_eq in Hm. apply Z.eqb_eq in He.
    congruence.
Qed.

Lemma float_eqb_refl (a : float) : float_eqb a a = true.
Proof.
  destruct a as [sa | sa | | sa ma ea]; simpl;
    rewrite ?Bool.eqb_reflx, ?Pos.eqb_refl, ?Z.eqb_refl; reflexivity.
Qed.

Lemma scalar_eqb_eq (a b : scalar) : scalar_eqb a b = true -> a = b.
Proof.
  destruct a, b; simpl; intros H; try discriminate H; f_equal.
  - apply Z.eqb_eq. exact H.
  - apply float_eqb_eq. exact H.
  - apply String.eqb_eq. exact H.
Qed.

Lemma scalar_eqb_refl (a : scalar) : scalar_eqb a a = true.
Proof.
  destruct a; simpl.
  - apply Z.eqb_refl.
  - apply float_eqb_refl.
  - apply String.eqb_refl.
Qed.

Lemma label_in_In (l : scalar) (idx : list scalar) : label_in l idx = true <-> In l idx.
Proof.
  unfold label_in. rewrite existsb_exists. split.
  - intros (x & Hx & E). apply scalar_eqb_eq in E. subst x. exact Hx.
  - intros H. exists l. split; [exact H | apply scalar_eqb_refl].
Qed.

Lemma index_eqb_eq (a b : list scalar) : index_eqb a b = true -> a = b.
Proof.
  revert b. induction a as [| x a IH]; intros [| y b]; simpl; intros H;
    try discriminate H; [reflexivity |].
  apply andb_true_iff in H. destruct H as [Hx Ha].
  apply scalar_eqb_eq in Hx. rewrite (IH b Ha), Hx. reflexivity.
Qed.

Lemma take_app {A : Type} (p1 p2 : list nat) (xs : list A) :
  take (p1 ++ p2) xs = take p1 xs ++ take p2 xs.
Proof. unfold take. apply flat_map_app. Qed.

Lemma take_flat_map {A L : Type} (g : L -> list nat) (labels : list L) (xs : list A) :
  take (flat_map g labels) xs = flat_map (fun l => take (g l) xs) labels.
Proof.
  induction labels as [| l labels IH]; simpl; [reflexivity |].
  rewrite take_app, IH. reflexivity.
Qed.

Lemma take_map {A B : Type} (f : A -> B) (ps : list nat) (xs : list A) :
  take ps (map f xs) = map f (take ps xs).
Proof.
  induction ps as [| i ps IH]; [reflexivity |].
  change (take (i :: ps) (map f xs))
    with ((match nth_error (map f xs) i with Some x => [x] | None => [] end)
          ++ take ps (map f xs)).
  change (take (i :: ps) xs)
    with ((match nth_error xs i with Some x => [x] | None => [] end) ++ take ps xs).
  rewrite map_app, IH, nth_error_map.
  destruct (nth_error xs i); reflexivity.
Qed.

Lemma take_nth {A : Type} (ps : list nat) (xs : list A) (k i : nat) :
  Forall (fun j => (j < List.length xs)%nat) ps ->
  nth_error ps k = Some i ->
  nth_error (take ps xs) k = nth_error xs i.
Proof.
  revert k. induction ps as [| j ps IH]; intros k Hall Hk.
  - destruct k; discriminate Hk.
  - inversion Hall as [| ? ? Hj Hps]; subst.
    change (take (j :: ps) xs)
      with ((match nth_error xs j with Some x => [x] | None => [] end) ++ take ps xs).
    destruct (nth_error xs j) as [x |] eqn:E.
    + destruct k as [| k]; simpl in *.
      * injection Hk as <-. symmetry. exact E.
      * apply IH; assumption.
    + apply nth_error_None in E. lia.
Qed.

Lemma take_positions_from (pre idx : list scalar) (l : scalar) :
  take (positions_from (List.length pre) l idx) (pre ++ idx) = filter (scalar_eqb l) idx.
Proof.
  revert pre. induction idx as [| x idx IH]; intros pre; [reflexivity |].
  assert (Hrest : take (positions_from (S (List.length pre)) l idx) (pre ++ x :: idx)
                  = filter (scalar_eqb l) idx).
  { replace (pre ++ x :: idx) with ((pre ++ [x]) ++ idx)
      by (rewrite <- app_assoc; reflexivity).
    replace (S (List.length pre)) with (List.length (pre ++ [x]))
      by (rewrite length_app; simpl; lia).
    apply IH. }
  simpl. destruct (scalar_eqb l x); [| exact Hrest].
  change (take (List.length pre :: ?ps) ?xs)
    with ((match nth_error xs (List.length pre) with Some y => [y] | None => [] end)
          ++ take ps xs).
  rewrite Hrest, nth_error_app2, Nat.sub_diag by lia. reflexivity.
Qed.

Lemma take_positions_of (idx : list scalar) (l : scalar) :
  take (positions_of l idx) idx = filter (scalar_eqb l) idx.
Proof. apply (take_positions_from [] idx l). Qed.

Lemma filter_absent (l : scalar) (idx : list scalar) :
  label_in l idx = false -> filter (scalar_eqb l) idx = [].
Proof.
  induction idx as [| x idx IH]; simpl; [reflexivity |].
  intros H. apply orb_false_iff in H. destruct H as [Hx Hidx].
  rewrite Hx. apply IH. exact Hidx.
Qed.

Lemma filter_unique (l : scalar) (idx : list scalar) :
  unique idx = true -> label_in l idx = true -> filter (scalar_eqb l) idx = [l].
Proof.
  induction idx as [| x idx IH]; simpl; [discriminate |].
  intros Hu Hin. apply andb_true_iff in Hu. destruct Hu as [Hx Hu].
  apply negb_true_iff in Hx.
  destruct (scalar_eqb l x) eqn:E.
  - apply scalar_eqb_eq in E. subst x. rewrite (filter_absent _ _ Hx). reflexivity.
  - simpl in Hin. apply (IH Hu Hin).
Qed.

Lemma positions_from_absent (k : nat) (l : scalar) (idx : list scalar) :
  label_in l idx = false -> positions_from k l idx = [].
Proof.
  revert k. induction idx as [| x idx IH]; simpl; intros k H; [reflexivity |].
  apply orb_false_iff in H. destruct H as [Hx Hidx].
  rewrite Hx. apply IH. exact Hidx.
Qed.

Lemma positions_from_unique (k : nat) (l : scalar) (idx : list scalar) :
  unique idx = true -> label_in l idx = true ->
  exists i, positions_from k l idx = [(k + i)%nat] /\ nth_error idx i = Some l.
Proof.
  revert k. induction idx as [| x idx IH]; simpl; intros k Hu Hin; [discriminate |].
  apply andb_true_iff in Hu. destruct Hu as [Hx Hu].
  apply negb_true_iff in Hx.
  destruct (scalar_eqb l x) eqn:E.
  - apply scalar_eqb_eq in E. subst x. exists 0%nat.
    rewrite (positions_from_absent _ _ _ Hx), Nat.add_0_r. split; reflexivity.
  - simpl in Hin. destruct (IH (S k) Hu Hin) as (i & Hp & Hn).
    exists (S i). rewrite Hp. split; [f_equal; lia | exact Hn].
Qed.

Lemma positions_from_bounded (k : nat) (l : scalar) (idx : list scalar) :
  Forall (fun j => (j < k + List.length idx)%nat) (positions_from k l idx).
Proof.
  revert k. induction idx as [| x idx IH]; simpl; intros k; [constructor |].
  assert (H : Forall (fun j => (j < k + S (List.length idx))%nat)
                (positions_from (S k) l idx)).
  { eapply Forall_impl; [| apply (IH (S k))]. simpl. intros j Hj. lia. }
  destruct (scalar_eqb l x); [constructor; [lia | exact H] | exact H].
Qed.

(** ** The attribute table *)

Lemma columns_named_app (name : string) (t1 t2 : Table) :
  columns_named name (t1 ++ t2) = columns_named name t1 ++ columns_named name t2.
Proof.
  induction t1 as [| [n c] t1 IH]; simpl; [reflexivity |].
  destruct (String.eqb n name); simpl; rewrite IH; reflexivity.
Qed.

Lemma columns_named_drop_same (name : string) (t : Table) :
  columns_named name (drop_column name t) = [].
Proof.
  induction t as [| [n c] t IH]; simpl; [reflexivity |].
  destruct (String.eqb n name) eqn:E; simpl; [exact IH |].
  rewrite E. exact IH.
Qed.

Lemma columns_named_map_cells (name : string) (g : column -> column) (t : Table) :
  columns_named name (map (fun nc => (fst nc, g (snd nc))) t)
  = map g (columns_named name t).
Proof.
  induction t as [| [n c] t IH]; simpl; [reflexivity |].
  destruct (String.eqb n name); simpl; rewrite IH; reflexivity.
Qed.

Lemma columns_named_set_column_all (name : string) (col : column) (t : Table) :
  columns_named name (set_column name col t) <> [] /\
  forall c, In c (columns_named name (set_column name col t)) -> c = col.
Proof.
  destruct (has_column name t) eqn:Hhas.
  - rewrite (columns_named_set_column _ _ _ Hhas).
    rewrite has_column_named in Hhas.
    destruct (columns_named name t) as [| c0 cs]; [discriminate Hhas |].
    split; [discriminate |].
    intros c Hc. apply in_map_iff in Hc. destruct Hc as (_ & E & _). symmetry. exact E.
  - unfold set_column. rewrite Hhas, columns_named_app.
    rewrite has_column_named in Hhas.
    destruct (columns_named name t) as [| c0 cs]; [| discriminate Hhas].
    simpl. rewrite String.eqb_refl. split; [discriminate |].
    intros c [<- | []]. reflexivity.
Qed.

Lemma derive_huc_spec (joined derived : DataFrame scalar) :
  derive_huc joined = Ok derived ->
  exists huc_02,
    getitem_column "huc_02" (columns joined) = Ok huc_02 /\
    index derived = index joined /\
    columns derived
    = drop_column "huc_02" (set_column "huc" (map huc_of huc_02) (columns joined)).
Proof.
  unfold derive_huc. intros H.
  apply bind_Ok_inv in H. destruct H as (huc_02 & Hh & H).
  injection H as <-. exists huc_02. repeat split. exact Hh.
Qed.

Lemma loc_spec (df out : DataFrame scalar) (labels : list scalar) :
  loc df labels = Ok out ->
  let ps := flat_map (fun l => positions_of l (index df)) labels in
  (forall l, In l labels -> label_in l (index df) = true) /\
  index out = take ps (index df) /\
  columns out = map (fun nc => (fst nc, take ps (snd nc))) (columns df).
Proof.
  unfold loc. destruct (forallb _ labels) eqn:E; [| discriminate].
  intros H. injection H as <-. simpl.
  repeat split. apply forallb_forall. exact E.
Qed.

Lemma table_eta (t : Table) : map (fun nc => (fst nc, snd nc)) t = t.
Proof.
  induction t as [| [n c] t IH]; simpl; [| rewrite IH]; reflexivity.
Qed.

(** The attribute loader in three steps: join, derive, select. *)
Lemma load_camels_us_attributes_inv
    (fs : node) (data_dir : path) (basins : list string) (df : DataFrame scalar) :
  load_camels_us_attributes fs data_dir basins = Ok df ->
  exists joined derived,
    joined_attributes fs data_dir = Ok joined /\
    derive_huc joined = Ok derived /\
    (forall b, In b basins -> label_in (SStr b) (index derived) = true) /\
    index df = rows_selected basins (index derived) (index derived) /\
    columns df
    = map (fun nc => (fst nc, rows_selected basins (index derived) (snd nc)))
          (columns derived).
Proof.
  unfold load_camels_us_attributes. intros H.
  apply bind_Ok_inv in H. destruct H as (joined & Hj & H).
  apply bind_Ok_inv in H. destruct H as (derived & Hd & H).
  exists joined, derived. split; [exact Hj |]. split; [exact Hd |].
  destruct basins as [| b basins].
  - injection H as <-. simpl. rewrite table_eta.
    repeat split. intros b [].
  - destruct (existsb _ (b :: basins)) eqn:E; [discriminate H |].
    apply loc_spec in H. destruct H as (Hin & Hidx & Hcols).
    split; [| split; assumption].
    intros b' Hb'. apply Hin. apply in_map. exact Hb'.
Qed.

Lemma zfill_2_length_ge (str : string) : (2 <= String.length (zfill 2 str))%nat.
Proof.
  destruct str as [| c [| c' r]]; unfold zfill; simpl; try lia.
  destruct (_ || _); simpl; lia.
Qed.

Lemma str_int_below_100 (n : nat) :
  (n < 100)%nat -> String.length (zfill 2 (py_str_int (Z.of_nat n))) = 2%nat.
Proof.
  intros H. do 100 (destruct n as [| n]; [reflexivity |]). lia.
Qed.

(** What lines 48 and 49 compute, whatever the cells of [huc_02] are:
    the cell of [huc] is [str(x).zfill(2)] for the cell [x] of [huc_02],
    a text of at least two characters, and of exactly two when [x] is an
    integer from 0 to 99. The column [huc_02] is not in the table. *)
Theorem huc_is_zero_padded_text
    (fs : node) (data_dir : path) (basins : list string) (df : DataFrame scalar) :
  load_camels_us_attributes fs data_dir basins = Ok df ->
  exists joined huc_02,
    joined_attributes fs data_dir = Ok joined /\
    getitem_column "huc_02" (columns joined) = Ok huc_02 /\
    columns_named "huc_02" (columns df) = [] /\
    columns_named "huc" (columns df) <> [] /\
    (forall col, In col (columns_named "huc" (columns df)) ->
       col = map (fun x => SStr (zfill 2 (py_str x)))
                 (rows_selected basins (index joined) huc_02)) /\
    (forall x, (2 <= String.length (zfill 2 (py_str x)))%nat) /\
    (forall z, 0 <= z <= 99 -> String.length (zfill 2 (py_str (SInt z))) = 2%nat).
Proof.
  intros H.
  destruct (load_camels_us_attributes_inv _ _ _ _ H)
    as (joined & derived & Hj & Hd & _ & _ & Hcols).
  destruct (derive_huc_spec _ _ Hd) as (huc_02 & Hh & Hidx & Hdcols).
  exists joined, huc_02.
  split; [exact Hj |]. split; [exact Hh |].
  rewrite Hcols, !columns_named_map_cells, Hdcols, Hidx.
  rewrite columns_named_drop_same.
  rewrite columns_named_drop_other by discriminate.
  destruct (columns_named_set_column_all "huc" (map huc_of huc_02) (columns joined))
    as (Hne & Hall).
  split; [reflexivity |].
  split.
  { destruct (columns_named "huc" _); [contradiction Hne; reflexivity | discriminate]. }
  split.
  { intros col Hcol. apply in_map_iff in Hcol. destruct Hcol as (c & <- & Hc).
    rewrite (Hall c Hc). unfold rows_selected.
    destruct basins; [reflexivity | apply take_map]. }
  split; [intros x; apply zfill_2_length_ge |].
  intros z Hz. simpl py_str.
  rewrite <- (Z2Nat.id z) by lia. apply str_int_below_100. lia.
Qed.

Lemma selected_positions_bounded (idx : list scalar) (labels : list scalar) :
  Forall (fun j => (j < List.length idx)%nat)
    (flat_map (fun l => positions_of l idx) labels).
Proof.
  apply Forall_flat_map. apply Forall_forall. intros l _.
  apply (positions_from_bounded 0 l idx).
Qed.

Lemma selected_positions_nth (idx : list scalar) (basins : list string) (k : nat)
    (b : string) :
  unique idx = true ->
  (forall b', In b' basins -> label_in (SStr b') idx = true) ->
  nth_error basins k = Some b ->
  exists i,
    nth_error (flat_map (fun l => positions_of l idx) (map SStr basins)) k = Some i /\
    nth_error idx i = Some (SStr b).
Proof.
  intros Hu. revert k. induction basins as [| b0 basins IH]; intros k Hall Hk.
  - destruct k; discriminate Hk.
  - destruct (positions_from_unique 0 (SStr b0) idx Hu (Hall b0 (or_introl eq_refl)))
      as (i0 & Hp & Hn).
    simpl. unfold positions_of at 1. rewrite Hp. simpl.
    destruct k as [| k]; simpl in Hk.
    + injection Hk as <-. exists i0. split; [reflexivity | exact Hn].
    + apply IH; [| exact Hk]. intros b' Hb'. apply Hall. right. exact Hb'.
Qed.

Lemma selected_index_unique (idx : list scalar) (basins : list string) :
  unique idx = true ->
  (forall b, In b basins -> label_in (SStr b) idx = true) ->
  flat_map (fun b => filter (scalar_eqb (SStr b)) idx) basins = map SStr basins.
Proof.
  intros Hu. induction basins as [| b basins IH]; intros Hall; [reflexivity |].
  simpl. rewrite (filter_unique _ _ Hu (Hall b (or_introl eq_refl))).
  simpl. f_equal. apply IH. intros b' Hb'. apply Hall. right. exact Hb'.
Qed.

Lemma selected_index (idx : list scalar) (basins : list string) :
  take (flat_map (fun l => positions_of l idx) (map SStr basins)) idx
  = flat_map (fun b => filter (scalar_eqb (SStr b)) idx) basins.
Proof.
  rewrite take_flat_map. induction basins as [| b basins IH]; [reflexivity |].
  simpl. rewrite take_positions_of, IH. reflexivity.
Qed.

(** C4. With a basin list that is not empty, the attribute loader ends
    in the [ValueError] about missing static attributes as soon as one
    requested basin is no label of the joined table; when every
    requested basin is a label, it returns the rows of the requested
    basins and no others, in the order requested, with the columns of
    the full table. For a table without repeated labels that is one row
    per requested basin, equal to the row of that basin in the full
    table. *)
Theorem attributes_basin_filter
    (fs : node) (data_dir : path) (basins : list string) (full : DataFrame scalar) :
  basins <> [] ->
  load_camels_us_attributes fs data_dir [] = Ok full ->
  ((exists b, In b basins /\ label_in (SStr b) (index full) = false) ->
   load_camels_us_attributes fs data_dir basins
   = Raise (ValueError "Some basins are missing static attributes.")) /\
  ((forall b, In b basins -> label_in (SStr b) (index full) = true) ->
   exists df,
     load_camels_us_attributes fs data_dir basins = Ok df /\
     index df = flat_map (fun b => filter (scalar_eqb (SStr b)) (index full)) basins /\
     map fst (columns df) = map fst (columns full) /\
     (unique (index full) = true ->
      index df = map SStr basins /\
      (rectangular (List.length (index full)) (columns full) ->
       forall k b, nth_error basins k = Some b ->
         exists i, nth_error (index full) i = Some (SStr b) /\ row df k = row full i))).
Proof.
  intros Hne Hfull.
  unfold load_camels_us_attributes in *.
  destruct (joined_attributes fs data_dir) as [joined | e]; [| discriminate Hfull].
  simpl in *.
  destruct (derive_huc joined) as [derived | e]; [| discriminate Hfull].
  simpl in *. injection Hfull as <-.
  destruct basins as [| b0 basins]; [contradiction Hne; reflexivity |].
  set (bs := b0 :: basins) in *.
  split.
  - intros (b & Hb & Hmiss).
    assert (E : existsb (fun b => negb (label_in (SStr b) (index derived))) bs = true).
    { apply existsb_exists. exists b. split; [exact Hb |]. rewrite Hmiss. reflexivity. }
    rewrite E. reflexivity.
  - intros Hall.
    assert (E : existsb (fun b => negb (label_in (SStr b) (index derived))) bs = false).
    { destruct (existsb _ bs) eqn:E; [| reflexivity].
      apply existsb_exists in E. destruct E as (b & Hb & Hmiss).
      rewrite (Hall b Hb) in Hmiss. discriminate Hmiss. }
    rewrite E. unfold loc.
    assert (F : forallb (fun l => label_in l (index derived)) (map SStr bs) = true).
    { apply forallb_forall. intros l Hl. apply in_map_iff in Hl.
      destruct Hl as (b & <- & Hb). apply Hall. exact Hb. }
    rewrite F. eexists. split; [reflexivity |]. cbn [index columns].
    split; [apply selected_index |].
    split; [rewrite map_map; reflexivity |].
    intros Hu. split.
    + rewrite selected_index. apply selected_index_unique; assumption.
    + intros Hrect k b Hk.
      destruct (selected_positions_nth _ _ _ _ Hu Hall Hk) as (i & Hps & Hi).
      exists i. split; [exact Hi |].
      unfold row. cbn [index columns]. f_equal.
      * apply take_nth; [apply selected_positions_bounded | exact Hps].
      * rewrite map_map. apply map_ext_in. intros [n c] Hnc. cbn [fst snd].
        apply take_nth; [| exact Hps].
        unfold rectangular in Hrect. rewrite Forall_forall in Hrect.
        specialize (Hrect _ Hnc). cbn [snd] in Hrect.
        rewrite Hrect. apply selected_positions_bounded.
Qed.

Lemma bind_Ok_r {A : Type} (r : result A) : bind r Ok = r.
Proof. destruct r; reflexivity. Qed.

Lemma union_step_In (xs acc : list scalar) (l : scalar) :
  In l acc \/ In l xs ->
  In l (fold_left (fun acc x => if label_in x acc then acc else acc ++ [x]) xs acc).
Proof.
  revert acc. induction xs as [| x xs IH]; simpl; intros acc H.
  - destruct H as [H | []]. exact H.
  - apply IH. destruct H as [H | [<- | H]].
    + left. destruct (label_in x acc); [exact H | apply in_or_app; left; exact H].
    + left. destruct (label_in x acc) eqn:E.
      * apply label_in_In. exact E.
      * apply in_or_app. right. left. reflexivity.
    + right. exact H.
Qed.

Lemma union_indexes_In (idxs : list (list scalar)) (idx : list scalar) (l : scalar) :
  In idx idxs -> In l idx -> In l (union_indexes idxs).
Proof.
  intros Hidx Hl. unfold union_indexes. apply union_step_In. right.
  apply in_concat. exists idx. split; assumption.
Qed.

(** Every label of every frame is a label of the frames joined. *)
Lemma concat_axis1_labels (dfs : list (DataFrame scalar)) (joined : DataFrame scalar) :
  concat_axis1 dfs = Ok joined ->
  forall d l, In d dfs -> In l (index d) -> In l (index joined).
Proof.
  unfold concat_axis1. destruct dfs as [| d0 rest]; [discriminate |].
  destruct (forallb _ rest) eqn:Eq.
  - intros H d l Hd Hl. injection H as <-. simpl.
    destruct Hd as [<- | Hd]; [exact Hl |].
    rewrite forallb_forall in Eq. rewrite <- (index_eqb_eq _ _ (Eq d Hd)). exact Hl.
  - destruct (forallb _ (d0 :: rest)); [| discriminate].
    intros H d l Hd Hl. injection H as <-. cbn [index].
    apply (union_indexes_In _ (index d)); [| exact Hl].
    apply (in_map index _ _ Hd).
Qed.

(** C9. With the empty basin list the attribute loader is the join of
    the files followed by the derivation of [huc] and nothing else: no
    label is looked up and no row is selected. The table it returns has
    every basin of every file read as a label, so it has rows as soon as
    one file has. *)
Theorem attributes_empty_list_is_no_filter (fs : node) (data_dir : path) :
  let attributes_path := joinpath data_dir "camels_attributes_v2.0" in
  load_camels_us_attributes fs data_dir []
  = (df <- joined_attributes fs data_dir ;; derive_huc df) /\
  (forall df,
      load_camels_us_attributes fs data_dir [] = Ok df ->
      exists dfs joined,
        mapM (read_attribute_file fs)
          (glob_here fnmatch "camels_*.txt" attributes_path (resolve fs attributes_path))
        = Ok dfs /\
        concat_axis1 dfs = Ok joined /\
        index df = index joined /\
        (forall d l, In d dfs -> In l (index d) -> In l (index df)) /\
        ((exists d, In d dfs /\ index d <> []) -> index df <> [])).
Proof.
  intros attributes_path.
  assert (Hload : load_camels_us_attributes fs data_dir []
                  = (df <- joined_attributes fs data_dir ;; derive_huc df)).
  { unfold load_camels_us_attributes.
    destruct (joined_attributes fs data_dir) as [joined | e]; simpl; [| reflexivity].
    apply bind_Ok_r. }
  split; [exact Hload |].
  intros df H. rewrite Hload in H.
  apply bind_Ok_inv in H. destruct H as (joined & Hj & Hd).
  destruct (derive_huc_spec _ _ Hd) as (_ & _ & Hidx & _).
  unfold joined_attributes in Hj. fold attributes_path in Hj.
  destruct (negb (path_exists fs attributes_path)); [discriminate Hj |].
  apply bind_Ok_inv in Hj. destruct Hj as (dfs & Hdfs & Hcat).
  exists dfs, joined. rewrite Hidx.
  split; [exact Hdfs |]. split; [exact Hcat |]. split; [reflexivity |].
  split; [apply (concat_axis1_labels _ _ Hcat) |].
  intros (d & Hd' & Hne) Hempty.
  destruct (index d) as [| l ls] eqn:E; [contradiction Hne; reflexivity |].
  assert (Hl : In l (index joined)).
  { apply (concat_axis1_labels _ _ Hcat d l Hd'). rewrite E. left. reflexivity. }
  rewrite Hempty in Hl. destruct Hl.
Qed.

(** ** The attribute directory and its files *)

Lemma mapM_first_error {A B : Type} (f : A -> result B) (pre : list A) (x : A)
    (post : list A) (e : exn) :
  (forall a, In a pre -> exists b, f a = Ok b) -> f x = Raise e ->
  mapM f (pre ++ x :: post) = Raise e.
Proof.
  induction pre as [| a pre IH]; simpl; intros Hpre Hx.
  - rewrite Hx. reflexivity.
  - destruct (Hpre a (or_introl eq_refl)) as (b & Hb). rewrite Hb. simpl.
    rewrite IH; [reflexivity | | exact Hx].
    intros a' Ha'. apply Hpre. right. exact Ha'.
Qed.

Lemma glob_here_found (pat : string) (p : path) (n : option node) :
  glob_here fnmatch pat p n <> [] ->
  exists es, n = Some (Dir es) /\ existsb (fun e => fnmatch (fst e) pat) es = true.
Proof.
  destruct n as [[text | es] |]; simpl; intros H; try (contradiction H; reflexivity).
  exists es. split; [reflexivity |].
  destruct (existsb (fun e => fnmatch (fst e) pat) es) eqn:E; [reflexivity |].
  contradiction H. apply matching_entries_nil. exact E.
Qed.

Lemma joined_attributes_inv (fs : node) (data_dir : path) (joined : DataFrame scalar) :
  joined_attributes fs data_dir = Ok joined ->
  let attributes_path := joinpath data_dir "camels_attributes_v2.0" in
  path_exists fs attributes_path = true /\
  exists dfs,
    mapM (read_attribute_file fs)
      (glob_here fnmatch "camels_*.txt" attributes_path (resolve fs attributes_path))
    = Ok dfs /\
    concat_axis1 dfs = Ok joined.
Proof.
  intros H attributes_path. unfold joined_attributes in H. fold attributes_path in H.
  destruct (path_exists fs attributes_path); [| discriminate H].
  split; [reflexivity |]. simpl in H.
  apply bind_Ok_inv in H. destruct H as (dfs & Hdfs & Hcat).
  exists dfs. split; assumption.
Qed.

(** X1. When [data_dir / 'camels_attributes_v2.0'] does not exist the
    attribute loader raises [RuntimeError] with the message
    ["Attribute folder not found at <path>"], whatever the list of basins;
    and it returns a table only when that path is a directory with at
    least one entry whose name matches [camels_*.txt]. *)
Theorem attributes_folder_required
    (fs : node) (data_dir : path) (basins : list string) :
  let attributes_path := joinpath data_dir "camels_attributes_v2.0" in
  (path_exists fs attributes_path = false ->
   load_camels_us_attributes fs data_dir basins
   = Raise (RuntimeError ("Attribute folder not found at "
                          ++ path_str attributes_path)%string)) /\
  (forall df,
      load_camels_us_attributes fs data_dir basins = Ok df ->
      exists es,
        resolve fs attributes_path = Some (Dir es) /\
        existsb (fun e => fnmatch (fst e) "camels_*.txt") es = true).
Proof.
  intros attributes_path. split.
  - intros H. unfold load_camels_us_attributes, joined_attributes.
    fold attributes_path. rewrite H. reflexivity.
  - intros df H.
    destruct (load_camels_us_attributes_inv _ _ _ _ H) as (joined & _ & Hj & _).
    destruct (joined_attributes_inv _ _ _ Hj) as (_ & dfs & Hdfs & Hcat).
    fold attributes_path in Hdfs.
    apply (glob_here_found "camels_*.txt" attributes_path). intros Hnil. rewrite Hnil in Hdfs.
    injection Hdfs as <-. discriminate Hcat.
Qed.

(** X2. The attribute files are read in the order the search lists them,
    and the first one that fails ends the call with its exception,
    whatever the later files hold and whatever the list of basins: a
    matching entry that is a directory gives [IsADirectoryError], and a
    file whose table has no column [gauge_id] gives
    [KeyError('gauge_id')]. *)
Theorem attributes_first_failing_file
    (fs : node) (data_dir : path) (basins : list string)
    (pre : list path) (txt_file : path) (post : list path) :
  let attributes_path := joinpath data_dir "camels_attributes_v2.0" in
  glob_here fnmatch "camels_*.txt" attributes_path (resolve fs attributes_path)
  = (pre ++ txt_file :: post)%list ->
  (forall p, In p pre -> exists d, read_attribute_file fs p = Ok d) ->
  (forall e,
      read_attribute_file fs txt_file = Raise e ->
      load_camels_us_attributes fs data_dir basins = Raise e) /\
  (forall es,
      resolve fs txt_file = Some (Dir es) ->
      load_camels_us_attributes fs data_dir basins
      = Raise (IsADirectoryError (path_str txt_file))) /\
  (forall text t,
      open_read fs txt_file = Ok text ->
      read_csv attributes_csv text = Ok t ->
      columns_named "gauge_id" t = [] ->
      load_camels_us_attributes fs data_dir basins = Raise (KeyError "gauge_id")).
Proof.
  intros attributes_path Hglob Hpre.
  assert (Hfail : forall e, read_attribute_file fs txt_file = Raise e ->
                            load_camels_us_attributes fs data_dir basins = Raise e).
  { intros e He. unfold load_camels_us_attributes, joined_attributes.
    fold attributes_path.
    destruct (glob_here_found "camels_*.txt" attributes_path (resolve fs attributes_path))
      as (es & Hes & _).
    { rewrite Hglob. destruct pre; discriminate. }
    unfold path_exists. rewrite Hes. simpl negb. cbv iota.
    rewrite <- Hes, Hglob. rewrite (mapM_first_error _ _ _ _ _ Hpre He). reflexivity. }
  split; [exact Hfail |]. split.
  - intros es Hes. apply Hfail. unfold read_attribute_file, open_read.
    rewrite Hes. reflexivity.
  - intros text t Htext Ht Hcols. apply Hfail. unfold read_attribute_file.
    rewrite Htext. simpl. rewrite Ht. simpl. unfold set_index. rewrite Hcols.
    reflexivity.
Qed.

(** ** The labels of the columns *)

Lemma map_flat_map {A B C : Type} (f : B -> C) (g : A -> list B) (l : list A) :
  map f (flat_map g l) = flat_map (fun x => map f (g x)) l.
Proof.
  induction l as [| x l IH]; simpl; [reflexivity |].
  rewrite map_app, IH. reflexivity.
Qed.

Lemma column_labels_set_column (name : string) (col : column) (t : Table) :
  column_labels (set_column name col t)
  = if has_column name t then column_labels t else (column_labels t ++ [name])%list.
Proof.
  unfold set_column, column_labels. destruct (has_column name t).
  - rewrite map_map. apply map_ext. intros [n c]. simpl.
    destruct (String.eqb n name); reflexivity.
  - rewrite map_app. reflexivity.
Qed.

Lemma column_labels_drop_column (name : string) (t : Table) :
  column_labels (drop_column name t)
  = filter (fun n => negb (String.eqb n name)) (column_labels t).
Proof.
  unfold column_labels. induction t as [| [n c] t IH]; simpl; [reflexivity |].
  destruct (String.eqb n name); simpl; rewrite IH; reflexivity.
Qed.

Lemma column_labels_map_cells (g : string * column -> column) (t : Table) :
  column_labels (map (fun nc => (fst nc, g nc)) t) = column_labels t.
Proof.
  unfold column_labels. rewrite map_map. apply map_ext. intros nc. reflexivity.
Qed.

Lemma has_column_labels (name : string) (t : Table) :
  has_column name t = existsb (fun n => String.eqb n name) (column_labels t).
Proof.
  unfold has_column, column_labels.
  induction t as [| nc t IH]; simpl; [reflexivity |]. rewrite IH. reflexivity.
Qed.

Lemma columns_named_length (name : string) (t : Table) :
  List.length (columns_named name t)
  = List.length (filter (fun n => String.eqb n name) (column_labels t)).
Proof.
  unfold column_labels. induction t as [| [n c] t IH]; simpl; [reflexivity |].
  destruct (String.eqb n name); simpl; rewrite IH; reflexivity.
Qed.

Lemma concat_axis1_column_labels (dfs : list (DataFrame scalar)) (joined : DataFrame scalar) :
  concat_axis1 dfs = Ok joined ->
  column_labels (columns joined) = flat_map (fun d => column_labels (columns d)) dfs.
Proof.
  unfold concat_axis1, column_labels. destruct dfs as [| d0 rest]; [discriminate |].
  destruct (forallb _ rest).
  - intros H. injection H as <-. cbn [columns].
    apply (map_flat_map fst columns (d0 :: rest)).
  - destruct (forallb _ (d0 :: rest)); [| discriminate].
    intros H. injection H as <-. cbn [columns].
    change (map fst (flat_map
              (fun d => map (fun nc => (fst nc,
                 reindex_column (index d) (union_indexes (map index (d0 :: rest))) (snd nc)))
                 (columns d)) (d0 :: rest))
            = flat_map (fun d => map fst (columns d)) (d0 :: rest)).
    rewrite map_flat_map.
    apply flat_map_ext. intros d. rewrite map_map. apply map_ext. intros nc. reflexivity.
Qed.

Lemma load_camels_us_attributes_labels
    (fs : node) (data_dir : path) (basins : list string) (df : DataFrame scalar) :
  load_camels_us_attributes fs data_dir basins = Ok df ->
  exists dfs joined huc_02,
    mapM (read_attribute_file fs)
      (glob_here fnmatch "camels_*.txt" (joinpath data_dir "camels_attributes_v2.0")
         (resolve fs (joinpath data_dir "camels_attributes_v2.0")))
    = Ok dfs /\
    concat_axis1 dfs = Ok joined /\
    getitem_column "huc_02" (columns joined) = Ok huc_02 /\
    column_labels (columns df)
    = filter (fun n => negb (String.eqb n "huc_02"))
        (column_labels (set_column "huc" (map huc_of huc_02) (columns joined))).
Proof.
  intros H.
  destruct (load_camels_us_attributes_inv _ _ _ _ H)
    as (joined & derived & Hj & Hd & _ & _ & Hcols).
  destruct (joined_attributes_inv _ _ _ Hj) as (_ & dfs & Hdfs & Hcat).
  destruct (derive_huc_spec _ _ Hd) as (huc_02 & Hhuc & _ & Hdcols).
  exists dfs, joined, huc_02.
  split; [exact Hdfs |]. split; [exact Hcat |]. split; [exact Hhuc |].
  rewrite Hcols, (column_labels_map_cells (fun nc => rows_selected basins _ (snd nc))).
  rewrite Hdcols. apply column_labels_drop_column.
Qed.

(** X3. The labels of the columns of the table the attribute loader
    returns are the labels of the columns of the files, file after file in
    the order read and within a file in the order of the file (the column
    [gauge_id], which is the index, apart), without [huc_02] and with
    [huc] appended as the last column unless a file had a column of that
    label already. The list of basins has no part in it. *)
Theorem attributes_column_labels
    (fs : node) (data_dir : path) (basins : list string) (df : DataFrame scalar) :
  load_camels_us_attributes fs data_dir basins = Ok df ->
  exists dfs,
    mapM (read_attribute_file fs)
      (glob_here fnmatch "camels_*.txt" (joinpath data_dir "camels_attributes_v2.0")
         (resolve fs (joinpath data_dir "camels_attributes_v2.0")))
    = Ok dfs /\
    let labels := flat_map (fun d => column_labels (columns d)) dfs in
    column_labels (columns df)
    = filter (fun n => negb (String.eqb n "huc_02"))
        (if existsb (fun n => String.eqb n "huc") labels
         then labels else (labels ++ ["huc"])%list).
Proof.
  intros H.
  destruct (load_camels_us_attributes_labels _ _ _ _ H)
    as (dfs & joined & huc_02 & Hdfs & Hcat & _ & Hlabels).
  exists dfs. split; [exact Hdfs |]. intros labels.
  rewrite Hlabels, column_labels_set_column, has_column_labels.
  rewrite (concat_axis1_column_labels _ _ Hcat). reflexivity.
Qed.

(** X4. Without a column [huc_02] in any attribute file the derivation of
    [huc] raises [KeyError('huc_02')], for every list of basins (the
    lookup comes before the filter); with the column in exactly one file
    the derivation goes through and the call without a filter returns a
    table. *)
Theorem attributes_need_huc_02
    (fs : node) (data_dir : path) (basins : list string)
    (dfs : list (DataFrame scalar)) (joined : DataFrame scalar) :
  let attributes_path := joinpath data_dir "camels_attributes_v2.0" in
  let carriers := flat_map (fun d => columns_named "huc_02" (columns d)) dfs in
  path_exists fs attributes_path = true ->
  mapM (read_attribute_file fs)
    (glob_here fnmatch "camels_*.txt" attributes_path (resolve fs attributes_path))
  = Ok dfs ->
  concat_axis1 dfs = Ok joined ->
  (carriers = [] ->
   load_camels_us_attributes fs data_dir basins = Raise (KeyError "huc_02")) /\
  (List.length carriers = 1%nat ->
   exists df, load_camels_us_attributes fs data_dir [] = Ok df).
Proof.
  intros attributes_path carriers Hex Hdfs Hcat.
  assert (Hj : joined_attributes fs data_dir = Ok joined).
  { unfold joined_attributes. fold attributes_path. rewrite Hex. simpl.
    rewrite Hdfs. exact Hcat. }
  assert (Hlen : List.length (columns_named "huc_02" (columns joined))
                 = List.length carriers).
  { rewrite columns_named_length, (concat_axis1_column_labels _ _ Hcat).
    unfold carriers. clear. induction dfs as [| d dfs IH]; simpl; [reflexivity |].
    rewrite filter_app, !length_app, IH, columns_named_length. reflexivity. }
  unfold load_camels_us_attributes. rewrite Hj. simpl. unfold derive_huc, getitem_column.
  split; intros Hc.
  - rewrite Hc in Hlen. destruct (columns_named "huc_02" (columns joined));
      [reflexivity | discriminate Hlen].
  - rewrite Hc in Hlen.
    destruct (columns_named "huc_02" (columns joined)) as [| c [| c' cs]];
      try discriminate Hlen.
    simpl. eexists. reflexivity.
Qed.

(** ** The rows of the joined table *)

Lemma somes_length {A : Type} (l : list (option A)) :
  forallb is_some l = true ->
  List.length (flat_map (fun o => match o with Some x => [x] | None => [] end) l)
  = List.length l.
Proof.
  induction l as [| [x |] l IH]; simpl; intros H;
    [reflexivity | f_equal; apply IH; exact H | discriminate H].
Qed.

Lemma somes_nth {A : Type} (l : list (option A)) (k : nat) (x : A) :
  forallb is_some l = true -> nth_error l k = Some (Some x) ->
  nth_error (flat_map (fun o => match o with Some x => [x] | None => [] end) l) k = Some x.
Proof.
  revert k. induction l as [| [y |] l IH]; intros k Hall Hk.
  - destruct k; discriminate Hk.
  - destruct k as [| k]; simpl in *.
    + injection Hk as <-. reflexivity.
    + apply IH; assumption.
  - discriminate Hall.
Qed.

Lemma none_not_all_some {A : Type} (l : list (option A)) (k : nat) :
  nth_error l k = Some None -> forallb is_some l = false.
Proof.
  revert k. induction l as [| o l IH]; intros k Hk.
  - destruct k; discriminate Hk.
  - destruct k as [| k]; simpl in *.
    + injection Hk as ->. reflexivity.
    + rewrite (IH k Hk). apply andb_false_r.
Qed.

Lemma reindex_column_length (old new : list scalar) (c : column) :
  List.length (reindex_column old new c) = List.length new.
Proof.
  unfold reindex_column. destruct (forallb is_some _) eqn:E.
  - rewrite (somes_length _ E). apply length_map.
  - rewrite !length_map. reflexivity.
Qed.

Lemma reindex_column_missing (old new : list scalar) (c : column) (k : nat) (l : scalar) :
  nth_error new k = Some l -> label_in l old = false ->
  nth_error (reindex_column old new c) k = Some (SFloat nan).
Proof.
  intros Hk Hl. unfold reindex_column.
  set (pick := fun l => match positions_of l old with
                        | i :: _ => nth_error c i
                        | [] => None
                        end).
  assert (Hp : nth_error (map pick new) k = Some None).
  { rewrite (map_nth_error pick _ _ Hk). unfold pick, positions_of.
    rewrite (positions_from_absent _ _ _ Hl). reflexivity. }
  rewrite (none_not_all_some _ _ Hp).
  rewrite (map_nth_error _ _ _ Hp). reflexivity.
Qed.

Lemma reindex_column_present (old new : list scalar) (k : nat) (l : scalar) :
  unique old = true -> nth_error new k = Some l -> label_in l old = true ->
  exists i,
    nth_error old i = Some l /\
    forall c x, nth_error c i = Some x ->
      nth_error (reindex_column old new c) k = Some x \/
      exists z, x = SInt z /\
                nth_error (reindex_column old new c) k = Some (SFloat (float_of_Z z)).
Proof.
  intros Hu Hk Hl.
  destruct (positions_from_unique 0 _ _ Hu Hl) as (i & Hp & Hi).
  exists i. split; [exact Hi |]. intros c x Hx. unfold reindex_column.
  set (pick := fun l => match positions_of l old with
                        | i :: _ => nth_error c i
                        | [] => None
                        end).
  assert (Hpk : nth_error (map pick new) k = Some (Some x)).
  { rewrite (map_nth_error pick _ _ Hk). unfold pick, positions_of.
    rewrite Hp. simpl. rewrite Hx. reflexivity. }
  destruct (forallb is_some (map pick new)) eqn:E.
  - left. apply somes_nth; assumption.
  - rewrite (map_nth_error _ _ _ Hpk).
    destruct x as [z | f | s]; try (left; reflexivity).
    destruct (forallb is_int_cell c); [right; exists z; split; reflexivity |].
    left. reflexivity.
Qed.

Lemma take_length {A : Type} (ps : list nat) (xs : list A) :
  Forall (fun j => (j < List.length xs)%nat) ps ->
  List.length (take ps xs) = List.length ps.
Proof.
  unfold take. induction 1 as [| i ps Hi _ IH]; simpl; [reflexivity |].
  rewrite length_app, IH. destruct (nth_error xs i) eqn:E; [reflexivity |].
  apply nth_error_None in E. lia.
Qed.

Lemma take_In {A : Type} (ps : list nat) (xs : list A) (x : A) :
  In x (take ps xs) -> In x xs.
Proof.
  unfold take. intros H. apply in_flat_map in H. destruct H as (i & _ & H).
  destruct (nth_error xs i) eqn:E; [| destruct H].
  destruct H as [<- | []]. apply (nth_error_In _ _ E).
Qed.

Lemma columns_named_In (name : string) (t : Table) (c : column) :
  In c (columns_named name t) -> In (name, c) t.
Proof.
  induction t as [| [n c'] t IH]; simpl; [tauto |].
  destruct (String.eqb n name) eqn:E.
  - apply String.eqb_eq in E. subst n.
    intros [<- | H]; [left; reflexivity | right; apply IH; exact H].
  - intros H. right. apply IH. exact H.
Qed.

Lemma rectangular_drop_column (n : nat) (name : string) (t : Table) :
  rectangular n t -> rectangular n (drop_column name t).
Proof.
  unfold rectangular. induction 1 as [| [n' c] t Hc _ IH]; simpl; [constructor |].
  destruct (String.eqb n' name); [exact IH | constructor; assumption].
Qed.

Lemma rectangular_set_column (n : nat) (name : string) (col : column) (t : Table) :
  rectangular n t -> List.length col = n -> rectangular n (set_column name col t).
Proof.
  unfold rectangular, set_column. intros Ht Hcol. destruct (has_column name t).
  - apply Forall_map. revert Ht. apply Forall_impl. intros [n' c] Hc.
    cbn [fst]. destruct (String.eqb n' name); [exact Hcol | exact Hc].
  - apply Forall_app. split; [exact Ht |]. constructor; [exact Hcol | constructor].
Qed.

Lemma set_index_rectangular (n : nat) (name : string) (t : Table) (d : DataFrame scalar) :
  rectangular n t -> set_index name t = Ok d ->
  rectangular (List.length (index d)) (columns d).
Proof.
  unfold set_index. intros Ht H.
  destruct (columns_named name t) as [| c cs] eqn:E; [discriminate H |].
  injection H as <-. cbn [index columns].
  assert (Hc : List.length c = n).
  { assert (Hin : In (name, c) t) by (apply columns_named_In; rewrite E; left; reflexivity).
    unfold rectangular in Ht. rewrite Forall_forall in Ht. apply (Ht _ Hin). }
  rewrite Hc. apply rectangular_drop_column. exact Ht.
Qed.

Lemma concat_axis1_rectangular (dfs : list (DataFrame scalar)) (joined : DataFrame scalar) :
  concat_axis1 dfs = Ok joined ->
  (forall d, In d dfs -> rectangular (List.length (index d)) (columns d)) ->
  rectangular (List.length (index joined)) (columns joined).
Proof.
  unfold concat_axis1. destruct dfs as [| d0 rest]; [discriminate |].
  destruct (forallb _ rest) eqn:Eeq.
  - intros H Hrect. injection H as <-. cbn [index columns].
    apply (proj2 (Forall_flat_map _ (d0 :: rest) columns)).
    apply Forall_forall. intros d Hd.
    assert (Hidx : index d = index d0).
    { destruct Hd as [<- | Hd]; [reflexivity |].
      rewrite forallb_forall in Eeq. apply index_eqb_eq, Eeq, Hd. }
    rewrite <- Hidx. apply Hrect. exact Hd.
  - destruct (forallb _ (d0 :: rest)); [| discriminate].
    intros H _. injection H as <-. cbn [index columns].
    set (idx := union_indexes _).
    apply (proj2 (Forall_flat_map _ (d0 :: rest)
                    (fun d => map (fun nc => (fst nc, reindex_column (index d) idx (snd nc)))
                                  (columns d)))).
    apply Forall_forall. intros d _. apply Forall_map.
    apply Forall_forall. intros nc _. cbn [snd]. apply reindex_column_length.
Qed.

Lemma getitem_column_In (name : string) (t : Table) (c : column) :
  getitem_column name t = Ok c -> In (name, c) t.
Proof.
  unfold getitem_column. intros H. apply columns_named_In.
  destruct (columns_named name t) as [| c' [| c'' cs]]; try discriminate H.
  injection H as <-. left. reflexivity.
Qed.

Lemma derive_huc_rectangular (joined derived : DataFrame scalar) :
  derive_huc joined = Ok derived ->
  rectangular (List.length (index joined)) (columns joined) ->
  rectangular (List.length (index derived)) (columns derived).
Proof.
  intros H Hrect. destruct (derive_huc_spec _ _ H) as (huc_02 & Hh & Hidx & Hcols).
  rewrite Hidx, Hcols. apply rectangular_drop_column, rectangular_set_column;
    [exact Hrect |].
  rewrite length_map. apply getitem_column_In in Hh.
  unfold rectangular in Hrect. rewrite Forall_forall in Hrect. apply (Hrect _ Hh).
Qed.

Lemma read_attribute_file_rectangular (fs : node) (txt_file : path) (d : DataFrame scalar) :
  read_attribute_file fs txt_file = Ok d ->
  (forall text t, open_read fs txt_file = Ok text ->
                  read_csv attributes_csv text = Ok t -> exists n, rectangular n t) ->
  rectangular (List.length (index d)) (columns d).
Proof.
  unfold read_attribute_file. intros H Hcsv.
  apply bind_Ok_inv in H. destruct H as (text & Htext & H).
  apply bind_Ok_inv in H. destruct H as (t & Ht & H).
  destruct (Hcsv _ _ Htext Ht) as (n & Hn).
  apply (set_index_rectangular _ _ _ _ Hn H).
Qed.

(** X5. When the tables [read_csv] makes of the attribute files are
    rectangular, so is the table the attribute loader returns: every
    column, the derived [huc] included, has one cell for each label of the
    index, through the outer join, the derivation and the selection of the
    requested basins. *)
Theorem attributes_table_is_rectangular
    (fs : node) (data_dir : path) (basins : list string) (df : DataFrame scalar) :
  let attributes_path := joinpath data_dir "camels_attributes_v2.0" in
  load_camels_us_attributes fs data_dir basins = Ok df ->
  (forall txt_file text t,
      In txt_file (glob_here fnmatch "camels_*.txt" attributes_path
                     (resolve fs attributes_path)) ->
      open_read fs txt_file = Ok text ->
      read_csv attributes_csv text = Ok t ->
      exists n, rectangular n t) ->
  rectangular (List.length (index df)) (columns df).
Proof.
  intros attributes_path H Hcsv.
  destruct (load_camels_us_attributes_inv _ _ _ _ H)
    as (joined & derived & Hj & Hd & _ & Hidx & Hcols).
  destruct (joined_attributes_inv _ _ _ Hj) as (_ & dfs & Hdfs & Hcat).
  fold attributes_path in Hdfs.
  assert (Hjoined : rectangular (List.length (index joined)) (columns joined)).
  { apply (concat_axis1_rectangular _ _ Hcat). intros d Hd'.
    destruct (mapM_Ok_In _ _ _ Hdfs d Hd') as (p & Hp & Hread).
    apply (read_attribute_file_rectangular _ _ _ Hread).
    intros text t. apply Hcsv. exact Hp. }
  pose proof (derive_huc_rectangular _ _ Hd Hjoined) as Hder.
  rewrite Hidx, Hcols. unfold rectangular, rows_selected.
  destruct basins as [| b basins].
  - apply Forall_map. revert Hder. apply Forall_impl. intros nc Hnc. exact Hnc.
  - set (ps := flat_map (fun l => positions_of l (index derived)) (map SStr (b :: basins))).
    assert (Hps : Forall (fun j => (j < List.length (index derived))%nat) ps)
      by apply selected_positions_bounded.
    rewrite (take_length _ _ Hps). apply Forall_map. revert Hder. apply Forall_impl.
    intros nc Hnc. cbn [snd]. apply take_length. rewrite Hnc. exact Hps.
Qed.

(** ** The labels of the joined index *)

Lemma scalar_eqb_sym (a b : scalar) : scalar_eqb a b = scalar_eqb b a.
Proof.
  destruct (scalar_eqb a b) eqn:E.
  - apply scalar_eqb_eq in E. subst b. symmetry. apply scalar_eqb_refl.
  - destruct (scalar_eqb b a) eqn:E'; [| reflexivity].
    apply scalar_eqb_eq in E'. subst b. rewrite scalar_eqb_refl in E. discriminate E.
Qed.

Lemma unique_snoc (acc : list scalar) (x : scalar) :
  unique acc = true -> label_in x acc = false -> unique (acc ++ [x]) = true.
Proof.
  induction acc as [| a acc IH]; simpl; intros Hu Hx; [reflexivity |].
  apply andb_true_iff in Hu. destruct Hu as (Ha & Hu).
  apply orb_false_iff in Hx. destruct Hx as (Hxa & Hx).
  rewrite (IH Hu Hx), andb_true_r. unfold label_in in *.
  rewrite existsb_app. simpl. rewrite scalar_eqb_sym, Hxa.
  apply negb_true_iff in Ha. rewrite Ha. reflexivity.
Qed.

Lemma union_step_unique (xs acc : list scalar) :
  unique acc = true ->
  unique (fold_left (fun acc x => if label_in x acc then acc else acc ++ [x]) xs acc) = true.
Proof.
  revert acc. induction xs as [| x xs IH]; simpl; intros acc Hu; [exact Hu |].
  apply IH. destruct (label_in x acc) eqn:E; [exact Hu | apply unique_snoc; assumption].
Qed.

Lemma union_step_from (xs acc : list scalar) (l : scalar) :
  In l (fold_left (fun acc x => if label_in x acc then acc else acc ++ [x]) xs acc) ->
  In l acc \/ In l xs.
Proof.
  revert acc. induction xs as [| x xs IH]; simpl; intros acc H; [left; exact H |].
  apply IH in H. destruct H as [H | H]; [| right; right; exact H].
  destruct (label_in x acc); [left; exact H |].
  apply in_app_or in H. destruct H as [H | [<- | []]]; [left; exact H |].
  right. left. reflexivity.
Qed.

Lemma concat_axis1_index_from (dfs : list (DataFrame scalar)) (joined : DataFrame scalar) :
  concat_axis1 dfs = Ok joined ->
  forall l, In l (index joined) -> exists d, In d dfs /\ In l (index d).
Proof.
  unfold concat_axis1. destruct dfs as [| d0 rest]; [discriminate |].
  destruct (forallb _ rest).
  - intros H l Hl. injection H as <-. exists d0. split; [left; reflexivity | exact Hl].
  - destruct (forallb _ (d0 :: rest)); [| discriminate].
    intros H l Hl. injection H as <-. cbn [index] in Hl. unfold union_indexes in Hl.
    apply union_step_from in Hl. destruct Hl as [[] | Hl].
    apply in_concat in Hl. destruct Hl as (idx & Hidx & Hl).
    change (In idx (map index (d0 :: rest))) in Hidx.
    apply in_map_iff in Hidx. destruct Hidx as (d & <- & Hd).
    exists d. split; assumption.
Qed.

Lemma concat_axis1_index_unique (dfs : list (DataFrame scalar)) (joined : DataFrame scalar) :
  concat_axis1 dfs = Ok joined ->
  (forall d, In d dfs -> unique (index d) = true) ->
  unique (index joined) = true.
Proof.
  unfold concat_axis1. destruct dfs as [| d0 rest]; [discriminate |].
  destruct (forallb _ rest).
  - intros H Hu. injection H as <-. cbn [index]. apply (Hu d0). left. reflexivity.
  - destruct (forallb _ (d0 :: rest)); [| discriminate].
    intros H _. injection H as <-. cbn [index]. apply union_step_unique. reflexivity.
Qed.

Lemma unique_map_SStr (basins : list string) :
  NoDup basins -> unique (map SStr basins) = true.
Proof.
  induction 1 as [| b basins Hb _ IH]; simpl; [reflexivity |].
  rewrite IH, andb_true_r. apply negb_true_iff.
  destruct (label_in (SStr b) (map SStr basins)) eqn:E; [| reflexivity].
  apply label_in_In, in_map_iff in E. destruct E as (b' & Hb' & Hin).
  injection Hb' as ->. contradiction (Hb Hin).
Qed.

(** X6. The index of the table the attribute loader returns holds no
    label that is not a [gauge_id] of one of the files read; and when no
    file repeats a [gauge_id] and the list of basins repeats none, no
    label occurs twice in it. *)
Theorem attributes_index_from_files
    (fs : node) (data_dir : path) (basins : list string) (df : DataFrame scalar) :
  load_camels_us_attributes fs data_dir basins = Ok df ->
  exists dfs,
    mapM (read_attribute_file fs)
      (glob_here fnmatch "camels_*.txt" (joinpath data_dir "camels_attributes_v2.0")
         (resolve fs (joinpath data_dir "camels_attributes_v2.0")))
    = Ok dfs /\
    (forall l, In l (index df) -> exists d, In d dfs /\ In l (index d)) /\
    ((forall d, In d dfs -> unique (index d) = true) ->
     NoDup basins -> unique (index df) = true).
Proof.
  intros H.
  destruct (load_camels_us_attributes_inv _ _ _ _ H)
    as (joined & derived & Hj & Hd & Hin & Hidx & _).
  destruct (joined_attributes_inv _ _ _ Hj) as (_ & dfs & Hdfs & Hcat).
  destruct (derive_huc_spec _ _ Hd) as (_ & _ & Hdidx & _).
  exists dfs. split; [exact Hdfs |]. rewrite Hidx, Hdidx. rewrite Hdidx in Hin.
  split.
  - intros l Hl. apply (concat_axis1_index_from _ _ Hcat).
    unfold rows_selected in Hl. destruct basins; [exact Hl |].
    apply (take_In _ _ _ Hl).
  - intros Hu Hnd. pose proof (concat_axis1_index_unique _ _ Hcat Hu) as Huj.
    unfold rows_selected. destruct basins as [| b basins]; [exact Huj |].
    rewrite selected_index, (selected_index_unique _ _ Huj Hin).
    apply unique_map_SStr. exact Hnd.
Qed.

(** ** The cells of the joined table *)

Lemma In_set_column_other (name other : string) (c col : column) (t : Table) :
  name <> other -> In (name, c) t -> In (name, c) (set_column other col t).
Proof.
  intros Hne Hin. unfold set_column. destruct (has_column other t).
  - apply in_map_iff. exists (name, c). split; [| exact Hin]. cbn [fst].
    destruct (String.eqb name other) eqn:E; [| reflexivity].
    apply String.eqb_eq in E. contradiction (Hne E).
  - apply in_or_app. left. exact Hin.
Qed.

Lemma In_drop_column_other (name other : string) (c : column) (t : Table) :
  name <> other -> In (name, c) t -> In (name, c) (drop_column other t).
Proof.
  intros Hne. induction t as [| [n c'] t IH]; simpl; [tauto |].
  intros [Heq | Hin].
  - injection Heq as -> ->.
    destruct (String.eqb name other) eqn:E; [| left; reflexivity].
    apply String.eqb_eq in E. contradiction (Hne E).
  - destruct (String.eqb n other); [apply IH; exact Hin | right; apply IH; exact Hin].
Qed.

Lemma concat_axis1_cells (dfs : list (DataFrame scalar)) (joined d : DataFrame scalar) :
  concat_axis1 dfs = Ok joined -> In d dfs ->
  (index joined = index d /\
   forall name c, In (name, c) (columns d) -> In (name, c) (columns joined)) \/
  (unique (index d) = true /\
   forall name c, In (name, c) (columns d) ->
     In (name, reindex_column (index d) (index joined) c) (columns joined)).
Proof.
  unfold concat_axis1. destruct dfs as [| d0 rest]; [discriminate |].
  destruct (forallb _ rest) eqn:Eeq.
  - intros H Hd. injection H as <-. cbn [index columns]. left. split.
    + destruct Hd as [<- | Hd]; [reflexivity |].
      rewrite forallb_forall in Eeq. symmetry. apply index_eqb_eq, Eeq, Hd.
    + intros name c Hc. apply (proj2 (in_flat_map columns (d0 :: rest) (name, c))).
      exists d. split; assumption.
  - destruct (forallb _ (d0 :: rest)) eqn:Eu; [| discriminate].
    intros H Hd. injection H as <-. cbn [index columns]. right. split.
    + rewrite forallb_forall in Eu. apply Eu. exact Hd.
    + intros name c Hc. set (idx := union_indexes _).
      apply (proj2 (in_flat_map
                      (fun d => map (fun nc => (fst nc, reindex_column (index d) idx (snd nc)))
                                    (columns d)) (d0 :: rest) _)).
      exists d. split; [exact Hd |]. apply in_map_iff.
      exists (name, c). split; [reflexivity | exact Hc].
Qed.

(** X7. The join of the attribute files is an outer join. In the table
    returned without a filter, a basin that a file lacks has the missing
    value NaN in each column of that file; a basin that a file has holds,
    in each column of that file, the cell of its row in the file, a column
    of integers being turned into floats when the join leaves a gap in it.
    (The columns [huc_02], which is dropped, and [huc], which is
    overwritten, are apart.) *)
Theorem attributes_outer_join
    (fs : node) (data_dir : path) (df : DataFrame scalar) :
  load_camels_us_attributes fs data_dir [] = Ok df ->
  exists dfs,
    mapM (read_attribute_file fs)
      (glob_here fnmatch "camels_*.txt" (joinpath data_dir "camels_attributes_v2.0")
         (resolve fs (joinpath data_dir "camels_attributes_v2.0")))
    = Ok dfs /\
    forall d k l,
      In d dfs -> nth_error (index df) k = Some l ->
      (label_in l (index d) = false ->
       forall name c,
         In (name, c) (columns d) -> name <> "huc_02" -> name <> "huc" ->
         exists col, In (name, col) (columns df) /\ nth_error col k = Some (SFloat nan)) /\
      (label_in l (index d) = true ->
       exists i,
         nth_error (index d) i = Some l /\
         forall name c x,
           In (name, c) (columns d) -> name <> "huc_02" -> name <> "huc" ->
           nth_error c i = Some x ->
           exists col,
             In (name, col) (columns df) /\
             (nth_error col k = Some x \/
              exists z, x = SInt z /\ nth_error col k = Some (SFloat (float_of_Z z)))).
Proof.
  intros H.
  destruct (load_camels_us_attributes_inv _ _ _ _ H)
    as (joined & derived & Hj & Hd & _ & Hidx & Hcols).
  destruct (joined_attributes_inv _ _ _ Hj) as (_ & dfs & Hdfs & Hcat).
  destruct (derive_huc_spec _ _ Hd) as (huc_02 & _ & Hdidx & Hdcols).
  exists dfs. split; [exact Hdfs |].
  unfold rows_selected in Hidx, Hcols. rewrite table_eta in Hcols.
  rewrite Hidx, Hdidx, Hcols, Hdcols.
  assert (Hkeep : forall name col, name <> "huc_02" -> name <> "huc" ->
                    In (name, col) (columns joined) ->
                    In (name, col)
                       (drop_column "huc_02"
                          (set_column "huc" (map huc_of huc_02) (columns joined)))).
  { intros name col H1 H2 Hin.
    apply In_drop_column_other; [exact H1 |].
    apply In_set_column_other; assumption. }
  intros d k l Hd' Hk.
  destruct (concat_axis1_cells _ _ _ Hcat Hd') as [(Hsame & Hin) | (Hu & Hin)].
  - split.
    + intros Hl. rewrite Hsame in Hk. apply nth_error_In, label_in_In in Hk.
      rewrite Hk in Hl. discriminate Hl.
    + intros _. exists k. split; [rewrite <- Hsame; exact Hk |].
      intros name c x Hc H1 H2 Hx. exists c.
      split; [apply (Hkeep _ _ H1 H2 (Hin _ _ Hc)) | left; exact Hx].
  - split.
    + intros Hl name c Hc H1 H2. eexists.
      split; [apply (Hkeep _ _ H1 H2 (Hin _ _ Hc)) |].
      apply (reindex_column_missing _ _ _ _ _ Hk Hl).
    + intros Hl. destruct (reindex_column_present _ _ _ _ Hu Hk Hl) as (i & Hi & Hcell).
      exists i. split; [exact Hi |]. intros name c x Hc H1 H2 Hx. eexists.
      split; [apply (Hkeep _ _ H1 H2 (Hin _ _ Hc)) |]. apply Hcell. exact Hx.
Qed.

(** ** The text of a region code *)

Lemma append_empty_r (s : string) : (s ++ "")%string = s.
Proof. induction s as [| c s IH]; simpl; [reflexivity | rewrite IH; reflexivity]. Qed.

Lemma py_int_str_int (z : Z) : py_int (py_str_int z) = Some z.
Proof.
  pose proof (py_int_of_str "" "" z eq_refl eq_refl) as H.
  change ("" ++ py_str_int z ++ "")%string with (py_str_int z ++ "")%string in H.
  rewrite append_empty_r in H. exact H.
Qed.

Lemma py_int_zfill_2 (z : Z) : py_int (zfill 2 (py_str_int z)) = Some z.
Proof.
  pose proof (py_int_str_int z) as H. pose proof (str_int_nonempty z) as Hne.
  destruct (py_str_int z) as [| c [| c' r]].
  - contradiction Hne. reflexivity.
  - clear Hne.
    destruct c as [[] [] [] [] [] [] [] []]; vm_compute in H; try discriminate H;
      injection H as <-; vm_compute; reflexivity.
  - exact H.
Qed.

(** X8. Padding keeps the number: in every row whose [huc_02] is an
    integer, negative ones included, the text in [huc] read back with
    [int()] is that integer. *)
Theorem huc_reads_back_as_huc_02
    (fs : node) (data_dir : path) (basins : list string) (df : DataFrame scalar) :
  load_camels_us_attributes fs data_dir basins = Ok df ->
  exists joined huc_02,
    joined_attributes fs data_dir = Ok joined /\
    getitem_column "huc_02" (columns joined) = Ok huc_02 /\
    forall col i z,
      In col (columns_named "huc" (columns df)) ->
      nth_error (rows_selected basins (index joined) huc_02) i = Some (SInt z) ->
      exists str, nth_error col i = Some (SStr str) /\ py_int str = Some z.
Proof.
  intros H.
  destruct (load_camels_us_attributes_inv _ _ _ _ H)
    as (joined & derived & Hj & Hd & _ & _ & Hcols).
  destruct (derive_huc_spec _ _ Hd) as (huc_02 & Hh & Hidx & Hdcols).
  exists joined, huc_02. split; [exact Hj |]. split; [exact Hh |].
  intros col i z Hcol Hi.
  rewrite Hcols, columns_named_map_cells, Hdcols, Hidx in Hcol.
  rewrite columns_named_drop_other in Hcol by discriminate.
  destruct (columns_named_set_column_all "huc" (map huc_of huc_02) (columns joined))
    as (_ & Hall).
  apply in_map_iff in Hcol. destruct Hcol as (c & <- & Hc). rewrite (Hall c Hc).
  assert (Hsel : rows_selected basins (index joined) (map huc_of huc_02)
                 = map huc_of (rows_selected basins (index joined) huc_02)).
  { unfold rows_selected. destruct basins; [reflexivity | apply take_map]. }
  rewrite Hsel, (map_nth_error huc_of _ _ Hi).
  eexists. split; [reflexivity |]. apply py_int_zfill_2.
Qed.

(** ** The header of a forcing file *)

Lemma read_forcing_file_header_error (text : string) :
  py_int (third_line text) = None ->
  read_forcing_file text = Raise (ValueError "invalid literal for int() with base 10").
Proof.
  unfold read_forcing_file, third_line.
  destruct (readline text) as [l1 r1]. cbn [snd].
  destruct (readline r1) as [l2 r2]. cbn [snd].
  destruct (readline r2) as [l3 r3]. cbn [fst].
  intros H. unfold int_of_line. rewrite H. reflexivity.
Qed.

Lemma readline_line (l rest : string) :
  has_char "010" l = false ->
  readline (l ++ String "010" rest)%string = ((l ++ String "010" "")%string, rest).
Proof.
  induction l as [| c l IH]; simpl; intros H; [reflexivity |].
  apply orb_false_iff in H. destruct H as (Hc & Hl).
  rewrite Hc, (IH Hl). reflexivity.
Qed.

(** X9. The area line comes first: when the third line of the forcing
    file found is no integer for [int()], and in particular when the
    file ends within its first two lines, the forcing loader raises
    [ValueError] before the table is parsed, whatever [read_csv] would
    make of the rest. *)
Theorem forcings_area_line_required
    (fs : node) (data_dir : path) (basin forcings : string)
    (first : path) (others : list path) (text : string) :
  let forcing_path := joinpath (joinpath data_dir "basin_mean_forcing") forcings in
  path_is_dir fs forcing_path = true ->
  glob_rec fnmatch fs (basin ++ "_*_forcing_leap.txt")%string forcing_path
  = first :: others ->
  open_read fs first = Ok text ->
  (py_int (third_line text) = None ->
   load_camels_us_forcings fs data_dir basin forcings
   = Raise (ValueError "invalid literal for int() with base 10")) /\
  (snd (readline (snd (readline text))) = EmptyString ->
   load_camels_us_forcings fs data_dir basin forcings
   = Raise (ValueError "invalid literal for int() with base 10")).
Proof.
  intros forcing_path Hdir Hglob Htext.
  assert (Hload : py_int (third_line text) = None ->
                  load_camels_us_forcings fs data_dir basin forcings
                  = Raise (ValueError "invalid literal for int() with base 10")).
  { intros H. unfold load_camels_us_forcings. fold forcing_path.
    rewrite Hdir, Hglob. simpl. rewrite Htext. simpl.
    apply read_forcing_file_header_error. exact H. }
  split; [exact Hload |].
  intros H. apply Hload. unfold third_line. rewrite H. reflexivity.
Qed.

(** X10. The first two lines of a forcing file are read and never
    interpreted: two texts that differ in them only give the same result,
    frame, area or exception. *)
Theorem forcings_ignore_first_two_lines (l1 l2 l1' l2' rest : string) :
  has_char "010" l1 = false -> has_char "010" l2 = false ->
  has_char "010" l1' = false -> has_char "010" l2' = false ->
  read_forcing_file (l1 ++ String "010" (l2 ++ String "010" rest))%string
  = read_forcing_file (l1' ++ String "010" (l2' ++ String "010" rest))%string.
Proof.
  intros H1 H2 H1' H2'. unfold read_forcing_file.
  rewrite (readline_line _ _ H1), (readline_line _ _ H2).
  rewrite (readline_line _ _ H1'), (readline_line _ _ H2'). reflexivity.
Qed.

(** ** The dates of the index *)

Lemma of_lu_bound (d : Decimal.uint) :
  (DecimalPos.Unsigned.of_lu d < 10 ^ N.of_nat (Decimal.nb_digits d))%N.
Proof.
  induction d; cbn [DecimalPos.Unsigned.of_lu Decimal.nb_digits];
    rewrite ?Nnat.Nat2N.inj_succ, ?N.pow_succ_r'; [simpl; lia | ..];
    remember (10 ^ N.of_nat (Decimal.nb_digits d))%N as X; lia.
Qed.

Lemma uint_of_string_digits (s : string) (d : Decimal.uint) :
  NilEmpty.uint_of_string s = Some d -> Decimal.nb_digits d = String.length s.
Proof.
  revert d. induction s as [| c s IH]; simpl; intros d H.
  - injection H as <-. reflexivity.
  - destruct (NilEmpty.uint_of_string s) as [d' |]; [| discriminate H].
    apply uint_of_char_spec in H. specialize (IH d' eq_refl).
    intuition subst; simpl; f_equal; exact IH.
Qed.

Lemma digits_value_bound (s : string) (v : Z) :
  digits_value s = Some v -> 0 <= v < 10 ^ Z.of_nat (String.length s).
Proof.
  unfold digits_value, NilZero.uint_of_string. intros H.
  assert (Hd : exists d, NilEmpty.uint_of_string s = Some d /\ v = Z.of_uint d).
  { destruct s as [| c s]; [discriminate H |].
    destruct (NilEmpty.uint_of_string (String c s)) as [d |]; [| discriminate H].
    injection H as <-. exists d. split; reflexivity. }
  destruct Hd as (d & Hd & ->). apply uint_of_string_digits in Hd.
  unfold Z.of_uint. rewrite DecimalPos.Unsigned.of_uint_alt.
  pose proof (of_lu_bound (Decimal.rev d)) as Hb.
  rewrite DecimalFacts.nb_digits_rev, Hd in Hb.
  split; [apply N2Z.is_nonneg |].
  apply N2Z.inj_lt in Hb. rewrite N2Z.inj_pow, nat_N_Z in Hb. exact Hb.
Qed.

Lemma strptime_ymd_fields (s : string) (y m d : Z) :
  strptime_ymd s = Ok (y, m, d) ->
  exists fy fm fd,
    split_on "/" s = [fy; fm; fd] /\
    parse_Y fy = Some y /\ parse_m fm = Some m /\ parse_d fd = Some d /\
    d <= days_in_month y m.
Proof.
  unfold strptime_ymd.
  destruct (split_on "/" s) as [| fy [| fm [| fd [| x l]]]]; try discriminate.
  destruct (parse_Y fy) as [vy |] eqn:Ey; [| discriminate].
  destruct (parse_m fm) as [vm |] eqn:Em; [| discriminate].
  destruct (parse_d fd) as [vd |] eqn:Ed; [| discriminate].
  destruct (Z.leb_spec vd (days_in_month vy vm)) as [Hle | _]; [| discriminate].
  intros H. injection H as <- <- <-. exists fy, fm, fd.
  repeat split; assumption.
Qed.

Lemma parse_m_range (f : string) (v : Z) : parse_m f = Some v -> 1 <= v <= 12.
Proof.
  unfold parse_m. destruct (digits_value f) as [w |]; [| discriminate].
  destruct (_ && _) eqn:E; [| discriminate]. intros H. injection H as <-.
  apply andb_true_iff in E. destruct E as (E & E2).
  apply andb_true_iff in E. destruct E as (_ & E1).
  apply Z.leb_le in E1, E2. split; assumption.
Qed.

Lemma parse_d_range (f : string) (v : Z) : parse_d f = Some v -> 1 <= v.
Proof.
  unfold parse_d. destruct (digits_value _) as [w |]; [| discriminate].
  destruct (_ && _) eqn:E; [| discriminate]. intros H. injection H as <-.
  apply andb_true_iff in E. destruct E as (E & _).
  apply andb_true_iff in E. destruct E as (E & _).
  apply andb_true_iff in E. destruct E as (_ & E1).
  apply Z.leb_le in E1. exact E1.
Qed.

Lemma parse_Y_range (f : string) (v : Z) : parse_Y f = Some v -> 0 <= v <= 9999.
Proof.
  unfold parse_Y. destruct (String.length f =? 4)%nat eqn:E; [| discriminate].
  apply Nat.eqb_eq in E. intros H. apply digits_value_bound in H.
  rewrite E in H. change (10 ^ Z.of_nat 4) with 10000 in H. lia.
Qed.

Lemma strptime_ymd_calendar (s : string) (y m d : Z) :
  strptime_ymd s = Ok (y, m, d) -> calendar_date (midnight y m d).
Proof.
  intros H. destruct (strptime_ymd_fields _ _ _ _ H)
    as (fy & fm & fd & _ & Hy & Hm & Hd & Hle).
  unfold calendar_date. cbn [ts_year ts_month ts_day midnight].
  split; [apply (parse_Y_range _ _ Hy) |].
  split; [apply (parse_m_range _ _ Hm) |].
  split; [apply (parse_d_range _ _ Hd) | exact Hle].
Qed.

Lemma to_datetime_calendar (strings : list string) (dates : list Timestamp) :
  to_datetime strings = Ok dates ->
  Forall (fun ts => calendar_date ts /\
                    timestamp_in_bounds (ts_year ts) (ts_month ts) (ts_day ts) = true)
         dates.
Proof.
  intros H. apply Forall_forall. intros ts Hts.
  destruct (mapM_Ok_In _ _ _ H ts Hts) as (str & _ & Hstr).
  apply bind_Ok_inv in Hstr. destruct Hstr as (((y, m), d) & Hp & Hstr).
  destruct (timestamp_in_bounds y m d) eqn:Eb; [| discriminate Hstr].
  injection Hstr as <-. split; [apply (strptime_ymd_calendar _ _ _ _ Hp) | exact Eb].
Qed.

Lemma set_date_index_dates (t : Table) (df : DataFrame Timestamp) :
  set_date_index t = Ok df ->
  exists year mnth day,
    getattr_column "Year" t = Ok year /\
    getattr_column "Mnth" t = Ok mnth /\
    getattr_column "Day" t = Ok day /\
    to_datetime (date_strings year mnth day) = Ok (index df) /\
    columns df = drop_column "date" t.
Proof.
  unfold set_date_index. intros H.
  apply bind_Ok_inv in H. destruct H as (year & Hy & H).
  apply bind_Ok_inv in H. destruct H as (mnth & Hm & H).
  apply bind_Ok_inv in H. destruct H as (day & Hd & H).
  apply bind_Ok_inv in H. destruct H as (dates & Hdates & H).
  injection H as <-. exists year, mnth, day. repeat split; assumption.
Qed.

Lemma short_years :
  forallb (fun n => negb (String.length (py_str_int (Z.of_nat n)) =? 4)%nat)
          (seq 0 1000) = true.
Proof. vm_compute. reflexivity. Qed.

Lemma four_digit_year (y : Z) :
  0 <= y -> String.length (py_str_int y) = 4%nat -> 1000 <= y.
Proof.
  intros Hy Hlen. destruct (Z_lt_le_dec y 1000) as [Hlt | Hge]; [| exact Hge].
  pose proof short_years as Hs. rewrite forallb_forall in Hs.
  specialize (Hs (Z.to_nat y)). rewrite Z2Nat.id, Hlen in Hs by exact Hy.
  assert (Hin : In (Z.to_nat y) (seq 0 1000)) by (apply in_seq; lia).
  specialize (Hs Hin). discriminate Hs.
Qed.

Lemma integer_row_is_date (year mnth day : column) (dates : list Timestamp)
    (i : nat) (y m d : Z) :
  to_datetime (date_strings year mnth day) = Ok dates ->
  nth_error year i = Some (SInt y) ->
  nth_error mnth i = Some (SInt m) ->
  nth_error day i = Some (SInt d) ->
  1000 <= y <= 9999 /\ 1 <= m <= 12 /\ 1 <= d <= days_in_month y m /\
  timestamp_in_bounds y m d = true.
Proof.
  intros Hdates Hy Hm Hd.
  pose proof (date_strings_nth _ _ _ _ _ _ _ Hy Hm Hd) as Hstr.
  destruct (mapM_Ok_nth _ _ _ Hdates _ _ Hstr) as (ts & Hts & _).
  apply bind_Ok_inv in Hts. destruct Hts as (((y', m'), d') & Hp & Hts).
  destruct (timestamp_in_bounds y' m' d') eqn:Eb; [| discriminate Hts].
  simpl py_str in Hp.
  destruct (strptime_ymd_of_str _ _ _ _ _ _ Hp) as (-> & -> & ->).
  destruct (strptime_ymd_calendar _ _ _ _ Hp) as (Hyr & Hmr & Hdr).
  cbn [ts_year ts_month ts_day midnight] in Hyr, Hmr, Hdr.
  destruct (strptime_ymd_fields _ _ _ _ Hp) as (fy & fm & fd & Hsplit & HY & _).
  simpl append in Hsplit.
  rewrite (split_on_app "/" _ _ (str_int_no_slash y)) in Hsplit.
  injection Hsplit as <- _.
  assert (Hlen : String.length (py_str_int y) = 4%nat).
  { unfold parse_Y in HY. destruct (String.length (py_str_int y) =? 4)%nat eqn:E;
      [apply Nat.eqb_eq; exact E | discriminate HY]. }
  pose proof (four_digit_year y (proj1 Hyr) Hlen).
  repeat split; try lia. exact Eb.
Qed.

(** X11. Every entry of the date index the forcing loader and the
    discharge loader return is a date of the calendar (a month from 1 to
    12, a day that the month has in that year, leap years counted) that
    pandas can hold as a timestamp. *)
Theorem date_index_holds_calendar_dates :
  (forall fs data_dir basin forcings df area,
      load_camels_us_forcings fs data_dir basin forcings = Ok (df, area) ->
      Forall (fun ts => calendar_date ts /\
                        timestamp_in_bounds (ts_year ts) (ts_month ts) (ts_day ts) = true)
             (index df)) /\
  (forall fs data_dir basin area s,
      load_camels_us_discharge fs data_dir basin area = Ok s ->
      Forall (fun ts => calendar_date ts /\
                        timestamp_in_bounds (ts_year ts) (ts_month ts) (ts_day ts) = true)
             (s_index s)).
Proof.
  split.
  - intros fs data_dir basin forcings df area H.
    destruct (load_camels_us_forcings_inv _ _ _ _ _ _ H) as (f & o & text & _ & _ & Hr).
    destruct (read_forcing_file_inv _ _ _ Hr) as (t & _ & _ & Hset).
    destruct (set_date_index_dates _ _ Hset) as (year & mnth & day & _ & _ & _ & Hd & _).
    apply (to_datetime_calendar _ _ Hd).
  - intros fs data_dir basin area s H.
    destruct (load_camels_us_discharge_inv _ _ _ _ _ H)
      as (f & o & text & t & df & _ & _ & _ & Hset & Hn).
    destruct (normalize_discharge_spec _ _ _ Hn) as (_ & _ & -> & _).
    destruct (set_date_index_dates _ _ Hset) as (year & mnth & day & _ & _ & _ & Hd & _).
    apply (to_datetime_calendar _ _ Hd).
Qed.

(** X12. A row that is no date makes the loaders fail as a whole: the
    forcing and the discharge loader return only when every row whose
    Year, Mnth and Day are integers has a year from 1000 to 9999 (the
    format [%Y] reads four digits), a month from 1 to 12, a day that the
    month has in that year, and a date that pandas can hold as a
    timestamp. *)
Theorem loaders_reject_impossible_dates :
  (forall fs data_dir basin forcings df area,
      load_camels_us_forcings fs data_dir basin forcings = Ok (df, area) ->
      exists t year mnth day,
        forcing_table fs data_dir basin forcings t /\
        getattr_column "Year" t = Ok year /\
        getattr_column "Mnth" t = Ok mnth /\
        getattr_column "Day" t = Ok day /\
        forall i y m d,
          nth_error year i = Some (SInt y) ->
          nth_error mnth i = Some (SInt m) ->
          nth_error day i = Some (SInt d) ->
          1000 <= y <= 9999 /\ 1 <= m <= 12 /\ 1 <= d <= days_in_month y m /\
          timestamp_in_bounds y m d = true) /\
  (forall fs data_dir basin area s,
      load_camels_us_discharge fs data_dir basin area = Ok s ->
      exists t year mnth day,
        discharge_table fs data_dir basin t /\
        getattr_column "Year" t = Ok year /\
        getattr_column "Mnth" t = Ok mnth /\
        getattr_column "Day" t = Ok day /\
        forall i y m d,
          nth_error year i = Some (SInt y) ->
          nth_error mnth i = Some (SInt m) ->
          nth_error day i = Some (SInt d) ->
          1000 <= y <= 9999 /\ 1 <= m <= 12 /\ 1 <= d <= days_in_month y m /\
          timestamp_in_bounds y m d = true).
Proof.
  split.
  - intros fs data_dir basin forcings df area H.
    destruct (load_camels_us_forcings_inv _ _ _ _ _ _ H)
      as (f & o & text & Hglob & Htext & Hr).
    destruct (read_forcing_file_inv _ _ _ Hr) as (t & _ & Hcsv & Hset).
    destruct (set_date_index_dates _ _ Hset)
      as (year & mnth & day & Hy & Hm & Hd & Hdates & _).
    exists t, year, mnth, day.
    split; [exists f, o, text; repeat split; assumption |].
    repeat (split; [assumption |]).
    intros i y m d. apply (integer_row_is_date _ _ _ _ _ _ _ _ Hdates).
  - intros fs data_dir basin area s H.
    destruct (load_camels_us_discharge_inv _ _ _ _ _ H)
      as (f & o & text & t & df & Hglob & Htext & Hcsv & Hset & _).
    destruct (set_date_index_dates _ _ Hset)
      as (year & mnth & day & Hy & Hm & Hd & Hdates & _).
    exists t, year, mnth, day.
    split; [exists f, o, text; repeat split; assumption |].
    repeat (split; [assumption |]).
    intros i y m d. apply (integer_row_is_date _ _ _ _ _ _ _ _ Hdates).
Qed.

(** ** The discharge series *)

Lemma normalize_discharge_cells (df : DataFrame Timestamp) (area : Z) :
  normalize_discharge df area
  = (qobs <- getattr_column "QObs" (columns df) ;;
     cells <- converted_cells qobs area ;;
     Ok (mkSeries (index df) cells)).
Proof.
  unfold normalize_discharge, converted_cells.
  destruct (getattr_column "QObs" (columns df)) as [qobs | e] eqn:Hq; [| reflexivity].
  cbn [bind].
  destruct (mapM (mul_cell cfs_factor) qobs) as [q1 | e]; [| reflexivity]. cbn [bind].
  destruct (float_of_int (area * 10 ^ 6)) as [d | e]; [| reflexivity]. cbn [bind].
  set (q3 := map (fun x => fdiv x d) (map (fun x => fmul x seconds_per_day) q1)).
  assert (Hhas : has_column "QObs" (columns df) = true).
  { rewrite has_column_named. unfold getattr_column in Hq.
    destruct (columns_named "QObs" (columns df)); [discriminate Hq | reflexivity]. }
  assert (Hcells : exists others,
             columns_named "QObs" (set_column "QObs" (map SFloat q3) (columns df))
             = map SFloat q3 :: others).
  { rewrite (columns_named_set_column _ _ _ Hhas). unfold getattr_column in Hq.
    destruct (columns_named "QObs" (columns df)) as [| c cs]; [discriminate Hq |].
    exists (map (fun _ => map SFloat q3) cs). reflexivity. }
  destruct Hcells as (others & Hcells).
  set (df1 := mkDataFrame (index df) (set_column "QObs" (map SFloat q3) (columns df))).
  assert (Hcells1 : columns_named "QObs" (columns df1) = map SFloat q3 :: others)
    by exact Hcells.
  unfold view_column at 1 2. rewrite Hcells1. cbn [bind].
  unfold view_cells at 1. cbn [view_label].
  rewrite Hcells1, lt_zero_floats. cbn [bind].
  destruct (view_setitem_mask_floats copy_on_write df1 q3 others Hcells1)
    as (Hidx & others' & Hcells2).
  unfold view_column, view_cells. cbn [view_label].
  rewrite Hcells2, Hidx. cbn [bind view_label]. rewrite Hcells2.
  unfold q3. rewrite !map_map. reflexivity.
Qed.

Lemma load_camels_us_discharge_of_table
    (fs : node) (data_dir : path) (basin : string) (area : Z) (t : Table) :
  discharge_table fs data_dir basin t ->
  load_camels_us_discharge fs data_dir basin area
  = discharge_of_columns (getattr_column "Year" t) (getattr_column "Mnth" t)
      (getattr_column "Day" t) (getattr_column "QObs" t) area.
Proof.
  intros (file_path & others & text & Hglob & Htext & Ht).
  unfold load_camels_us_discharge, discharge_of_columns.
  rewrite Hglob, Htext. cbn [bind]. rewrite Ht. cbn [bind].
  unfold set_date_index.
  destruct (getattr_column "Year" t) as [year | e]; [| reflexivity]. cbn [bind].
  destruct (getattr_column "Mnth" t) as [mnth | e]; [| reflexivity]. cbn [bind].
  destruct (getattr_column "Day" t) as [day | e]; [| reflexivity]. cbn [bind].
  destruct (to_datetime (date_strings year mnth day)) as [dates | e]; [| reflexivity].
  cbn [bind]. rewrite normalize_discharge_cells. cbn [columns index].
  rewrite getattr_column_drop_other by discriminate. reflexivity.
Qed.

Lemma mask_negative_not_below (v : float) : flt (mask_negative v) fzero = false.
Proof.
  unfold mask_negative. destruct (flt v fzero) eqn:E; [reflexivity | exact E].
Qed.

(** X13. The series the discharge loader returns holds floats only, and
    a series is returned only when every cell of [QObs] is a number; one
    cell of text fails the call. Where the assignment of line 140 reaches
    the frame (pandas without copy-on-write), none of the values is below
    zero: each is NaN or a float that is not [< 0]. *)
Theorem discharge_series_never_below_zero
    (fs : node) (data_dir : path) (basin : string) (area : Z) (s : Series Timestamp) :
  load_camels_us_discharge fs data_dir basin area = Ok s ->
  Forall (fun c => exists v, c = SFloat v) (s_values s) /\
  (copy_on_write = false ->
   Forall (fun c => exists v, c = SFloat v /\ flt v fzero = false) (s_values s)) /\
  exists t qobs,
    discharge_table fs data_dir basin t /\
    getattr_column "QObs" t = Ok qobs /\
    Forall (fun x => forall str, x <> SStr str) qobs.
Proof.
  intros H.
  destruct (load_camels_us_discharge_spec _ _ _ _ _ H)
    as (t & df & qobs & Ht & _ & Hq & _ & Hlen & Hcells).
  assert (Hvalue : forall c, In c (s_values s) ->
            exists q, c = SFloat (after_line_140 copy_on_write (QObs_mm_per_day q area))).
  { intros c Hc. apply In_nth_error in Hc. destruct Hc as (i & Hi).
    assert (Hlt : (i < List.length qobs)%nat).
    { rewrite <- Hlen. apply nth_error_Some. rewrite Hi. discriminate. }
    destruct (nth_error qobs i) as [x |] eqn:Hx;
      [| apply nth_error_None in Hx; lia].
    destruct (Hcells i x Hx) as (q & _ & Hv). rewrite Hv in Hi. injection Hi as <-.
    exists q. reflexivity. }
  split; [| split].
  - apply Forall_forall. intros c Hc. destruct (Hvalue c Hc) as (q & ->).
    eexists. reflexivity.
  - intros Hcow. apply Forall_forall. intros c Hc. destruct (Hvalue c Hc) as (q & ->).
    rewrite Hcow. eexists. split; [reflexivity | apply mask_negative_not_below].
  - exists t, qobs. split; [exact Ht |]. split; [exact Hq |].
    apply Forall_forall. intros x Hx str ->.
    apply In_nth_error in Hx. destruct Hx as (i & Hi).
    destruct (Hcells i _ Hi) as (q & Hcell & _). discriminate Hcell.
Qed.

Lemma converted_cells_area_zero (qobs cells : column) (area : Z) :
  converted_cells qobs area = Ok cells ->
  exists cells0,
    converted_cells qobs 0 = Ok cells0 /\ List.length cells0 = List.length cells.
Proof.
  unfold converted_cells. intros H.
  apply bind_Ok_inv in H. destruct H as (q1 & Hq1 & H).
  apply bind_Ok_inv in H. destruct H as (d & _ & H). injection H as <-.
  rewrite Hq1. cbn [bind].
  change (float_of_int (0 * 10 ^ 6)) with (Ok (S754_zero false) : result float).
  cbn [bind]. eexists. split; [reflexivity |]. rewrite !length_map. reflexivity.
Qed.

Lemma quotient_by_zero (cow : bool) (X : float) :
  after_line_140 cow (fdiv X (S754_zero false)) = nan \/
  after_line_140 cow (fdiv X (S754_zero false)) = S754_infinity false \/
  after_line_140 cow (fdiv X (S754_zero false)) = S754_infinity true.
Proof. destruct cow, X as [sx | [|] | | [|] mx ex]; vm_compute; auto. Qed.

Lemma masked_quotient_by_zero (X : float) :
  mask_negative (fdiv X (S754_zero false)) = nan \/
  mask_negative (fdiv X (S754_zero false)) = S754_infinity false.
Proof. destruct X as [sx | [|] | | [|] mx ex]; vm_compute; auto. Qed.

(** X14. The area 0 adds no exception: the division by zero is a
    division of floats. Whenever the discharge loader returns a series
    for some area, it returns one for the area 0, of the same date index
    and length. Every value of that series is NaN or an infinity; and
    where the assignment of line 140 reaches the frame (pandas without
    copy-on-write) every value is NaN or the positive infinity, and a
    discharge that is not above zero (negative, zero or NaN) gives NaN. *)
Theorem discharge_with_area_zero
    (fs : node) (data_dir : path) (basin : string) :
  (forall area s,
      load_camels_us_discharge fs data_dir basin area = Ok s ->
      exists s0,
        load_camels_us_discharge fs data_dir basin 0 = Ok s0 /\
        s_index s0 = s_index s /\
        List.length (s_values s0) = List.length (s_values s)) /\
  (forall s,
      load_camels_us_discharge fs data_dir basin 0 = Ok s ->
      exists t qobs,
        discharge_table fs data_dir basin t /\
        getattr_column "QObs" t = Ok qobs /\
        forall i x, nth_error qobs i = Some x ->
          (nth_error (s_values s) i = Some (SFloat nan) \/
           nth_error (s_values s) i = Some (SFloat (S754_infinity false)) \/
           nth_error (s_values s) i = Some (SFloat (S754_infinity true))) /\
          (copy_on_write = false ->
           (nth_error (s_values s) i = Some (SFloat nan) \/
            nth_error (s_values s) i = Some (SFloat (S754_infinity false))) /\
           (cell_positive x = false -> nth_error (s_values s) i = Some (SFloat nan)))).
Proof.
  split.
  - intros area s H.
    destruct (load_camels_us_discharge_inv _ _ _ _ _ H)
      as (f & o & text & t & df & Hglob & Htext & Hcsv & _ & _).
    assert (Ht : discharge_table fs data_dir basin t)
      by (exists f, o, text; repeat split; assumption).
    rewrite (load_camels_us_discharge_of_table _ _ _ _ _ Ht) in H.
    rewrite (load_camels_us_discharge_of_table _ _ _ _ _ Ht).
    unfold discharge_of_columns in *.
    apply bind_Ok_inv in H. destruct H as (year & Hy & H).
    apply bind_Ok_inv in H. destruct H as (mnth & Hm & H).
    apply bind_Ok_inv in H. destruct H as (day & Hd & H).
    apply bind_Ok_inv in H. destruct H as (dates & Hdates & H).
    apply bind_Ok_inv in H. destruct H as (qobs & Hq & H).
    apply bind_Ok_inv in H. destruct H as (cells & Hcells & H). injection H as <-.
    destruct (converted_cells_area_zero _ _ _ Hcells) as (cells0 & Hcells0 & Hlen).
    rewrite Hy, Hm, Hd. cbn [bind]. rewrite Hdates, Hq. cbn [bind].
    rewrite Hcells0. cbn [bind].
    eexists. split; [reflexivity |]. split; [reflexivity | exact Hlen].
  - intros s H.
    destruct (load_camels_us_discharge_spec _ _ _ _ _ H)
      as (t & df & qobs & Ht & _ & Hq & _ & _ & Hcells).
    exists t, qobs. split; [exact Ht |]. split; [exact Hq |].
    intros i x Hx. destruct (Hcells i x Hx) as (q & Hcell & ->).
    unfold QObs_mm_per_day. change (float_of_Z (0 * 10 ^ 6)) with (S754_zero false).
    set (X := fmul (fmul cfs_factor q) seconds_per_day).
    split.
    + destruct (quotient_by_zero copy_on_write X) as [E | [E | E]]; rewrite E; auto.
    + intros Hcow. rewrite Hcow. unfold after_line_140. split.
      * destruct (masked_quotient_by_zero X) as [E | E]; rewrite E; auto.
      * intros Hpos.
        assert (HX : nan_or_zero X \/ nan_or_sign true X).
        { assert (Hq' : nan_or_zero q \/ nan_or_sign true q).
          { destruct x as [z | f | str]; simpl in Hcell, Hpos; try discriminate Hcell;
              injection Hcell as <-.
            - destruct (Z.eq_dec z 0) as [-> | Hz].
              + left. right. exists false. reflexivity.
              + right. right. apply float_of_Z_neg_sign. apply Z.ltb_ge in Hpos. lia.
            - destruct f as [sf | [|] | | [|] mf ef]; simpl in Hpos; try discriminate Hpos.
              + left. right. exists sf. reflexivity.
              + right. right. reflexivity.
              + left. left. reflexivity.
              + right. right. reflexivity. }
          destruct Hq' as [Hz | Hs].
          - left. unfold X. apply fmul_zero.
            assert (Hc : nan_or_zero (fmul cfs_factor q)).
            { destruct Hz as [-> | (sz & ->)]; [left; reflexivity |].
              right. eexists. reflexivity. }
            exact Hc.
          - right. unfold X.
            apply (fmul_sign true false); [| right; reflexivity].
            apply (fmul_sign false true); [right; reflexivity | exact Hs]. }
        destruct HX as [[-> | (sz & ->)] | [-> | Hs]]; try reflexivity.
        destruct X as [sx | sx | | sx mx ex]; simpl in Hs; try discriminate Hs;
          injection Hs as ->; reflexivity.
Qed.

(** ** Doubles that are not zero *)

Lemma shr_1_half (mrs : shr_record) : 0 <= shr_m mrs -> shr_m (shr_1 mrs) = shr_m mrs / 2.
Proof.
  destruct mrs as [m r t]. cbn [shr_m]. intros H.
  destruct m as [| [p | p |] | p]; try lia; cbn [shr_1 shr_m].
  - reflexivity.
  - apply (Z.div_unique _ 2 _ 1); lia.
  - apply (Z.div_unique _ 2 _ 0); lia.
  - reflexivity.
Qed.

Lemma iter_shr_1_div (n : nat) (mrs : shr_record) :
  0 <= shr_m mrs -> shr_m (Nat.iter n shr_1 mrs) = shr_m mrs / 2 ^ Z.of_nat n.
Proof.
  intros H. induction n as [| n IH].
  - simpl. symmetry. apply Z.div_1_r.
  - rewrite Nat.iter_succ, shr_1_half.
    + rewrite IH, Z.div_div by (try apply Z.pow_pos_nonneg; lia).
      rewrite Nat2Z.inj_succ, Z.pow_succ_r by lia. f_equal. lia.
    + rewrite IH. apply Z.div_pos; [exact H | apply Z.pow_pos_nonneg; lia].
Qed.

Lemma shr_record_of_loc_m (m : Z) (l : location) : shr_m (shr_record_of_loc m l) = m.
Proof. destruct l as [| []]; reflexivity. Qed.

Lemma digits2_pos_pow (p : positive) : 2 ^ (Z.pos (digits2_pos p) - 1) <= Z.pos p.
Proof.
  destruct (Z.le_gt_cases (2 ^ (Z.pos (digits2_pos p) - 1)) (Z.pos p)) as [H | H];
    [exact H |].
  apply digits2_pos_upper in H; lia.
Qed.

(** A shift to the exponent of the format leaves a mantissa that is not
    zero when the number is not below the least positive double. *)
Lemma shr_fexp_pos (m e : Z) (l : location) :
  0 < m -> -1073 <= Zdigits2 m + e ->
  0 < shr_m (fst (shr_fexp prec emax m e l)) /\
  -1074 <= snd (shr_fexp prec emax m e l).
Proof.
  intros Hm He. unfold shr_fexp. rewrite fexp_binary64.
  destruct m as [| p | p]; try lia. cbn [Zdigits2] in *.
  pose proof (digits2_pos_pow p) as Hp.
  set (D := Z.pos (digits2_pos p)) in *.
  destruct (Z.le_gt_cases (Z.max (D + e - 53) (-1074) - e) 0) as [Hn | Hn].
  - assert (Hshr : shr (shr_record_of_loc (Z.pos p) l) e (Z.max (D + e - 53) (-1074) - e)
                   = (shr_record_of_loc (Z.pos p) l, e)).
    { unfold shr. destruct (Z.max (D + e - 53) (-1074) - e); try reflexivity. lia. }
    rewrite Hshr. cbn [fst snd]. rewrite shr_record_of_loc_m. lia.
  - set (n := Z.max (D + e - 53) (-1074) - e) in *.
    rewrite <- (Z2Nat.id n) by lia. rewrite shr_nat. cbn [fst snd].
    rewrite iter_shr_1_div, shr_record_of_loc_m, Z2Nat.id
      by (rewrite ?shr_record_of_loc_m; lia).
    split; [| lia].
    apply Z.div_str_pos. split; [apply Z.pow_pos_nonneg; lia |].
    apply Z.le_trans with (2 ^ (D - 1)); [| exact Hp].
    apply Z.pow_le_mono_r; lia.
Qed.

Lemma round_nearest_even_ge (m : Z) (l : location) : m <= round_nearest_even m l.
Proof.
  destruct l as [| []]; simpl; try lia. destruct (Z.even m); lia.
Qed.

Lemma binary_round_aux_nonzero (sx : bool) (mx ex : Z) (lx : location) (s : bool) :
  0 < mx -> -1073 <= Zdigits2 mx + ex ->
  binary_round_aux prec emax sx mx ex lx <> S754_zero s.
Proof.
  intros Hm He. unfold binary_round_aux.
  destruct (shr_fexp_pos mx ex lx Hm He) as (H1 & H1e).
  destruct (shr_fexp prec emax mx ex lx) as [mrs' e']. cbn [fst snd] in H1, H1e.
  pose proof (round_nearest_even_ge (shr_m mrs') (loc_of_shr_record mrs')) as Hr.
  set (m2 := round_nearest_even (shr_m mrs') (loc_of_shr_record mrs')) in *.
  assert (Hm2 : 0 < m2) by lia.
  assert (He2 : -1073 <= Zdigits2 m2 + e').
  { destruct m2 as [| p | p]; try lia. cbn [Zdigits2]. lia. }
  destruct (shr_fexp_pos m2 e' loc_Exact Hm2 He2) as (H2 & _).
  destruct (shr_fexp prec emax m2 e' loc_Exact) as [mrs'' e'']. cbn [fst] in H2.
  destruct (shr_m mrs'') as [| m | m]; try lia.
  destruct (e'' <=? emax - prec); discriminate.
Qed.

Lemma float_of_Z_nonzero (z : Z) (s : bool) : z <> 0 -> float_of_Z z <> S754_zero s.
Proof.
  intros Hz. unfold float_of_Z, binary_normalize.
  assert (H : forall sx p, binary_round prec emax sx p 0 <> S754_zero s).
  { intros sx p. unfold binary_round.
    destruct (shl_align p 0 (fexp prec emax (Z.pos (digits2_pos p) + 0))) as [mz ez] eqn:E.
    apply binary_round_aux_nonzero; [lia |].
    cbn [Zdigits2]. unfold shl_align in E. rewrite fexp_binary64 in E.
    destruct (Z.max (Z.pos (digits2_pos p) + 0 - 53) (-1074) - 0) eqn:En;
      injection E as <- <-; lia. }
  destruct z as [| p | p]; [contradiction Hz; reflexivity | apply H | apply H].
Qed.

(** The divisor of the conversion, when Python can form it: a finite
    double that is not zero, of the sign of the area. *)
Lemma divisor_finite (area : Z) (d : float) :
  area <> 0 -> float_of_int (area * 10 ^ 6) = Ok d ->
  exists m e, d = S754_finite (area <? 0) m e.
Proof.
  intros Ha Hd. pose proof (float_of_int_Ok _ _ Hd) as Heq.
  assert (Hsign : float_sign d = Some (area <? 0)).
  { rewrite Heq. destruct (Z.ltb_spec area 0) as [Hneg | Hpos].
    - apply float_of_Z_neg_sign. lia.
    - apply float_of_Z_sign. lia. }
  assert (Hnz : forall s, d <> S754_zero s).
  { intros s. rewrite Heq. apply float_of_Z_nonzero. lia. }
  unfold float_of_int in Hd. rewrite <- Heq in Hd.
  destruct d as [sd | sd | | sd m e]; simpl in Hsign; try discriminate.
  - contradiction (Hnz sd). reflexivity.
  - injection Hsign as ->. exists m, e. reflexivity.
Qed.

Lemma converted_cells_nth (qobs cells : column) (area : Z) :
  converted_cells qobs area = Ok cells ->
  exists d,
    float_of_int (area * 10 ^ 6) = Ok d /\
    forall i x, nth_error qobs i = Some x ->
      exists q, cell_float x = Some q /\
        nth_error cells i
        = Some (SFloat (after_line_140 copy_on_write
                          (fdiv (fmul (fmul cfs_factor q) seconds_per_day) d))).
Proof.
  unfold converted_cells. intros H.
  apply bind_Ok_inv in H. destruct H as (q1 & Hq1 & H).
  apply bind_Ok_inv in H. destruct H as (d & Hd & H). injection H as <-.
  exists d. split; [exact Hd |]. intros i x Hx.
  destruct (mapM_Ok_nth _ _ _ Hq1 i x Hx) as (f & Hf & Hnth).
  destruct (mul_cell_Ok _ _ Hf) as (q & Hcell & ->).
  exists q. split; [exact Hcell |].
  rewrite (map_nth_error _ _ _ Hnth). reflexivity.
Qed.

(** X15. A missing discharge stays missing and a zero discharge stays
    zero. In the series the discharge loader returns, a cell NaN of
    [QObs] gives NaN for every area, and a cell that is a zero gives a
    zero for every area other than 0 (never NaN, never a number of another
    size): the zero of the same sign for a positive area, of the opposite
    sign for a negative one. *)
Theorem discharge_zero_and_missing_are_kept
    (fs : node) (data_dir : path) (basin : string) (area : Z) (s : Series Timestamp) :
  load_camels_us_discharge fs data_dir basin area = Ok s ->
  exists t qobs,
    discharge_table fs data_dir basin t /\
    getattr_column "QObs" t = Ok qobs /\
    forall i x, nth_error qobs i = Some x ->
      (x = SFloat nan -> nth_error (s_values s) i = Some (SFloat nan)) /\
      (forall sg, area <> 0 -> cell_float x = Some (S754_zero sg) ->
         nth_error (s_values s) i = Some (SFloat (S754_zero (xorb sg (area <? 0))))).
Proof.
  intros H.
  destruct (load_camels_us_discharge_inv _ _ _ _ _ H)
    as (f & o & text & t & df & Hglob & Htext & Hcsv & Hset & Hn).
  assert (Ht : discharge_table fs data_dir basin t)
    by (exists f, o, text; repeat split; assumption).
  rewrite (load_camels_us_discharge_of_table _ _ _ _ _ Ht) in H.
  unfold discharge_of_columns in H.
  apply bind_Ok_inv in H. destruct H as (year & _ & H).
  apply bind_Ok_inv in H. destruct H as (mnth & _ & H).
  apply bind_Ok_inv in H. destruct H as (day & _ & H).
  apply bind_Ok_inv in H. destruct H as (dates & _ & H).
  apply bind_Ok_inv in H. destruct H as (qobs & Hq & H).
  apply bind_Ok_inv in H. destruct H as (cells & Hcells & H). injection H as <-.
  exists t, qobs. split; [exact Ht |]. split; [exact Hq |].
  destruct (converted_cells_nth _ _ _ Hcells) as (d & Hd & Hnth).
  intros i x Hx. destruct (Hnth i x Hx) as (q & Hcell & Hv). cbn [s_values].
  split.
  - intros ->. injection Hcell as <-. rewrite Hv.
    rewrite after_line_140_not_below by reflexivity. reflexivity.
  - intros sg Ha Hz. rewrite Hz in Hcell. injection Hcell as <-.
    destruct (divisor_finite _ _ Ha Hd) as (m & e & ->).
    rewrite Hv.
    rewrite after_line_140_not_below by (destruct sg, (area <? 0); reflexivity).
    destruct sg, (area <? 0); reflexivity.
Qed.

(** X16. The discharge loader reads four columns of the file and no
    other: two discharge tables whose columns Year, Mnth, Day and QObs
    are the same (whatever their columns [basin] and [flag], the quality
    flags, hold) give the same result for the same area, series or
    exception. *)
Theorem discharge_reads_four_columns
    (fs fs' : node) (data_dir data_dir' : path) (basin basin' : string) (area : Z)
    (t t' : Table) :
  discharge_table fs data_dir basin t ->
  discharge_table fs' data_dir' basin' t' ->
  getattr_column "Year" t = getattr_column "Year" t' ->
  getattr_column "Mnth" t = getattr_column "Mnth" t' ->
  getattr_column "Day" t = getattr_column "Day" t' ->
  getattr_column "QObs" t = getattr_column "QObs" t' ->
  load_camels_us_discharge fs data_dir basin area
  = load_camels_us_discharge fs' data_dir' basin' area.
Proof.
  intros Ht Ht' Hy Hm Hd Hq.
  rewrite (load_camels_us_discharge_of_table _ _ _ _ _ Ht).
  rewrite (load_camels_us_discharge_of_table _ _ _ _ _ Ht').
  rewrite Hy, Hm, Hd, Hq. reflexivity.
Qed.

(** ** Forcing and discharge together *)

Lemma forcing_table_functional
    (fs : node) (data_dir : path) (basin forcings : string) (t t' : Table) :
  forcing_table fs data_dir basin forcings t ->
  forcing_table fs data_dir basin forcings t' -> t = t'.
Proof.
  intros (f & o & text & Hg & Ho & Hr) (f' & o' & text' & Hg' & Ho' & Hr').
  rewrite Hg in Hg'. injection Hg' as <- <-.
  rewrite Ho in Ho'. injection Ho' as <-.
  rewrite Hr in Hr'. injection Hr' as <-. reflexivity.
Qed.

Lemma discharge_table_functional
    (fs : node) (data_dir : path) (basin : string) (t t' : Table) :
  discharge_table fs data_dir basin t ->
  discharge_table fs data_dir basin t' -> t = t'.
Proof.
  intros (f & o & text & Hg & Ho & Hr) (f' & o' & text' & Hg' & Ho' & Hr').
  rewrite Hg in Hg'. injection Hg' as <- <-.
  rewrite Ho in Ho'. injection Ho' as <-.
  rewrite Hr in Hr'. injection Hr' as <-. reflexivity.
Qed.

(** X17. Forcing and discharge line up: when the forcing table and the
    discharge table of a basin have the same columns Year, Mnth and Day,
    the frame of the forcing loader and the series of the discharge
    loader have the same date index, entry by entry, whatever the area
    given to the discharge loader. *)
Theorem forcing_and_discharge_indexes_agree
    (fs : node) (data_dir : path) (basin forcings : string) (area area' : Z)
    (df : DataFrame Timestamp) (s : Series Timestamp) (t t' : Table) :
  load_camels_us_forcings fs data_dir basin forcings = Ok (df, area) ->
  load_camels_us_discharge fs data_dir basin area' = Ok s ->
  forcing_table fs data_dir basin forcings t ->
  discharge_table fs data_dir basin t' ->
  getattr_column "Year" t = getattr_column "Year" t' ->
  getattr_column "Mnth" t = getattr_column "Mnth" t' ->
  getattr_column "Day" t = getattr_column "Day" t' ->
  index df = s_index s.
Proof.
  intros Hf Hdis Ht Ht' Hy Hm Hd.
  destruct (load_camels_us_forcings_inv _ _ _ _ _ _ Hf) as (f & o & text & Hg & Ho & Hr).
  destruct (read_forcing_file_inv _ _ _ Hr) as (t0 & _ & Hcsv & Hset).
  assert (Ht0 : forcing_table fs data_dir basin forcings t0)
    by (exists f, o, text; repeat split; assumption).
  rewrite (forcing_table_functional _ _ _ _ _ _ Ht0 Ht) in Hset.
  destruct (set_date_index_dates _ _ Hset)
    as (year & mnth & day & Hy1 & Hm1 & Hd1 & Hdates & _).
  rewrite (load_camels_us_discharge_of_table _ _ _ _ _ Ht') in Hdis.
  unfold discharge_of_columns in Hdis.
  rewrite <- Hy, <- Hm, <- Hd, Hy1, Hm1, Hd1 in Hdis. cbn [bind] in Hdis.
  rewrite Hdates in Hdis. cbn [bind] in Hdis.
  apply bind_Ok_inv in Hdis. destruct Hdis as (qobs & _ & Hdis).
  apply bind_Ok_inv in Hdis. destruct Hdis as (cells & _ & Hdis).
  injection Hdis as <-. reflexivity.
Qed.

(** X18. The forcing loader leaves the data of the file as it is: the
    columns of the frame are the columns of the table read, in their
    order and with their cells, a column labelled [date] apart, which
    does not stay; and the frame of a rectangular table has one date for
    each of its rows. *)
Theorem forcings_columns_unchanged
    (fs : node) (data_dir : path) (basin forcings : string)
    (df : DataFrame Timestamp) (area : Z) :
  load_camels_us_forcings fs data_dir basin forcings = Ok (df, area) ->
  exists t,
    forcing_table fs data_dir basin forcings t /\
    columns df = drop_column "date" t /\
    columns_named "date" (columns df) = [] /\
    (forall name, name <> "date" ->
                  columns_named name (columns df) = columns_named name t) /\
    (forall n, rectangular n t ->
               List.length (index df) = n /\ rectangular n (columns df)).
Proof.
  intros H.
  destruct (load_camels_us_forcings_inv _ _ _ _ _ _ H) as (f & o & text & Hg & Ho & Hr).
  destruct (read_forcing_file_inv _ _ _ Hr) as (t & _ & Hcsv & Hset).
  destruct (set_date_index_spec _ _ Hset)
    as (year & mnth & day & Hy & Hm & Hd & (Hlen & _) & Hcols).
  exists t. split; [exists f, o, text; repeat split; assumption |].
  split; [exact Hcols |]. rewrite Hcols.
  split; [apply columns_named_drop_same |].
  split; [intros name Hne; apply columns_named_drop_other; exact Hne |].
  intros n Hrect. split; [| apply rectangular_drop_column; exact Hrect].
  rewrite Hlen, (getattr_column_length _ _ _ _ Hrect Hy),
    (getattr_column_length _ _ _ _ Hrect Hm), (getattr_column_length _ _ _ _ Hrect Hd).
  lia.
Qed.

(** ** Where the files are found *)

Lemma glob_tree_In (pat : string) (n : node) :
  forall p q, In q (glob_tree fnmatch pat p n) ->
  exists rel name, q = (p ++ rel ++ [name])%list /\ fnmatch name pat = true.
Proof.
  induction n as [text | es IH] using node_induction; intros p q Hq; [destruct Hq |].
  cbn [glob_tree] in Hq. apply in_app_or in Hq. destruct Hq as [Hq | Hq].
  - unfold matching_entries in Hq. apply in_map_iff in Hq.
    destruct Hq as (e & <- & He). apply filter_In in He. destruct He as (_ & He).
    exists [], (fst e). split; [reflexivity | exact He].
  - induction es as [| [name c] es IHes]; [destruct Hq |].
    apply in_app_or in Hq. inversion IH as [| ? ? Hc Hes]; subst.
    destruct Hq as [Hq | Hq].
    + cbn [snd] in Hc. destruct (Hc _ _ Hq) as (rel & nm & -> & Hm).
      exists (name :: rel), nm. split; [| exact Hm].
      unfold joinpath. rewrite <- app_assoc. reflexivity.
    + apply (IHes Hes Hq).
Qed.

(** X19. The file a loader reads lies below the directory it searches, at
    any depth, and its name matches the pattern made of the basin: for
    the forcing loader below [data_dir / 'basin_mean_forcing' / forcings]
    with a name matching [<basin>_*_forcing_leap.txt], for the discharge
    loader below [data_dir / 'usgs_streamflow'] with a name matching
    [<basin>_streamflow_qc.txt]. *)
Theorem loaders_read_a_matching_file :
  (forall fs data_dir basin forcings df area,
      load_camels_us_forcings fs data_dir basin forcings = Ok (df, area) ->
      exists rel name text,
        let file_path :=
          (joinpath (joinpath data_dir "basin_mean_forcing") forcings ++ rel ++ [name])%list in
        fnmatch name (basin ++ "_*_forcing_leap.txt")%string = true /\
        resolve fs file_path = Some (File text) /\
        read_forcing_file text = Ok (df, area)) /\
  (forall fs data_dir basin area s,
      load_camels_us_discharge fs data_dir basin area = Ok s ->
      exists rel name text t,
        let file_path := (joinpath data_dir "usgs_streamflow" ++ rel ++ [name])%list in
        fnmatch name (basin ++ "_streamflow_qc.txt")%string = true /\
        resolve fs file_path = Some (File text) /\
        read_csv discharge_csv text = Ok t /\
        discharge_table fs data_dir basin t).
Proof.
  assert (Hfile : forall fs p text, open_read fs p = Ok text ->
                                    resolve fs p = Some (File text)).
  { intros fs p text. unfold open_read.
    destruct (resolve fs p) as [[text' | es] |]; intros H; try discriminate H.
    injection H as <-. reflexivity. }
  assert (Hfound : forall fs pat p q others,
             glob_rec fnmatch fs pat p = q :: others ->
             exists rel name, q = (p ++ rel ++ [name])%list /\ fnmatch name pat = true).
  { intros fs pat p q others H. unfold glob_rec in H.
    destruct (resolve fs p) as [n |]; [| discriminate H].
    apply (glob_tree_In pat n p q). rewrite H. left. reflexivity. }
  split.
  - intros fs data_dir basin forcings df area H.
    destruct (load_camels_us_forcings_inv _ _ _ _ _ _ H) as (f & o & text & Hg & Ho & Hr).
    destruct (Hfound _ _ _ _ _ Hg) as (rel & name & -> & Hm).
    exists rel, name, text. cbv zeta.
    split; [exact Hm |]. split; [apply Hfile; exact Ho | exact Hr].
  - intros fs data_dir basin area s H.
    destruct (load_camels_us_discharge_inv _ _ _ _ _ H)
      as (f & o & text & t & df & Hg & Ho & Hcsv & _ & _).
    assert (Ht : discharge_table fs data_dir basin t)
      by (exists f, o, text; repeat split; assumption).
    destruct (Hfound _ _ _ _ _ Hg) as (rel & name & -> & Hm).
    exists rel, name, text, t. cbv zeta.
    split; [exact Hm |]. split; [apply Hfile; exact Ho |]. split; assumption.
Qed.

(** ** The order of the rows *)

Lemma unique_nth_inj (idx : list scalar) (i k : nat) (l : scalar) :
  unique idx = true -> nth_error idx i = Some l -> nth_error idx k = Some l -> i = k.
Proof.
  revert i k. induction idx as [| a idx IH]; intros i k Hu Hi Hk.
  - destruct i; discriminate Hi.
  - simpl in Hu. apply andb_true_iff in Hu. destruct Hu as (Ha & Hu).
    apply negb_true_iff in Ha.
    destruct i as [| i], k as [| k]; simpl in Hi, Hk.
    + reflexivity.
    + injection Hi as ->. apply nth_error_In, label_in_In in Hk.
      rewrite Hk in Ha. discriminate Ha.
    + injection Hk as ->. apply nth_error_In, label_in_In in Hi.
      rewrite Hi in Ha. discriminate Ha.
    + f_equal. apply (IH _ _ Hu Hi Hk).
Qed.

Lemma take_all_in_order {A : Type} (basins : list string) (xs : list A) :
  unique (map SStr basins) = true ->
  List.length xs = List.length basins ->
  take (flat_map (fun l => positions_of l (map SStr basins)) (map SStr basins)) xs = xs.
Proof.
  intros Hu Hlen.
  set (idx := map SStr basins) in *.
  set (ps := flat_map (fun l => positions_of l idx) idx).
  assert (Hall : forall b, In b basins -> label_in (SStr b) idx = true).
  { intros b Hb. apply label_in_In. apply in_map. exact Hb. }
  assert (Hidx : List.length idx = List.length basins) by apply length_map.
  assert (Hps : Forall (fun j => (j < List.length xs)%nat) ps).
  { rewrite Hlen, <- Hidx. apply selected_positions_bounded. }
  assert (Hpslen : List.length ps = List.length basins).
  { rewrite <- Hidx.
    rewrite <- (take_length ps idx) by apply selected_positions_bounded.
    unfold ps, idx at 2 4. rewrite selected_index, (selected_index_unique _ _ Hu Hall).
    reflexivity. }
  apply nth_error_ext. intros k.
  destruct (nth_error basins k) as [b |] eqn:Hk.
  - destruct (selected_positions_nth idx basins k b Hu Hall Hk) as (i & Hi & Hl).
    assert (Hkk : nth_error idx k = Some (SStr b)) by apply (map_nth_error SStr _ _ Hk).
    rewrite (unique_nth_inj _ _ _ _ Hu Hl Hkk) in Hi.
    apply (take_nth _ _ _ _ Hps Hi).
  - apply nth_error_None in Hk.
    assert (H1 : nth_error (take ps xs) k = None).
    { apply nth_error_None. rewrite (take_length _ _ Hps). lia. }
    assert (H2 : nth_error xs k = None) by (apply nth_error_None; lia).
    rewrite H1, H2. reflexivity.
Qed.

(** X20. Asking for every basin of the table, in the order of the table,
    changes nothing: for a rectangular table of attributes without
    repeated labels, the loader given the list of all its labels returns
    the very table it returns without a filter. *)
Theorem attributes_filter_by_all_basins
    (fs : node) (data_dir : path) (basins : list string) (full : DataFrame scalar) :
  load_camels_us_attributes fs data_dir [] = Ok full ->
  index full = map SStr basins ->
  unique (index full) = true ->
  rectangular (List.length (index full)) (columns full) ->
  load_camels_us_attributes fs data_dir basins = Ok full.
Proof.
  intros Hfull Hidx Hu Hrect.
  destruct basins as [| b basins]; [exact Hfull |].
  unfold load_camels_us_attributes in *.
  destruct (joined_attributes fs data_dir) as [joined | e]; [| discriminate Hfull].
  cbn [bind] in *.
  destruct (derive_huc joined) as [derived | e]; [| discriminate Hfull].
  cbn [bind] in *. injection Hfull as ->.
  assert (Hall : forall l, In l (map SStr (b :: basins)) -> label_in l (index full) = true).
  { intros l Hl. apply label_in_In. rewrite Hidx. exact Hl. }
  assert (Hno : existsb (fun b' => negb (label_in (SStr b') (index full))) (b :: basins)
                = false).
  { destruct (existsb _ (b :: basins)) eqn:E; [| reflexivity].
    apply existsb_exists in E. destruct E as (b' & Hb' & E).
    rewrite (Hall (SStr b') (in_map SStr _ _ Hb')) in E. discriminate E. }
  rewrite Hno. unfold loc.
  assert (Hin : forallb (fun l => label_in l (index full)) (map SStr (b :: basins)) = true).
  { apply forallb_forall. exact Hall. }
  rewrite Hin. destruct full as [idx cols]. cbn [index columns] in *. subst idx.
  f_equal. f_equal.
  - apply take_all_in_order; [exact Hu | apply length_map].
  - rewrite <- (table_eta cols) at 2. apply map_ext_in. intros nc Hnc. f_equal.
    apply take_all_in_order; [exact Hu |].
    unfold rectangular in Hrect. rewrite Forall_forall in Hrect.
    pose proof (Hrect _ Hnc) as Hlen. cbv beta in Hlen.
    etransitivity; [exact Hlen | apply length_map].
Qed.

Lemma union_step_prefix (xs acc : list scalar) :
  exists ext,
    fold_left (fun acc x => if label_in x acc then acc else acc ++ [x]) xs acc
    = (acc ++ ext)%list.
Proof.
  revert acc. induction xs as [| x xs IH]; intros acc; simpl.
  - exists []. symmetry. apply app_nil_r.
  - destruct (label_in x acc); [apply IH |].
    destruct (IH (acc ++ [x])%list) as (ext & ->).
    exists (x :: ext). rewrite <- app_assoc. reflexivity.
Qed.

Lemma union_step_fresh (xs acc : list scalar) :
  unique xs = true -> (forall x, In x xs -> label_in x acc = false) ->
  fold_left (fun acc x => if label_in x acc then acc else acc ++ [x]) xs acc
  = (acc ++ xs)%list.
Proof.
  revert acc. induction xs as [| x xs IH]; intros acc Hu Hfresh; simpl.
  - symmetry. apply app_nil_r.
  - simpl in Hu. apply andb_true_iff in Hu. destruct Hu as (Hx & Hu).
    apply negb_true_iff in Hx.
    rewrite (Hfresh x (or_introl eq_refl)), IH; [rewrite <- app_assoc; reflexivity | exact Hu |].
    intros x' Hx'. unfold label_in. rewrite existsb_app. simpl.
    fold (label_in x' acc). rewrite (Hfresh x' (or_intror Hx')), orb_false_r.
    destruct (scalar_eqb x' x) eqn:E; [| reflexivity].
    apply scalar_eqb_eq in E. subst x'. apply label_in_In in Hx'.
    rewrite Hx' in Hx. discriminate Hx.
Qed.

Lemma unique_app_disjoint (a b : list scalar) (l : scalar) :
  unique (a ++ b) = true -> In l b -> ~ In l a.
Proof.
  induction a as [| x a IH]; simpl; intros Hu Hb; [tauto |].
  apply andb_true_iff in Hu. destruct Hu as (Hx & Hu). apply negb_true_iff in Hx.
  intros [-> | Ha]; [| apply (IH Hu Hb Ha)].
  assert (Hin : label_in l (a ++ b) = true)
    by (apply label_in_In, in_or_app; right; exact Hb).
  rewrite Hin in Hx. discriminate Hx.
Qed.

Lemma concat_axis1_index_order (d0 : DataFrame scalar) (rest : list (DataFrame scalar))
    (joined : DataFrame scalar) :
  concat_axis1 (d0 :: rest) = Ok joined ->
  exists ext,
    index joined = (index d0 ++ ext)%list /\
    forall l, In l ext -> ~ In l (index d0) /\ exists d, In d rest /\ In l (index d).
Proof.
  intros Hcat. pose proof (concat_axis1_index_from _ _ Hcat) as Hfrom.
  unfold concat_axis1 in Hcat. destruct (forallb _ rest).
  - injection Hcat as <-. exists []. split; [symmetry; apply app_nil_r |].
    intros l [].
  - destruct (forallb _ (d0 :: rest)) eqn:Eu; [| discriminate Hcat].
    injection Hcat as <-. cbn [index] in *.
    set (U := union_indexes _) in *.
    assert (Hu0 : unique (index d0) = true).
    { rewrite forallb_forall in Eu. apply Eu. left. reflexivity. }
    assert (Hu : unique U = true).
    { unfold U, union_indexes. apply union_step_unique. reflexivity. }
    assert (Hsplit : exists ext, U = (index d0 ++ ext)%list).
    { unfold U, union_indexes. cbn [map List.concat]. rewrite fold_left_app.
      rewrite (union_step_fresh (index d0) [] Hu0) by (intros; reflexivity).
      apply union_step_prefix. }
    destruct Hsplit as (ext & Hext). exists ext. split; [exact Hext |].
    intros l Hl. rewrite Hext in Hu.
    pose proof (unique_app_disjoint _ _ _ Hu Hl) as Hnot. split; [exact Hnot |].
    destruct (Hfrom l) as (d & Hd & Hld).
    { rewrite Hext. apply in_or_app. right. exact Hl. }
    destruct Hd as [<- | Hd]; [contradiction (Hnot Hld) |].
    exists d. split; assumption.
Qed.

(** X21. The rows of the first attribute file come first: the index of
    the table returned without a filter starts with the [gauge_id]s of
    the first file read, in the order of that file, and goes on with
    labels that the first file lacks and a later file has. *)
Theorem attributes_first_file_rows_first
    (fs : node) (data_dir : path) (df : DataFrame scalar) :
  load_camels_us_attributes fs data_dir [] = Ok df ->
  exists d0 rest ext,
    mapM (read_attribute_file fs)
      (glob_here fnmatch "camels_*.txt" (joinpath data_dir "camels_attributes_v2.0")
         (resolve fs (joinpath data_dir "camels_attributes_v2.0")))
    = Ok (d0 :: rest) /\
    index df = (index d0 ++ ext)%list /\
    forall l, In l ext -> ~ In l (index d0) /\ exists d, In d rest /\ In l (index d).
Proof.
  intros H.
  destruct (load_camels_us_attributes_inv _ _ _ _ H)
    as (joined & derived & Hj & Hd & _ & Hidx & _).
  destruct (joined_attributes_inv _ _ _ Hj) as (_ & dfs & Hdfs & Hcat).
  destruct (derive_huc_spec _ _ Hd) as (_ & _ & Hdidx & _).
  destruct dfs as [| d0 rest]; [discriminate Hcat |].
  destruct (concat_axis1_index_order _ _ _ Hcat) as (ext & Hext & Hnew).
  exists d0, rest, ext. split; [exact Hdfs |].
  unfold rows_selected in Hidx. rewrite Hidx, Hdidx. split; assumption.
Qed.

(** ** What is found is what is read *)

(** X22. A loader takes the first path the search lists for the file and
    never tries another: when that path is a directory whose name
    matches, the forcing loader and the discharge loader raise
    [IsADirectoryError], whatever the other matches are; and the
    discharge loader is the reading of that first path. *)
Theorem loaders_open_the_first_match :
  (forall fs data_dir basin forcings first others es,
      path_is_dir fs (joinpath (joinpath data_dir "basin_mean_forcing") forcings) = true ->
      glob_rec fnmatch fs (basin ++ "_*_forcing_leap.txt")%string
        (joinpath (joinpath data_dir "basin_mean_forcing") forcings)
      = first :: others ->
      resolve fs first = Some (Dir es) ->
      load_camels_us_forcings fs data_dir basin forcings
      = Raise (IsADirectoryError (path_str first))) /\
  (forall fs data_dir basin area first others,
      glob_rec fnmatch fs (basin ++ "_streamflow_qc.txt")%string
        (joinpath data_dir "usgs_streamflow")
      = first :: others ->
      load_camels_us_discharge fs data_dir basin area
      = (text <- open_read fs first ;;
         df <- read_csv discharge_csv text ;;
         df <- set_date_index df ;;
         normalize_discharge df area) /\
      (forall es,
          resolve fs first = Some (Dir es) ->
          load_camels_us_discharge fs data_dir basin area
          = Raise (IsADirectoryError (path_str first)))).
Proof.
  split.
  - intros fs data_dir basin forcings first others es Hdir Hglob Hres.
    unfold load_camels_us_forcings. rewrite Hdir, Hglob. cbn [negb].
    unfold open_read. rewrite Hres. reflexivity.
  - intros fs data_dir basin area first others Hglob.
    assert (Hload : load_camels_us_discharge fs data_dir basin area
                    = (text <- open_read fs first ;;
                       df <- read_csv discharge_csv text ;;
                       df <- set_date_index df ;;
                       normalize_discharge df area)).
    { unfold load_camels_us_discharge. rewrite Hglob. reflexivity. }
    split; [exact Hload |].
    intros es Hres. rewrite Hload. unfold open_read. rewrite Hres. reflexivity.
Qed.

(** X23. The dates need the three columns: with the area read and the
    table parsed, the forcing loader raises [AttributeError] for the
    first of the columns Year, Mnth and Day, in this order, that the
    table of the file lacks. *)
Theorem forcings_need_year_month_day
    (fs : node) (data_dir : path) (basin forcings : string)
    (first : path) (others : list path) (text : string) (area : Z) (t : Table) :
  let forcing_path := joinpath (joinpath data_dir "basin_mean_forcing") forcings in
  let no_attribute (name : string) : result (DataFrame Timestamp * Z) :=
    Raise (AttributeError ("'DataFrame' object has no attribute '" ++ name ++ "'")%string) in
  path_is_dir fs forcing_path = true ->
  glob_rec fnmatch fs (basin ++ "_*_forcing_leap.txt")%string forcing_path
  = first :: others ->
  open_read fs first = Ok text ->
  py_int (third_line text) = Some area ->
  read_csv forcing_csv (after_third_line text) = Ok t ->
  (columns_named "Year" t = [] ->
   load_camels_us_forcings fs data_dir basin forcings = no_attribute "Year") /\
  (columns_named "Year" t <> [] -> columns_named "Mnth" t = [] ->
   load_camels_us_forcings fs data_dir basin forcings = no_attribute "Mnth") /\
  (columns_named "Year" t <> [] -> columns_named "Mnth" t <> [] ->
   columns_named "Day" t = [] ->
   load_camels_us_forcings fs data_dir basin forcings = no_attribute "Day").
Proof.
  intros forcing_path no_attribute Hdir Hglob Htext Harea Ht.
  assert (Hload : load_camels_us_forcings fs data_dir basin forcings
                  = (df <- set_date_index t ;; Ok (df, area))).
  { unfold load_camels_us_forcings. fold forcing_path. rewrite Hdir, Hglob. cbn [negb].
    rewrite Htext. cbn [bind]. unfold read_forcing_file.
    unfold third_line in Harea. unfold after_third_line in Ht.
    destruct (readline text) as [l1 r1]. cbn [snd] in Harea, Ht.
    destruct (readline r1) as [l2 r2]. cbn [snd] in Harea, Ht.
    destruct (readline r2) as [l3 r3]. cbn [fst snd] in Harea, Ht.
    unfold int_of_line. rewrite Harea. cbn [bind]. rewrite Ht. reflexivity. }
  rewrite Hload. unfold set_date_index, getattr_column, no_attribute.
  split; [| split].
  - intros Hy. rewrite Hy. reflexivity.
  - intros Hy Hm. destruct (columns_named "Year" t); [contradiction Hy; reflexivity |].
    cbn [bind]. rewrite Hm. reflexivity.
  - intros Hy Hm Hd.
    destruct (columns_named "Year" t); [contradiction Hy; reflexivity |].
    destruct (columns_named "Mnth" t); [contradiction Hm; reflexivity |].
    cbn [bind]. rewrite Hd. reflexivity.
Qed.

(** ** The region code of a basin without one *)

Lemma In_columns_named (name : string) (t : Table) (c : column) :
  In (name, c) t -> In c (columns_named name t).
Proof.
  induction t as [| [n c'] t IH]; simpl; [tauto |].
  intros [Heq | Hin].
  - injection Heq as -> ->. rewrite String.eqb_refl. left. reflexivity.
  - destruct (String.eqb n name); [right |]; apply IH; exact Hin.
Qed.

(** X24. A basin without a region code gets the text ["nan"]: when the
    attribute file that has the column [huc_02] lacks a basin that
    another file has, the table returned without a filter holds, in the
    row of that basin, the text ["nan"] in [huc], with no exception. *)
Theorem huc_of_basin_without_region
    (fs : node) (data_dir : path) (df : DataFrame scalar) :
  load_camels_us_attributes fs data_dir [] = Ok df ->
  exists dfs,
    mapM (read_attribute_file fs)
      (glob_here fnmatch "camels_*.txt" (joinpath data_dir "camels_attributes_v2.0")
         (resolve fs (joinpath data_dir "camels_attributes_v2.0")))
    = Ok dfs /\
    forall d c k l col,
      In d dfs -> In ("huc_02", c) (columns d) ->
      nth_error (index df) k = Some l -> label_in l (index d) = false ->
      In col (columns_named "huc" (columns df)) ->
      nth_error col k = Some (SStr "nan").
Proof.
  intros H.
  destruct (load_camels_us_attributes_inv _ _ _ _ H)
    as (joined & derived & Hj & Hd & _ & Hidx & Hcols).
  destruct (joined_attributes_inv _ _ _ Hj) as (_ & dfs & Hdfs & Hcat).
  destruct (derive_huc_spec _ _ Hd) as (huc_02 & Hh & Hdidx & Hdcols).
  exists dfs. split; [exact Hdfs |].
  unfold rows_selected in Hidx, Hcols. rewrite table_eta in Hcols.
  rewrite Hidx, Hdidx, Hcols, Hdcols.
  intros d c k l col Hd' Hc Hk Hl Hcol.
  rewrite columns_named_drop_other in Hcol by discriminate.
  destruct (columns_named_set_column_all "huc" (map huc_of huc_02) (columns joined))
    as (_ & Hall).
  rewrite (Hall col Hcol).
  destruct (concat_axis1_cells _ _ _ Hcat Hd') as [(Hsame & _) | (_ & Hin)].
  - rewrite Hsame in Hk. apply nth_error_In, label_in_In in Hk.
    rewrite Hk in Hl. discriminate Hl.
  - pose proof (In_columns_named _ _ _ (Hin _ _ Hc)) as Hnamed.
    unfold getitem_column in Hh.
    destruct (columns_named "huc_02" (columns joined)) as [| c0 [| c1 cs]];
      try discriminate Hh.
    injection Hh as <-. destruct Hnamed as [-> | []].
    rewrite (map_nth_error huc_of _ _ (reindex_column_missing _ _ _ _ _ Hk Hl)).
    reflexivity.
Qed.

End Loaders.

(** ** The loaders on the example trees *)

(** C1. The discharge loader converts by the formula
    [28316846.592 * QObs_cfs * 86400 / (area_m2 * 1e6)], evaluated in
    binary64: wherever the value of the formula is not below zero, the
    series holds that value for the cell at the same position, with and
    without copy-on-write. For the area
    831000000 and the discharge 300 of the example file the value returned
    is within 1e-6 (in fact within 1e-15) of the rational
    28316846.592 * 300 * 86400 / (831000000 * 1e6). The divisor, which the
    source forms as an integer, is for every area below 2^53 in absolute
    value the double that the product of the area and [1e6] in doubles
    is. The result is a
    function of the inputs. *)
Theorem discharge_conversion_formula :
  (forall fnmatch read_csv float_repr timestamp_in_bounds copy_on_write
          fs data_dir basin area s,
      load_camels_us_discharge fnmatch read_csv float_repr timestamp_in_bounds
        copy_on_write fs data_dir basin area = Ok s ->
      exists t qobs,
        discharge_table fnmatch read_csv fs data_dir basin t /\
        getattr_column "QObs" t = Ok qobs /\
        List.length (s_values s) = List.length qobs /\
        forall i x, nth_error qobs i = Some x ->
          exists q, cell_float x = Some q /\
            (flt (QObs_mm_per_day q area) fzero = false ->
             nth_error (s_values s) i = Some (SFloat (QObs_mm_per_day q area)))) /\
  (exists r rq,
      load_camels_us_discharge glob_fnmatch plain_read_csv integral_float_repr ns_in_bounds
        false example_tree example_dir "01013500" 831000000
      = Ok (mkSeries [midnight 1980 1 1; midnight 1980 1 2] [SFloat r; SFloat nan]) /\
      (exists v,
          load_camels_us_discharge glob_fnmatch plain_read_csv integral_float_repr
            ns_in_bounds true example_tree example_dir "01013500" 831000000
          = Ok (mkSeries [midnight 1980 1 1; midnight 1980 1 2] [SFloat r; SFloat v])) /\
      r = QObs_mm_per_day (float_of_Z 300) 831000000 /\
      float_to_Q r = Some rq /\
      (Qabs (rq - spec_example_value) < 1 # 1000000)%Q /\
      (Qabs (rq - spec_example_value) < 1 # 1000000000000000)%Q) /\
  (forall q area,
      - 2 ^ 53 < area < 2 ^ 53 ->
      QObs_mm_per_day q area
      = fdiv (fmul (fmul cfs_factor q) seconds_per_day) (fmul (float_of_Z area) million)) /\
  (forall fnmatch read_csv float_repr timestamp_in_bounds copy_on_write
          fs data_dir basin area r1 r2,
      r1 = load_camels_us_discharge fnmatch read_csv float_repr timestamp_in_bounds
             copy_on_write fs data_dir basin area ->
      r2 = load_camels_us_discharge fnmatch read_csv float_repr timestamp_in_bounds
             copy_on_write fs data_dir basin area ->
      r1 = r2).
Proof.
  split; [| split; [| split]].
  - intros fnmatch read_csv float_repr timestamp_in_bounds copy_on_write
      fs data_dir basin area s H.
    destruct (load_camels_us_discharge_spec _ _ _ _ _ _ _ _ _ _ H)
      as (t & df & qobs & Ht & _ & Hq & _ & Hlen & Hcells).
    exists t, qobs. repeat split; try assumption.
    intros i x Hi. destruct (Hcells i x Hi) as (q & Hcell & Hnth).
    exists q. split; [exact Hcell |].
    intros Hlt. rewrite (after_line_140_not_below _ _ Hlt) in Hnth. exact Hnth.
  - eexists. eexists.
    split; [vm_compute; reflexivity |].
    split; [eexists; vm_compute; reflexivity |].
    split; [vm_compute; reflexivity |].
    split; [vm_compute; reflexivity |].
    split; vm_compute; reflexivity.
  - exact QObs_mm_per_day_divisor.
  - intros. congruence.
Qed.

(** The general part of C1 on the example file: the first value of the
    series is the value of the formula for the first cell. *)
Lemma discharge_conversion_formula_witness :
  exists s,
    load_camels_us_discharge glob_fnmatch plain_read_csv integral_float_repr ns_in_bounds false
      example_tree example_dir "01013500" 831000000 = Ok s /\
    nth_error (s_values s) 0 = Some (SFloat (QObs_mm_per_day (float_of_Z 300) 831000000)).
Proof.
  eexists.
  assert (H : load_camels_us_discharge glob_fnmatch plain_read_csv integral_float_repr
                ns_in_bounds false example_tree example_dir "01013500" 831000000 = Ok _)
    by (vm_compute; reflexivity).
  split; [exact H |].
  destruct (proj1 discharge_conversion_formula _ _ _ _ _ _ _ _ _ _ H)
    as (t & qobs & Ht & Hq & _ & Hcells).
  destruct Ht as (file_path & others & text & Hglob & Hopen & Hcsv).
  vm_compute in Hglob. injection Hglob as <- <-.
  vm_compute in Hopen. injection Hopen as <-.
  vm_compute in Hcsv. injection Hcsv as <-.
  vm_compute in Hq. injection Hq as <-.
  destruct (Hcells 0%nat (SFloat (float_of_Z 300)) eq_refl) as (q & Hcell & Hnth).
  injection Hcell as <-. apply Hnth. vm_compute. reflexivity.
Defined.

(** The claim C2 as stated fails, also where the assignment of line 140
    reaches the frame (pandas without copy-on-write), because line 140
    looks at the converted value. With the area of the specification's
    example, the negative input -2^-1074 converts to the zero of negative
    sign, which is not below zero, and is returned as it is; with a
    negative area the negative input -999 of the example file converts to
    a positive value and is kept, while the input 300 is replaced by
    NaN. *)
Lemma negative_discharge_not_flagged :
  (getattr_column "QObs" tiny_discharge_table = Ok [SFloat (S754_finite true 1 (-1074))] /\
   flt (S754_finite true 1 (-1074)) fzero = true /\
   load_camels_us_discharge glob_fnmatch (fun _ _ => Ok tiny_discharge_table)
     integral_float_repr ns_in_bounds false example_tree example_dir "01013500" 831000000
   = Ok (mkSeries [midnight 1980 1 1] [SFloat (S754_zero true)])) /\
  (bind (plain_read_csv discharge_csv example_discharge_text) (getattr_column "QObs")
   = Ok [SFloat (float_of_Z 300); SFloat (SFopp (float_of_Z 999))] /\
   flt (SFopp (float_of_Z 999)) fzero = true /\
   load_camels_us_discharge glob_fnmatch plain_read_csv integral_float_repr ns_in_bounds false
     example_tree example_dir "01013500" (-1)
   = Ok (mkSeries [midnight 1980 1 1; midnight 1980 1 2]
           [SFloat nan; SFloat (S754_finite false 5125709957700259 (-21))])).
Proof.
  repeat split; vm_compute; reflexivity.
Qed.

Lemma discharge_negative_results_are_nan_witness :
  exists s,
    load_camels_us_discharge glob_fnmatch plain_read_csv integral_float_repr ns_in_bounds false
      example_tree example_dir "01013500" 831000000 = Ok s /\
    s_index s = [midnight 1980 1 1; midnight 1980 1 2] /\
    List.length (s_values s) = 2%nat /\
    nth_error (s_values s) 1 = Some (SFloat nan).
Proof.
  eexists.
  assert (H : load_camels_us_discharge glob_fnmatch plain_read_csv integral_float_repr
                ns_in_bounds false example_tree example_dir "01013500" 831000000 = Ok _)
    by (vm_compute; reflexivity).
  split; [exact H |].
  destruct (discharge_negative_results_are_nan _ _ _ _ _ _ _ _ _ _ eq_refl H)
    as (t & df & qobs & Ht & Hdf & Hq & Hidx & Hlen & _ & Hcells).
  destruct Ht as (file_path & others & text & Hglob & Hopen & Hcsv).
  vm_compute in Hglob. injection Hglob as <- <-.
  vm_compute in Hopen. injection Hopen as <-.
  vm_compute in Hcsv. injection Hcsv as <-.
  vm_compute in Hdf. injection Hdf as <-.
  vm_compute in Hq. injection Hq as <-.
  split; [exact Hidx |]. split; [exact Hlen |].
  destruct (Hcells 1%nat (SFloat (SFopp (float_of_Z 999))) eq_refl)
    as (q & Hcell & Hneg & _ & _).
  injection Hcell as <-. apply Hneg. vm_compute. reflexivity.
Defined.

(** C3. The code against the claim and against its own comment on line
    47, "convert huc column to double digit strings". When the attribute
    file that has the column [huc_02] lacks a basin that another attribute
    file has, the outer join of line 46 turns the column into floats with
    a NaN, and [str(x).zfill(2)] makes of them the texts ["1.0"] and
    ["nan"], of three characters each, where the claim has the two
    characters ["01"] for the region 1. No exception is raised. *)
Theorem huc_longer_than_two_characters :
  load_camels_us_attributes glob_fnmatch plain_read_csv integral_float_repr
    partial_huc_tree example_dir []
  = Ok (mkDataFrame [SStr "01013500"; SStr "01022500"]
          [("gauge_lat", [SInt 47; SInt 44]); ("elev_mean", [SInt 250; SInt 92]);
           ("huc", [SStr "1.0"; SStr "nan"])]) /\
  String.length "1.0" = 3%nat /\ String.length "nan" = 3%nat /\
  zfill 2 (py_str_int 1) = "01".
Proof.
  repeat split; vm_compute; reflexivity.
Qed.

(** A region code of three digits keeps its three digits: [zfill] never
    cuts a text. *)
Lemma huc_of_three_digits :
  load_camels_us_attributes glob_fnmatch plain_read_csv integral_float_repr
    wide_huc_tree example_dir []
  = Ok (mkDataFrame [SStr "01013500"] [("huc", [SStr "100"])]).
Proof. vm_compute. reflexivity. Qed.

Lemma huc_is_zero_padded_text_witness :
  exists df,
    load_camels_us_attributes glob_fnmatch plain_read_csv integral_float_repr
      example_tree example_dir ["01022500"] = Ok df /\
    columns_named "huc_02" (columns df) = [] /\
    forall col, In col (columns_named "huc" (columns df)) -> col = [SStr "01"].
Proof.
  eexists.
  assert (H : load_camels_us_attributes glob_fnmatch plain_read_csv integral_float_repr
                example_tree example_dir ["01022500"] = Ok _)
    by (vm_compute; reflexivity).
  split; [exact H |].
  destruct (huc_is_zero_padded_text _ _ _ _ _ _ _ H)
    as (joined & huc_02 & Hj & Hh & Hdrop & _ & Hcol & _).
  vm_compute in Hj. injection Hj as <-.
  vm_compute in Hh. injection Hh as <-.
  split; [exact Hdrop |].
  intros col Hin. rewrite (Hcol col Hin). vm_compute. reflexivity.
Defined.

Lemma attributes_basin_filter_witness :
  load_camels_us_attributes glob_fnmatch plain_read_csv integral_float_repr
    example_tree example_dir ["01022500"; "01013499"]
  = Raise (ValueError "Some basins are missing static attributes.") /\
  exists df,
    load_camels_us_attributes glob_fnmatch plain_read_csv integral_float_repr
      example_tree example_dir ["01022500"; "01013500"] = Ok df /\
    index df = [SStr "01022500"; SStr "01013500"] /\
    row df 0
    = (Some (SStr "01022500"),
       [Some (SStr "Narraguagus River at Cherryfield, Maine"); Some (SInt 44);
        Some (SInt 92); Some (SStr "01")]).
Proof.
  assert (Hfull : load_camels_us_attributes glob_fnmatch plain_read_csv integral_float_repr
                    example_tree example_dir [] = Ok _)
    by (vm_compute; reflexivity).
  split.
  - apply (proj1 (attributes_basin_filter _ _ _ _ _ ["01022500"; "01013499"] _
                    ltac:(discriminate) Hfull)).
    exists "01013499". split; [right; left; reflexivity | vm_compute; reflexivity].
  - destruct (proj2 (attributes_basin_filter _ _ _ _ _ ["01022500"; "01013500"] _
                       ltac:(discriminate) Hfull))
      as (df & Hdf & _ & _ & Hunique).
    { intros b [<- | [<- | []]]; vm_compute; reflexivity. }
    exists df. split; [exact Hdf |].
    destruct (Hunique eq_refl) as (Hidx & Hrows).
    split; [exact Hidx |].
    destruct (Hrows ltac:(repeat constructor) 0%nat "01022500" eq_refl) as (i & Hi & Hrow).
    rewrite Hrow. destruct i as [| [| i]]; vm_compute in Hi.
    + discriminate Hi.
    + vm_compute. reflexivity.
    + destruct i; discriminate Hi.
Defined.

Lemma forcings_area_is_third_line_witness :
  third_line example_forcing_text = " 831000000
" /\
  exists df area,
    load_camels_us_forcings glob_fnmatch plain_read_csv integral_float_repr ns_in_bounds
      example_tree example_dir "01013500" "daymet" = Ok (df, area) /\
    area = 831000000.
Proof.
  split; [reflexivity |].
  assert (Hload : exists df area,
             load_camels_us_forcings glob_fnmatch plain_read_csv integral_float_repr
               ns_in_bounds example_tree example_dir "01013500" "daymet" = Ok (df, area))
    by (eexists; eexists; vm_compute; reflexivity).
  destruct Hload as (df & area & H).
  exists df, area. split; [exact H |].
  destruct (forcings_area_is_third_line _ _ _ _ _ _ _ _ _ _ H)
    as (file_path & others & text & t & Hglob & Hopen & _ & Hverbatim & _).
  vm_compute in Hglob. injection Hglob as <- <-.
  vm_compute in Hopen. injection Hopen as <-.
  apply (Hverbatim " " (String "010" EmptyString) 831000000); reflexivity.
Defined.

Lemma date_index_from_year_month_day_witness :
  (exists df area,
      load_camels_us_forcings glob_fnmatch plain_read_csv integral_float_repr ns_in_bounds
        example_tree example_dir "01013500" "daymet" = Ok (df, area) /\
      getattr_column "Year" (columns df) = Ok [SInt 1980; SInt 1980] /\
      nth_error (index df) 1 = Some (midnight 1980 1 2)) /\
  (exists s,
      load_camels_us_discharge glob_fnmatch plain_read_csv integral_float_repr ns_in_bounds false
        example_tree example_dir "01013500" 831000000 = Ok s /\
      nth_error (s_index s) 1 = Some (midnight 1980 1 2)).
Proof.
  split.
  - eexists. eexists.
    assert (H : load_camels_us_forcings glob_fnmatch plain_read_csv integral_float_repr
                  ns_in_bounds example_tree example_dir "01013500" "daymet" = Ok (_, _))
      by (vm_compute; reflexivity).
    split; [exact H |].
    destruct (proj1 (date_index_from_year_month_day _ _ _ _ false) _ _ _ _ _ _ H)
      as (t & year & mnth & day & Ht & Hy & Hm & Hd & Hy' & _ & _ & Hdates).
    destruct Ht as (file_path & others & text & Hglob & Hopen & Hcsv).
    vm_compute in Hglob. injection Hglob as <- <-.
    vm_compute in Hopen. injection Hopen as <-.
    vm_compute in Hcsv. injection Hcsv as <-.
    vm_compute in Hy. injection Hy as <-.
    vm_compute in Hm. injection Hm as <-.
    vm_compute in Hd. injection Hd as <-.
    split; [exact Hy' |].
    destruct Hdates as (_ & _ & Hrows).
    apply (Hrows 1%nat 1980 1 2); reflexivity.
  - eexists.
    assert (H : load_camels_us_discharge glob_fnmatch plain_read_csv integral_float_repr
                  ns_in_bounds false example_tree example_dir "01013500" 831000000 = Ok _)
      by (vm_compute; reflexivity).
    split; [exact H |].
    destruct (proj2 (date_index_from_year_month_day _ _ _ _ false) _ _ _ _ _ H)
      as (t & year & mnth & day & Ht & Hy & Hm & Hd & Hdates).
    destruct Ht as (file_path & others & text & Hglob & Hopen & Hcsv).
    vm_compute in Hglob. injection Hglob as <- <-.
    vm_compute in Hopen. injection Hopen as <-.
    vm_compute in Hcsv. injection Hcsv as <-.
    vm_compute in Hy. injection Hy as <-.
    vm_compute in Hm. injection Hm as <-.
    vm_compute in Hd. injection Hd as <-.
    destruct Hdates as (_ & _ & Hrows).
    apply (Hrows 1%nat 1980 1 2); reflexivity.
Defined.

Lemma discharge_missing_file_not_found_witness :
  path_exists bare_tree (joinpath example_dir "usgs_streamflow") = false /\
  load_camels_us_discharge glob_fnmatch plain_read_csv integral_float_repr ns_in_bounds false
    bare_tree example_dir "01013500" 831000000
  = Raise (FileNotFoundError "No file for Basin 01013500 at []") /\
  path_exists example_tree (joinpath example_dir "usgs_streamflow") = true /\
  load_camels_us_discharge glob_fnmatch plain_read_csv integral_float_repr ns_in_bounds false
    example_tree example_dir "01013501" 831000000
  = Raise (FileNotFoundError "No file for Basin 01013501 at []").
Proof.
  pose proof (discharge_missing_file_not_found glob_fnmatch plain_read_csv
                integral_float_repr ns_in_bounds false bare_tree example_dir
                "01013500" 831000000) as Hdir.
  pose proof (discharge_missing_file_not_found glob_fnmatch plain_read_csv
                integral_float_repr ns_in_bounds false example_tree example_dir
                "01013501" 831000000) as Hfile.
  cbv zeta in Hdir, Hfile.
  destruct Hdir as (_ & _ & Hdir & _).
  destruct Hfile as (_ & Hfile & _).
  split; [reflexivity |].
  split; [apply Hdir; reflexivity |].
  split; [reflexivity |].
  apply Hfile. intros n E. vm_compute in E. injection E as <-. vm_compute. reflexivity.
Defined.

Lemma forcings_directory_and_file_errors_witness :
  load_camels_us_forcings glob_fnmatch plain_read_csv integral_float_repr ns_in_bounds
    example_tree example_dir "01013500" "nldas"
  = Raise (OSError "CAMELS_US/basin_mean_forcing/nldas does not exist") /\
  load_camels_us_forcings glob_fnmatch plain_read_csv integral_float_repr ns_in_bounds
    example_tree example_dir "01013501" "daymet"
  = Raise (FileNotFoundError "No file for Basin 01013501 at []") /\
  load_camels_us_forcings glob_fnmatch plain_read_csv integral_float_repr ns_in_bounds
    example_tree example_dir "01013500" "daymet"
  = read_forcing_file plain_read_csv integral_float_repr ns_in_bounds example_forcing_text.
Proof.
  pose proof (forcings_directory_and_file_errors glob_fnmatch plain_read_csv
                integral_float_repr ns_in_bounds example_tree example_dir
                "01013500" "nldas") as Hdir.
  pose proof (forcings_directory_and_file_errors glob_fnmatch plain_read_csv
                integral_float_repr ns_in_bounds example_tree example_dir
                "01013501" "daymet") as Hnone.
  pose proof (forcings_directory_and_file_errors glob_fnmatch plain_read_csv
                integral_float_repr ns_in_bounds example_tree example_dir
                "01013500" "daymet") as Hfirst.
  cbv zeta in Hdir, Hnone, Hfirst.
  destruct Hdir as (_ & Hdir & _).
  destruct Hnone as (_ & _ & Hnone & _).
  destruct Hfirst as (_ & _ & _ & Hfirst).
  split; [apply Hdir; reflexivity |].
  split.
  { apply Hnone; [reflexivity |].
    intros n E. vm_compute in E. injection E as <-. vm_compute. reflexivity. }
  rewrite (Hfirst ["CAMELS_US"; "basin_mean_forcing"; "daymet"; "01";
                   "01013500_lump_cida_forcing_leap.txt"] []);
    [reflexivity | reflexivity | vm_compute; reflexivity].
Defined.

Lemma attributes_empty_list_is_no_filter_witness :
  exists df,
    load_camels_us_attributes glob_fnmatch plain_read_csv integral_float_repr
      example_tree example_dir [] = Ok df /\
    In (SStr "01022500") (index df) /\
    index df <> [].
Proof.
  eexists.
  assert (H : load_camels_us_attributes glob_fnmatch plain_read_csv integral_float_repr
                example_tree example_dir [] = Ok _)
    by (vm_compute; reflexivity).
  split; [exact H |].
  destruct (proj2 (attributes_empty_list_is_no_filter glob_fnmatch plain_read_csv
                     integral_float_repr example_tree example_dir) _ H)
    as (dfs & joined & Hdfs & _ & _ & Hlabels & Hrows).
  vm_compute in Hdfs. injection Hdfs as <-.
  split.
  - eapply Hlabels; [left; reflexivity | right; left; reflexivity].
  - apply Hrows. eexists. split; [left; reflexivity | discriminate].
Defined.

Lemma attributes_without_files_concat_error_witness :
  load_camels_us_attributes glob_fnmatch plain_read_csv integral_float_repr
    bare_tree example_dir ["01013500"]
  = Raise (ValueError "No objects to concatenate").
Proof.
  apply (attributes_without_files_concat_error glob_fnmatch plain_read_csv
           integral_float_repr bare_tree example_dir ["01013500"]).
  - reflexivity.
  - intros es E. vm_compute in E. injection E as <-. vm_compute. reflexivity.
Defined.

(** ** The further statements on the example trees *)

Lemma attributes_folder_required_witness :
  load_camels_us_attributes glob_fnmatch plain_read_csv integral_float_repr
    missing_attributes_tree example_dir ["01013500"]
  = Raise (RuntimeError "Attribute folder not found at CAMELS_US/camels_attributes_v2.0") /\
  exists es,
    resolve example_tree (joinpath example_dir "camels_attributes_v2.0") = Some (Dir es) /\
    existsb (fun e => glob_fnmatch (fst e) "camels_*.txt") es = true.
Proof.
  split.
  - apply (proj1 (attributes_folder_required glob_fnmatch plain_read_csv integral_float_repr
                    missing_attributes_tree example_dir ["01013500"])).
    reflexivity.
  - assert (H : load_camels_us_attributes glob_fnmatch plain_read_csv integral_float_repr
                  example_tree example_dir [] = Ok _)
      by (vm_compute; reflexivity).
    apply (proj2 (attributes_folder_required glob_fnmatch plain_read_csv integral_float_repr
                    example_tree example_dir []) _ H).
Defined.

Lemma attributes_first_failing_file_witness :
  load_camels_us_attributes glob_fnmatch plain_read_csv integral_float_repr
    unkeyed_attributes_tree example_dir ["01013500"]
  = Raise (KeyError "gauge_id").
Proof.
  eapply (proj2 (proj2 (attributes_first_failing_file glob_fnmatch plain_read_csv
                          integral_float_repr unkeyed_attributes_tree example_dir
                          ["01013500"]
                          [["CAMELS_US"; "camels_attributes_v2.0"; "camels_name.txt"]]
                          ["CAMELS_US"; "camels_attributes_v2.0"; "camels_soil.txt"]
                          [["CAMELS_US"; "camels_attributes_v2.0"; "camels_topo.txt"]]
                          _ _))).
  - vm_compute. reflexivity.
  - vm_compute. reflexivity.
  - vm_compute. reflexivity.
  Unshelve.
  + vm_compute. reflexivity.
  + intros p [<- | []]. eexists. vm_compute. reflexivity.
Defined.

Lemma attributes_column_labels_witness :
  exists df,
    load_camels_us_attributes glob_fnmatch plain_read_csv integral_float_repr
      example_tree example_dir ["01022500"] = Ok df /\
    column_labels (columns df) = ["gauge_name"; "gauge_lat"; "elev_mean"; "huc"].
Proof.
  eexists.
  assert (H : load_camels_us_attributes glob_fnmatch plain_read_csv integral_float_repr
                example_tree example_dir ["01022500"] = Ok _)
    by (vm_compute; reflexivity).
  split; [exact H |].
  destruct (attributes_column_labels _ _ _ _ _ _ _ H) as (dfs & Hdfs & Hlabels).
  vm_compute in Hdfs. injection Hdfs as <-.
  rewrite Hlabels. vm_compute. reflexivity.
Defined.

Lemma attributes_need_huc_02_witness :
  load_camels_us_attributes glob_fnmatch plain_read_csv integral_float_repr
    no_huc_tree example_dir ["01013500"]
  = Raise (KeyError "huc_02") /\
  exists df,
    load_camels_us_attributes glob_fnmatch plain_read_csv integral_float_repr
      example_tree example_dir [] = Ok df.
Proof.
  split.
  - assert (Hdfs : mapM (read_attribute_file plain_read_csv no_huc_tree)
                     (glob_here glob_fnmatch "camels_*.txt"
                        (joinpath example_dir "camels_attributes_v2.0")
                        (resolve no_huc_tree (joinpath example_dir "camels_attributes_v2.0")))
                   = Ok _)
      by (vm_compute; reflexivity).
    match type of Hdfs with
    | _ = Ok ?dfs => assert (Hcat : concat_axis1 dfs = Ok _) by (vm_compute; reflexivity)
    end.
    apply (proj1 (attributes_need_huc_02 glob_fnmatch plain_read_csv integral_float_repr
                    no_huc_tree example_dir ["01013500"] _ _ eq_refl Hdfs Hcat)).
    vm_compute. reflexivity.
  - assert (Hdfs : mapM (read_attribute_file plain_read_csv example_tree)
                     (glob_here glob_fnmatch "camels_*.txt"
                        (joinpath example_dir "camels_attributes_v2.0")
                        (resolve example_tree (joinpath example_dir "camels_attributes_v2.0")))
                   = Ok _)
      by (vm_compute; reflexivity).
    match type of Hdfs with
    | _ = Ok ?dfs => assert (Hcat : concat_axis1 dfs = Ok _) by (vm_compute; reflexivity)
    end.
    apply (proj2 (attributes_need_huc_02 glob_fnmatch plain_read_csv integral_float_repr
                    example_tree example_dir [] _ _ eq_refl Hdfs Hcat)).
    vm_compute. reflexivity.
Defined.

Lemma attributes_table_is_rectangular_witness :
  exists df,
    load_camels_us_attributes glob_fnmatch plain_read_csv integral_float_repr
      example_tree example_dir ["01022500"] = Ok df /\
    rectangular (List.length (index df)) (columns df).
Proof.
  eexists.
  assert (H : load_camels_us_attributes glob_fnmatch plain_read_csv integral_float_repr
                example_tree example_dir ["01022500"] = Ok _)
    by (vm_compute; reflexivity).
  split; [exact H |].
  apply (attributes_table_is_rectangular glob_fnmatch plain_read_csv integral_float_repr
           example_tree example_dir _ _ H).
  intros txt_file text t Hin Htext Ht.
  vm_compute in Hin. destruct Hin as [<- | [<- | []]];
    vm_compute in Htext; injection Htext as <-;
    vm_compute in Ht; injection Ht as <-;
    exists 2%nat; repeat constructor.
Defined.

Lemma attributes_index_from_files_witness :
  exists df,
    load_camels_us_attributes glob_fnmatch plain_read_csv integral_float_repr
      example_tree example_dir ["01022500"; "01013500"] = Ok df /\
    unique (index df) = true.
Proof.
  eexists.
  assert (H : load_camels_us_attributes glob_fnmatch plain_read_csv integral_float_repr
                example_tree example_dir ["01022500"; "01013500"] = Ok _)
    by (vm_compute; reflexivity).
  split; [exact H |].
  destruct (attributes_index_from_files _ _ _ _ _ _ _ H) as (dfs & Hdfs & _ & Hu).
  vm_compute in Hdfs. injection Hdfs as <-.
  apply Hu.
  - intros d [<- | [<- | []]]; reflexivity.
  - constructor; [intros [E | []]; discriminate E |].
    constructor; [intros [] | constructor].
Defined.

Lemma attributes_outer_join_witness :
  exists df,
    load_camels_us_attributes glob_fnmatch plain_read_csv integral_float_repr
      partial_name_tree example_dir [] = Ok df /\
    nth_error (index df) 1 = Some (SStr "01022500") /\
    exists col, In ("gauge_name", col) (columns df) /\
                nth_error col 1 = Some (SFloat nan).
Proof.
  eexists.
  assert (H : load_camels_us_attributes glob_fnmatch plain_read_csv integral_float_repr
                partial_name_tree example_dir [] = Ok _)
    by (vm_compute; reflexivity).
  split; [exact H |]. split; [reflexivity |].
  destruct (attributes_outer_join _ _ _ _ _ _ H) as (dfs & Hdfs & Hcells).
  vm_compute in Hdfs. injection Hdfs as <-.
  destruct (Hcells _ 1%nat (SStr "01022500") (or_introl eq_refl) eq_refl)
    as (Hmissing & _).
  apply (Hmissing eq_refl "gauge_name" [SStr "Fish River near Fort Kent, Maine"]).
  - right. left. reflexivity.
  - discriminate.
  - discriminate.
Defined.

Lemma huc_reads_back_as_huc_02_witness :
  exists df,
    load_camels_us_attributes glob_fnmatch plain_read_csv integral_float_repr
      example_tree example_dir [] = Ok df /\
    exists str,
      nth_error (hd [] (columns_named "huc" (columns df))) 0 = Some (SStr str) /\
      py_int str = Some 1.
Proof.
  eexists.
  assert (H : load_camels_us_attributes glob_fnmatch plain_read_csv integral_float_repr
                example_tree example_dir [] = Ok _)
    by (vm_compute; reflexivity).
  split; [exact H |].
  destruct (huc_reads_back_as_huc_02 _ _ _ _ _ _ _ H) as (joined & huc_02 & Hj & Hh & Hback).
  vm_compute in Hj. injection Hj as <-.
  vm_compute in Hh. injection Hh as <-.
  apply (Hback _ 0%nat 1).
  - left. reflexivity.
  - reflexivity.
Defined.

Lemma forcings_area_line_required_witness :
  load_camels_us_forcings glob_fnmatch plain_read_csv integral_float_repr ns_in_bounds
    short_forcing_tree example_dir "01013500" "daymet"
  = Raise (ValueError "invalid literal for int() with base 10").
Proof.
  assert (Hglob : glob_rec glob_fnmatch short_forcing_tree
                    ("01013500" ++ "_*_forcing_leap.txt")%string
                    (joinpath (joinpath example_dir "basin_mean_forcing") "daymet")
                  = _ :: _)
    by (vm_compute; reflexivity).
  match type of Hglob with
  | _ = ?f :: _ =>
      assert (Htext : open_read short_forcing_tree f = Ok _) by (vm_compute; reflexivity)
  end.
  apply (proj2 (forcings_area_line_required glob_fnmatch plain_read_csv integral_float_repr
                  ns_in_bounds short_forcing_tree example_dir "01013500" "daymet"
                  _ _ _ eq_refl Hglob Htext)).
  vm_compute. reflexivity.
Defined.

Lemma forcings_ignore_first_two_lines_witness :
  read_forcing_file plain_read_csv integral_float_repr ns_in_bounds example_forcing_text
  = read_forcing_file plain_read_csv integral_float_repr ns_in_bounds
      (String "010" (String "010" (snd (readline (snd (readline example_forcing_text)))))).
Proof.
  apply (forcings_ignore_first_two_lines plain_read_csv integral_float_repr ns_in_bounds
           "    47.24" "   250" "" ""
           (snd (readline (snd (readline example_forcing_text)))));
    reflexivity.
Defined.

Lemma date_index_holds_calendar_dates_witness :
  exists df area,
    load_camels_us_forcings glob_fnmatch plain_read_csv integral_float_repr ns_in_bounds
      example_tree example_dir "01013500" "daymet" = Ok (df, area) /\
    Forall (fun ts => calendar_date ts /\
                      ns_in_bounds (ts_year ts) (ts_month ts) (ts_day ts) = true)
           (index df).
Proof.
  assert (Hload : exists df area,
             load_camels_us_forcings glob_fnmatch plain_read_csv integral_float_repr
               ns_in_bounds example_tree example_dir "01013500" "daymet" = Ok (df, area))
    by (eexists; eexists; vm_compute; reflexivity).
  destruct Hload as (df & area & H). exists df, area. split; [exact H |].
  apply (proj1 (date_index_holds_calendar_dates glob_fnmatch plain_read_csv
                  integral_float_repr ns_in_bounds false) _ _ _ _ _ _ H).
Defined.

Lemma loaders_reject_impossible_dates_witness :
  exists s,
    load_camels_us_discharge glob_fnmatch plain_read_csv integral_float_repr ns_in_bounds false
      example_tree example_dir "01013500" 831000000 = Ok s /\
    1 <= 2 <= days_in_month 1980 1 /\
    ns_in_bounds 1980 1 2 = true.
Proof.
  eexists.
  assert (H : load_camels_us_discharge glob_fnmatch plain_read_csv integral_float_repr
                ns_in_bounds false example_tree example_dir "01013500" 831000000 = Ok _)
    by (vm_compute; reflexivity).
  split; [exact H |].
  destruct (proj2 (loaders_reject_impossible_dates glob_fnmatch plain_read_csv
                     integral_float_repr ns_in_bounds false) _ _ _ _ _ H)
    as (t & year & mnth & day & Ht & Hy & Hm & Hd & Hrows).
  destruct Ht as (file_path & others & text & Hglob & Hopen & Hcsv).
  vm_compute in Hglob. injection Hglob as <- <-.
  vm_compute in Hopen. injection Hopen as <-.
  vm_compute in Hcsv. injection Hcsv as <-.
  vm_compute in Hy. injection Hy as <-.
  vm_compute in Hm. injection Hm as <-.
  vm_compute in Hd. injection Hd as <-.
  destruct (Hrows 1%nat 1980 1 2 eq_refl eq_refl eq_refl) as (_ & _ & Hday & Hb).
  split; assumption.
Defined.

Lemma discharge_series_never_below_zero_witness :
  exists s,
    load_camels_us_discharge glob_fnmatch plain_read_csv integral_float_repr ns_in_bounds false
      example_tree example_dir "01013500" 831000000 = Ok s /\
    Forall (fun c => exists v, c = SFloat v /\ flt v fzero = false) (s_values s).
Proof.
  eexists.
  assert (H : load_camels_us_discharge glob_fnmatch plain_read_csv integral_float_repr
                ns_in_bounds false example_tree example_dir "01013500" 831000000 = Ok _)
    by (vm_compute; reflexivity).
  split; [exact H |].
  apply (proj1 (proj2 (discharge_series_never_below_zero _ _ _ _ _ _ _ _ _ _ H)) eq_refl).
Defined.

Lemma discharge_with_area_zero_witness :
  exists s0,
    load_camels_us_discharge glob_fnmatch plain_read_csv integral_float_repr ns_in_bounds false
      example_tree example_dir "01013500" 0 = Ok s0 /\
    List.length (s_values s0) = 2%nat /\
    nth_error (s_values s0) 1 = Some (SFloat nan).
Proof.
  assert (H : load_camels_us_discharge glob_fnmatch plain_read_csv integral_float_repr
                ns_in_bounds false example_tree example_dir "01013500" 831000000 = Ok _)
    by (vm_compute; reflexivity).
  destruct (proj1 (discharge_with_area_zero glob_fnmatch plain_read_csv integral_float_repr
                     ns_in_bounds false example_tree example_dir "01013500") _ _ H)
    as (s0 & H0 & _ & Hlen).
  exists s0. split; [exact H0 |]. split; [exact Hlen |].
  destruct (proj2 (discharge_with_area_zero glob_fnmatch plain_read_csv integral_float_repr
                     ns_in_bounds false example_tree example_dir "01013500") _ H0)
    as (t & qobs & Ht & Hq & Hcells).
  destruct Ht as (file_path & others & text & Hglob & Hopen & Hcsv).
  vm_compute in Hglob. injection Hglob as <- <-.
  vm_compute in Hopen. injection Hopen as <-.
  vm_compute in Hcsv. injection Hcsv as <-.
  vm_compute in Hq. injection Hq as <-.
  destruct (Hcells 1%nat _ eq_refl) as (_ & Hmode).
  destruct (Hmode eq_refl) as (_ & Hnan).
  apply Hnan. reflexivity.
Defined.

Lemma discharge_zero_and_missing_are_kept_witness :
  exists s,
    load_camels_us_discharge glob_fnmatch plain_read_csv integral_float_repr ns_in_bounds false
      dry_day_tree example_dir "01013500" 831000000 = Ok s /\
    nth_error (s_values s) 0 = Some (SFloat (S754_zero false)).
Proof.
  eexists.
  assert (H : load_camels_us_discharge glob_fnmatch plain_read_csv integral_float_repr
                ns_in_bounds false dry_day_tree example_dir "01013500" 831000000 = Ok _)
    by (vm_compute; reflexivity).
  split; [exact H |].
  destruct (discharge_zero_and_missing_are_kept _ _ _ _ _ _ _ _ _ _ H)
    as (t & qobs & Ht & Hq & Hcells).
  destruct Ht as (file_path & others & text & Hglob & Hopen & Hcsv).
  vm_compute in Hglob. injection Hglob as <- <-.
  vm_compute in Hopen. injection Hopen as <-.
  vm_compute in Hcsv. injection Hcsv as <-.
  vm_compute in Hq. injection Hq as <-.
  destruct (Hcells 0%nat _ eq_refl) as (_ & Hzero).
  apply (Hzero false); [discriminate | reflexivity].
Defined.

Lemma discharge_reads_four_columns_witness :
  load_camels_us_discharge glob_fnmatch plain_read_csv integral_float_repr ns_in_bounds false
    example_tree example_dir "01013500" 831000000
  = load_camels_us_discharge glob_fnmatch plain_read_csv integral_float_repr ns_in_bounds false
      reflagged_tree example_dir "01013500" 831000000.
Proof.
  apply (discharge_reads_four_columns glob_fnmatch plain_read_csv integral_float_repr
           ns_in_bounds false example_tree reflagged_tree example_dir example_dir
           "01013500" "01013500" 831000000
           example_discharge_table reflagged_discharge_table).
  - eexists. eexists. eexists.
    split; [vm_compute; reflexivity |].
    split; [vm_compute; reflexivity | vm_compute; reflexivity].
  - eexists. eexists. eexists.
    split; [vm_compute; reflexivity |].
    split; [vm_compute; reflexivity | vm_compute; reflexivity].
  - reflexivity.
  - reflexivity.
  - reflexivity.
  - reflexivity.
Defined.

Lemma forcing_and_discharge_indexes_agree_witness :
  exists df area s,
    load_camels_us_forcings glob_fnmatch plain_read_csv integral_float_repr ns_in_bounds
      example_tree example_dir "01013500" "daymet" = Ok (df, area) /\
    load_camels_us_discharge glob_fnmatch plain_read_csv integral_float_repr ns_in_bounds false
      example_tree example_dir "01013500" area = Ok s /\
    index df = s_index s.
Proof.
  eexists. eexists. eexists.
  assert (Hf : load_camels_us_forcings glob_fnmatch plain_read_csv integral_float_repr
                 ns_in_bounds example_tree example_dir "01013500" "daymet" = Ok (_, _))
    by (vm_compute; reflexivity).
  assert (Hd : load_camels_us_discharge glob_fnmatch plain_read_csv integral_float_repr
                 ns_in_bounds false example_tree example_dir "01013500" 831000000 = Ok _)
    by (vm_compute; reflexivity).
  split; [exact Hf |]. split; [exact Hd |].
  apply (forcing_and_discharge_indexes_agree glob_fnmatch plain_read_csv
           integral_float_repr ns_in_bounds false example_tree example_dir "01013500" "daymet"
           _ _ _ _ example_forcing_table example_discharge_table Hf Hd).
  - eexists. eexists. eexists.
    split; [vm_compute; reflexivity |].
    split; [vm_compute; reflexivity | vm_compute; reflexivity].
  - eexists. eexists. eexists.
    split; [vm_compute; reflexivity |].
    split; [vm_compute; reflexivity | vm_compute; reflexivity].
  - reflexivity.
  - reflexivity.
  - reflexivity.
Defined.

Lemma forcings_columns_unchanged_witness :
  exists df area,
    load_camels_us_forcings glob_fnmatch plain_read_csv integral_float_repr ns_in_bounds
      example_tree example_dir "01013500" "daymet" = Ok (df, area) /\
    List.length (index df) = 2%nat /\ rectangular 2 (columns df).
Proof.
  assert (Hload : exists df area,
             load_camels_us_forcings glob_fnmatch plain_read_csv integral_float_repr
               ns_in_bounds example_tree example_dir "01013500" "daymet" = Ok (df, area))
    by (eexists; eexists; vm_compute; reflexivity).
  destruct Hload as (df & area & H). exists df, area. split; [exact H |].
  destruct (forcings_columns_unchanged _ _ _ _ _ _ _ _ _ _ H)
    as (t & Ht & _ & _ & _ & Hrect).
  destruct Ht as (file_path & others & text & Hglob & Hopen & Hcsv).
  vm_compute in Hglob. injection Hglob as <- <-.
  vm_compute in Hopen. injection Hopen as <-.
  vm_compute in Hcsv. injection Hcsv as <-.
  apply (Hrect 2%nat). repeat constructor.
Defined.

Lemma loaders_read_a_matching_file_witness :
  exists s,
    load_camels_us_discharge glob_fnmatch plain_read_csv integral_float_repr ns_in_bounds false
      example_tree example_dir "01013500" 831000000 = Ok s /\
    exists rel name text,
      glob_fnmatch name "01013500_streamflow_qc.txt" = true /\
      resolve example_tree (joinpath example_dir "usgs_streamflow" ++ rel ++ [name])
      = Some (File text).
Proof.
  eexists.
  assert (H : load_camels_us_discharge glob_fnmatch plain_read_csv integral_float_repr
                ns_in_bounds false example_tree example_dir "01013500" 831000000 = Ok _)
    by (vm_compute; reflexivity).
  split; [exact H |].
  destruct (proj2 (loaders_read_a_matching_file glob_fnmatch plain_read_csv
                     integral_float_repr ns_in_bounds false) _ _ _ _ _ H)
    as (rel & name & text & t & Hm & Hres & _).
  exists rel, name, text. split; assumption.
Defined.

Lemma attributes_filter_by_all_basins_witness :
  exists full,
    load_camels_us_attributes glob_fnmatch plain_read_csv integral_float_repr
      example_tree example_dir [] = Ok full /\
    load_camels_us_attributes glob_fnmatch plain_read_csv integral_float_repr
      example_tree example_dir ["01013500"; "01022500"] = Ok full.
Proof.
  eexists.
  assert (H : load_camels_us_attributes glob_fnmatch plain_read_csv integral_float_repr
                example_tree example_dir [] = Ok _)
    by (vm_compute; reflexivity).
  split; [exact H |].
  apply (attributes_filter_by_all_basins glob_fnmatch plain_read_csv integral_float_repr
           example_tree example_dir ["01013500"; "01022500"] _ H).
  - reflexivity.
  - reflexivity.
  - repeat constructor.
Defined.

Lemma attributes_first_file_rows_first_witness :
  exists df,
    load_camels_us_attributes glob_fnmatch plain_read_csv integral_float_repr
      partial_name_tree example_dir [] = Ok df /\
    exists ext, index df = (SStr "01013500" :: ext)%list.
Proof.
  eexists.
  assert (H : load_camels_us_attributes glob_fnmatch plain_read_csv integral_float_repr
                partial_name_tree example_dir [] = Ok _)
    by (vm_compute; reflexivity).
  split; [exact H |].
  destruct (attributes_first_file_rows_first _ _ _ _ _ _ H)
    as (d0 & rest & ext & Hdfs & Hidx & _).
  vm_compute in Hdfs. injection Hdfs as <- <-.
  exists ext. exact Hidx.
Defined.

Lemma loaders_open_the_first_match_witness :
  load_camels_us_discharge glob_fnmatch plain_read_csv integral_float_repr ns_in_bounds false
    directory_match_tree example_dir "01013500" 831000000
  = Raise (IsADirectoryError "CAMELS_US/usgs_streamflow/01013500_streamflow_qc.txt").
Proof.
  assert (Hglob : glob_rec glob_fnmatch directory_match_tree
                    ("01013500" ++ "_streamflow_qc.txt")%string
                    (joinpath example_dir "usgs_streamflow")
                  = _ :: _)
    by (vm_compute; reflexivity).
  apply (proj2 (proj2 (loaders_open_the_first_match glob_fnmatch plain_read_csv
                         integral_float_repr ns_in_bounds false)
                  directory_match_tree example_dir "01013500" 831000000 _ _ Hglob)
           [("01013500_streamflow_qc.txt", File example_discharge_text)]).
  reflexivity.
Defined.

Lemma forcings_need_year_month_day_witness :
  load_camels_us_forcings glob_fnmatch plain_read_csv integral_float_repr ns_in_bounds
    renamed_month_tree example_dir "01013500" "daymet"
  = Raise (AttributeError "'DataFrame' object has no attribute 'Mnth'").
Proof.
  assert (Hglob : glob_rec glob_fnmatch renamed_month_tree
                    ("01013500" ++ "_*_forcing_leap.txt")%string
                    (joinpath (joinpath example_dir "basin_mean_forcing") "daymet")
                  = _ :: _)
    by (vm_compute; reflexivity).
  match type of Hglob with
  | _ = ?f :: _ =>
      assert (Htext : open_read renamed_month_tree f = Ok _) by (vm_compute; reflexivity)
  end.
  match type of Htext with
  | _ = Ok ?text =>
      assert (Harea : py_int (third_line text) = Some _) by (vm_compute; reflexivity);
      assert (Ht : plain_read_csv forcing_csv (after_third_line text) = Ok _)
        by (vm_compute; reflexivity)
  end.
  apply (proj1 (proj2 (forcings_need_year_month_day glob_fnmatch plain_read_csv
                         integral_float_repr ns_in_bounds renamed_month_tree example_dir
                         "01013500" "daymet" _ _ _ _ _ eq_refl Hglob Htext Harea Ht))).
  - discriminate.
  - reflexivity.
Defined.

Lemma huc_of_basin_without_region_witness :
  exists df,
    load_camels_us_attributes glob_fnmatch plain_read_csv integral_float_repr
      partial_huc_tree example_dir [] = Ok df /\
    nth_error (index df) 1 = Some (SStr "01022500") /\
    nth_error (hd [] (columns_named "huc" (columns df))) 1 = Some (SStr "nan").
Proof.
  eexists.
  assert (H : load_camels_us_attributes glob_fnmatch plain_read_csv integral_float_repr
                partial_huc_tree example_dir [] = Ok _)
    by (vm_compute; reflexivity).
  split; [exact H |]. split; [reflexivity |].
  destruct (huc_of_basin_without_region _ _ _ _ _ _ H) as (dfs & Hdfs & Hnan).
  vm_compute in Hdfs. injection Hdfs as <-.
  apply (Hnan _ [SInt 1] 1%nat (SStr "01022500") _ (or_introl eq_refl)).
  - left. reflexivity.
  - reflexivity.
  - reflexivity.
  - left. reflexivity.
Defined.
